(** * API-TRACKER: probe executor, metrics recorder and analytics aggregation

    A shallow embedding of the request execution and telemetry code of the
    repository:

    - [models/ApiEndpoint.js]   the endpoint document, its metrics, the
                                [successRate] virtual and the pre-save hook;
    - [models/ApiRequest.js]    the telemetry record, its virtuals, its
                                required paths and the pre-save hook that
                                derives [duration];
    - [models/User.js]          the API keys of a user;
    - [routes/api.js]           POST /endpoints, PUT /endpoints/:id and
                                POST /endpoints/:id/test;
    - [routes/tracking.js]      GET /dashboard, GET /requests,
                                GET /analytics and GET /performance.

    Numbers are JavaScript Numbers.  Counters, status codes and millisecond
    time stamps are integers and are modelled in [Z]; quotients are modelled
    in [Q].  Dates are their [getTime()] value in milliseconds.  An ObjectId
    is the string of its hexadecimal digits; where the code compares one
    with a string of the query, the two are kept apart as [Mongo.Value]s. *)

From Stdlib Require Import ZArith QArith Qround Lia Lqa.
From stdpp Require Import gmap strings list sorting.

Local Open Scope Z_scope.

(** ** JavaScript primitives *)

Module Js.

(** [Math.round(x)] is [floor(x + 0.5)]: halves go towards +infinity. *)
Definition mathRound (x : Q) : Z := Qfloor (x + (1 # 2)).

(** The quotient of two integer Numbers.  For operands below [2^52] in
    magnitude the double [p / n] and the exact quotient lie on the same
    side of every half-integer (half-integers are representable, and a
    quotient that is not one is at least [1/(2n)] away from the next), so
    [Math.round] of either is the same integer: the exact quotient is
    used. *)
Definition quot (p n : Z) : Q := (inject_Z p / inject_Z n)%Q.

(** Double-precision rounding of an exact result.  Expressions with two
    successive roundings, such as [(s / t) * 100], are not exact; they are
    computed through [rnd], of which only the IEEE-754 laws below are
    used. *)
Class Ieee := rnd : Q → Q.

Class IeeeLaws (F : Ieee) : Prop := {
  rnd_mono : ∀ x y : Q, (x <= y)%Q → (rnd x <= rnd y)%Q;
  rnd_0 : (rnd 0 == 0)%Q;
  rnd_1 : (rnd 1 == 1)%Q;
  rnd_100 : (rnd 100 == 100)%Q
}.

Definition fdiv `{Ieee} (x y : Q) : Q := rnd (x / y)%Q.
Definition fmul `{Ieee} (x y : Q) : Q := rnd (x * y)%Q.

(** Arithmetic without rounding error: an instance that satisfies the
    laws. *)
Definition exact : Ieee := fun x => x.

(** Truthiness of a string-valued property: [undefined] and the empty
    string are falsy. *)
Definition truthy (v : option string) : bool :=
  match v with
  | Some s => negb (String.eqb s "")
  | None => false
  end.

(** Faults that a handler's outer [try]/[catch] turns into a 500. *)
Inductive Error :=
| ReferenceError (identifier : string)
| TypeError (message : string)
| ValidationError (field : string)
| MongoServerError (message : string).

Inductive Exc (A : Type) :=
| Return (a : A)
| Throw (e : Error).
Arguments Return {A} a.
Arguments Throw {A} e.

#[global] Instance exc_ret : MRet Exc := fun A a => Return a.
#[global] Instance exc_bind : MBind Exc := fun A B k m =>
  match m with
  | Return a => k a
  | Throw e => Throw e
  end.

(** Lexical scopes: the names a block declares, innermost block first. *)
Definition Scope := list string.

Definition declares (sc : Scope) (x : string) : bool :=
  existsb (String.eqb x) sc.

Definition inScope (chain : list Scope) (x : string) : bool :=
  existsb (fun sc => declares sc x) chain.

(** Evaluating the identifier [x] where [chain] is visible: the value of
    its binding, or a [ReferenceError] when no enclosing scope declares
    it. *)
Definition readIdentifier {A} (chain : list Scope) (x : string) (binding : A)
  : Exc A :=
  if inScope chain x then Return binding else Throw (ReferenceError x).

End Js.

(** ** models/ApiEndpoint.js *)

Module ApiEndpoint.

Inductive Method := GET | POST | PUT | DELETE | PATCH | OPTIONS | HEAD.

Record Header := {
  name : string;
  value : string;
  required : bool
}.

Record Metrics := {
  totalRequests : Z;
  successfulRequests : Z;
  failedRequests : Z;
  averageResponseTime : Z;
  lastRequestTime : option Z;
  uptime : Z
}.

(** The schema defaults of [metrics]. *)
Definition defaultMetrics : Metrics := {|
  totalRequests := 0;
  successfulRequests := 0;
  failedRequests := 0;
  averageResponseTime := 0;
  lastRequestTime := None;
  uptime := 100
|}.

Record Doc := {
  _id : string;
  path : string;
  method : Method;
  product : string;
  baseUrl : string;
  fullUrl : string;
  headers : list Header;
  metrics : Metrics
}.

(** The [successRate] virtual. *)
Definition successRate `{Js.Ieee} (m : Metrics) : Z :=
  if totalRequests m =? 0 then 100
  else Js.mathRound
         (Js.fmul (Js.fdiv (inject_Z (successfulRequests m))
                           (inject_Z (totalRequests m))) 100).

(** The [endpointUrl] virtual. *)
Definition endpointUrl (e : Doc) : string := baseUrl e +:+ path e.

(** [pre('save')]: re-materialise [fullUrl]. *)
Definition preSave (e : Doc) : Doc := {|
  _id := _id e;
  path := path e;
  method := method e;
  product := product e;
  baseUrl := baseUrl e;
  fullUrl := baseUrl e +:+ path e;
  headers := headers e;
  metrics := metrics e
|}.

(** [doc.save()]: the hooks run, the result is what the store holds. *)
Definition save (e : Doc) : Doc := preSave e.

End ApiEndpoint.

(** ** models/ApiRequest.js *)

Module ApiRequest.

Inductive Environment := development | staging | production.
Inductive Source := manual | automated | monitoring | load_test.

#[global] Instance Environment_eq_dec : EqDecision Environment.
Proof. solve_decision. Defined.

(** A response body: parsed JSON, raw text, or the [{ error: message }]
    object of the network-error path. *)
Inductive Body :=
| JsonBody (text : string)
| TextBody (text : string)
| ErrorBody (message : string).

Module Response.
Record t := {
  statusCode : Z;
  statusText : string;
  headers : gmap string string;
  body : Body
}.
End Response.

(** [startTime] and [endTime] are Dates ([None]: not set). *)
Module Timing.
Record t := {
  startTime : option Z;
  endTime : option Z;
  duration : Z
}.
End Timing.

Record Doc := {
  endpoint : string;
  product : string;
  method : ApiEndpoint.Method;
  headers : gmap string string;
  response : Response.t;
  timing : Timing.t;
  size : Z;
  environment : Environment;
  source : Source;
  userId : option string
}.

(** The [isSuccess] and [isError] virtuals. *)
Definition isSuccess (r : Doc) : bool :=
  (200 <=? Response.statusCode (response r))
  && (Response.statusCode (response r) <? 300).

Definition isError (r : Doc) : bool :=
  400 <=? Response.statusCode (response r).

(** [pre('save')]: when both dates are set (a Date is always truthy),
    [duration] is overwritten by their difference. *)
Definition preSaveTiming (t : Timing.t) : Timing.t :=
  match Timing.startTime t, Timing.endTime t with
  | Some startTime, Some endTime =>
      {| Timing.startTime := Some startTime;
         Timing.endTime := Some endTime;
         Timing.duration := endTime - startTime |}
  | _, _ => t
  end.

Definition preSave (r : Doc) : Doc := {|
  endpoint := endpoint r;
  product := product r;
  method := method r;
  headers := headers r;
  response := response r;
  timing := preSaveTiming (timing r);
  size := size r;
  environment := environment r;
  source := source r;
  userId := userId r
|}.

(** The [required] validators of the schema on the paths modelled here.
    [required] on a Date path rejects a missing date, on a String path the
    empty string as well; the identifiers, the method, the status code and
    the duration are always present in [Doc]. *)
Definition requiredDate (field : string) (v : option Z) : Js.Exc unit :=
  match v with
  | Some _ => Js.Return ()
  | None => Js.Throw (Js.ValidationError field)
  end.

Definition requiredString (field : string) (v : string) : Js.Exc unit :=
  if String.eqb v "" then Js.Throw (Js.ValidationError field)
  else Js.Return ().

Definition validate (r : Doc) : Js.Exc unit :=
  _ ← requiredString "response.statusText" (Response.statusText (response r));
  _ ← requiredDate "timing.startTime" (Timing.startTime (timing r));
  requiredDate "timing.endTime" (Timing.endTime (timing r)).

(** [doc.save()]: the document is validated first (validation is the first
    [pre('save')] hook); a document that fails is not stored.  Then the
    schema's own hook runs and the result is what the store holds. *)
Definition save (r : Doc) : Js.Exc Doc :=
  _ ← validate r;
  Js.Return (preSave r).

End ApiRequest.

(** ** routes/api.js *)

Module Api.

Import Js.

(** *** POST /api/endpoints *)

Module PostEndpoints.

(** The request body after the sanitizers ([trim]).  [fullUrl] is not
    validated and may be sent along; the spread [...req.body] copies it and
    the explicit [fullUrl] property that follows overwrites it.  [metrics]
    is not validated either: [Some m] is a body with a [metrics] object, as
    the schema casts it (the numbers sent, the schema default where the
    object leaves a field out). *)
Record Body := {
  path : string;
  method : ApiEndpoint.Method;
  product : string;
  baseUrl : string;
  fullUrl : option string;
  headers : list ApiEndpoint.Header;
  metrics : option ApiEndpoint.Metrics
}.

(** [{ ...req.body, createdBy: userId, fullUrl: ... }] as the schema casts
    it: the spread copies the body's [metrics] too, and [metrics] takes the
    schema defaults only when the body has none. *)
Definition endpointData (newId : string) (body : Body) : ApiEndpoint.Doc := {|
  ApiEndpoint._id := newId;
  ApiEndpoint.path := path body;
  ApiEndpoint.method := method body;
  ApiEndpoint.product := product body;
  ApiEndpoint.baseUrl := baseUrl body;
  ApiEndpoint.fullUrl := baseUrl body +:+ path body;
  ApiEndpoint.headers := headers body;
  ApiEndpoint.metrics := default ApiEndpoint.defaultMetrics (metrics body)
|}.

Inductive Result :=
| Created (endpoint : ApiEndpoint.Doc)
| BadRequest
| NotFound.

(** The validators of the modelled fields: [path] is not empty and
    [baseUrl] is a URL ([isURL] is the validator library's test). *)
Definition valid (isURL : string → bool) (body : Body) : bool :=
  negb (String.eqb (path body) "") && isURL (baseUrl body).

Definition handler (isURL : string → bool) (productExists : bool)
    (newId : string) (body : Body) : Result :=
  if valid isURL body then
    if productExists then Created (ApiEndpoint.save (endpointData newId body))
    else NotFound
  else BadRequest.

End PostEndpoints.

(** *** PUT /api/endpoints/:id *)

Module PutEndpoint.

(** [updateData = req.body], after the sanitizers: every property is
    optional.  [fullUrl] and [metrics] have no validator; [Some m] is a
    body with a [metrics] object, read back as the schema casts it. *)
Record Body := {
  path : option string;
  method : option ApiEndpoint.Method;
  baseUrl : option string;
  fullUrl : option string;
  metrics : option ApiEndpoint.Metrics
}.

Inductive Result :=
| Updated (endpoint : ApiEndpoint.Doc)
| BadRequest
| NotFound
| ServerError.

(** The validators of the modelled fields: when present, [path] is not
    empty and [baseUrl] is a URL.  [fullUrl] has no validator. *)
Definition valid (isURL : string → bool) (body : Body) : bool :=
  match path body with
  | Some p => negb (String.eqb p "")
  | None => true
  end
  && match baseUrl body with
     | Some b => isURL b
     | None => true
     end.

(** [v || currentEndpoint.field]: the right operand is evaluated only
    when [v] is falsy, and reading a property of [null] throws. *)
Definition orCurrent (v : option string)
    (currentEndpoint : option ApiEndpoint.Doc)
    (field : ApiEndpoint.Doc → string) : Exc string :=
  match v with
  | Some s =>
      if truthy v then Return s
      else match currentEndpoint with
           | Some c => Return (field c)
           | None => Throw (TypeError "Cannot read properties of null")
           end
  | None =>
      match currentEndpoint with
      | Some c => Return (field c)
      | None => Throw (TypeError "Cannot read properties of null")
      end
  end.

(** "Update full URL if baseUrl or path changed". *)
Definition withFullUrl (currentEndpoint : option ApiEndpoint.Doc)
    (updateData : Body) : Exc Body :=
  if truthy (baseUrl updateData) || truthy (path updateData) then
    newBaseUrl ← orCurrent (baseUrl updateData) currentEndpoint
                   ApiEndpoint.baseUrl;
    newPath ← orCurrent (path updateData) currentEndpoint ApiEndpoint.path;
    Return {| path := path updateData;
              method := method updateData;
              baseUrl := baseUrl updateData;
              fullUrl := Some (newBaseUrl +:+ newPath);
              metrics := metrics updateData |}
  else Return updateData.

(** [required] on a string path rejects the empty string
    ([runValidators: true]). *)
Definition requiredOk (field : string) (v : option string) : Exc unit :=
  match v with
  | Some "" => Throw (ValidationError field)
  | _ => Return ()
  end.

(** [findByIdAndUpdate(id, updateData, { new: true, runValidators: true })]:
    the properties present in [updateData] are set; no [save] hook
    runs. *)
Definition findByIdAndUpdate (doc : option ApiEndpoint.Doc)
    (updateData : Body) : Exc (option ApiEndpoint.Doc) :=
  _ ← requiredOk "path" (path updateData);
  _ ← requiredOk "baseUrl" (baseUrl updateData);
  _ ← requiredOk "fullUrl" (fullUrl updateData);
  Return
    (match doc with
     | None => None
     | Some e =>
         Some {| ApiEndpoint._id := ApiEndpoint._id e;
                 ApiEndpoint.path := default (ApiEndpoint.path e) (path updateData);
                 ApiEndpoint.method := default (ApiEndpoint.method e) (method updateData);
                 ApiEndpoint.product := ApiEndpoint.product e;
                 ApiEndpoint.baseUrl := default (ApiEndpoint.baseUrl e) (baseUrl updateData);
                 ApiEndpoint.fullUrl := default (ApiEndpoint.fullUrl e) (fullUrl updateData);
                 ApiEndpoint.headers := ApiEndpoint.headers e;
                 ApiEndpoint.metrics := default (ApiEndpoint.metrics e) (metrics updateData) |}
     end).

(** The handler: its response and the document the store holds
    afterwards. *)
Definition handler (isURL : string → bool) (stored : option ApiEndpoint.Doc)
    (updateData : Body) : Result * option ApiEndpoint.Doc :=
  if valid isURL updateData then
    match (u ← withFullUrl stored updateData; findByIdAndUpdate stored u) with
    | Return (Some e) => (Updated e, Some e)
    | Return None => (NotFound, stored)
    | Throw _ => (ServerError, stored)
    end
  else (BadRequest, stored).

End PutEndpoint.

(** *** POST /api/endpoints/:id/test *)

Module TestEndpoint.

(** What [fetch] and the reading of the body do is the network's choice;
    the handler is a function of that outcome. *)
Module Fetch.
Inductive BodyRead :=
| ReadOk (text : string)
| ReadFails (message : string).

Record Response := {
  status : Z;
  statusText : string;
  headers : gmap string string;
  content : BodyRead
}.

Inductive Outcome :=
| Resolved (response : Response)
| Rejected (message : string).
End Fetch.

Record RequestOptions := {
  method : ApiEndpoint.Method;
  headers : gmap string string;
  body : option string
}.

Definition carriesBody (m : ApiEndpoint.Method) : bool :=
  match m with
  | ApiEndpoint.POST | ApiEndpoint.PUT | ApiEndpoint.PATCH => true
  | _ => false
  end.

(** [{ 'Content-Type': 'application/json', ...headers }]: the spread is
    written last, so its keys win. *)
Definition requestHeaders (headers : gmap string string)
  : gmap string string :=
  headers ∪ {[ "Content-Type" := "application/json" ]}.

(** [requestBody]: the serialised override body, [None] when falsy. *)
Definition requestOptions (endpoint : ApiEndpoint.Doc)
    (headers : gmap string string) (requestBody : option string)
  : RequestOptions := {|
  method := ApiEndpoint.method endpoint;
  headers := requestHeaders headers;
  body := if carriesBody (ApiEndpoint.method endpoint) then requestBody
          else None
|}.

Fixpoint includes (needle hay : string) : bool :=
  String.prefix needle hay
  || match hay with
     | EmptyString => false
     | String _ rest => includes needle rest
     end.

(** The [let] variables of line 359 once the inner [try]/[catch] is
    left. *)
Record Lets := {
  statusCode : Z;
  statusText : string;
  responseBody : ApiRequest.Body
}.

Definition networkError (message : string) : Lets := {|
  statusCode := 0;
  statusText := "Network Error";
  responseBody := ApiRequest.ErrorBody message
|}.

(** The inner [try]/[catch].  The second component is the binding of
    [const responseHeaders], which belongs to the [try] block ([None]:
    the declaration was not reached). *)
Definition tryFetch (outcome : Fetch.Outcome)
  : Lets * option (gmap string string) :=
  match outcome with
  | Fetch.Resolved response =>
      let responseHeaders := Fetch.headers response in
      let contentType := Fetch.headers response !! "content-type" in
      match Fetch.content response with
      | Fetch.ReadOk text =>
          ({| statusCode := Fetch.status response;
              statusText := Fetch.statusText response;
              responseBody :=
                if truthy contentType
                   && includes "application/json" (default "" contentType)
                then ApiRequest.JsonBody text
                else ApiRequest.TextBody text |},
           Some responseHeaders)
      | Fetch.ReadFails message =>
          (networkError message, Some responseHeaders)
      end
  | Fetch.Rejected message => (networkError message, None)
  end.

(** The scopes of the handler. *)
Definition tryBlock : Scope := ["responseHeaders"; "contentType"].
Definition handlerBlock : Scope :=
  ["errors"; "id"; "headers"; "queryParams"; "requestBody"; "environment";
   "endpoint"; "url"; "requestOptions"; "startTime"; "response";
   "responseBody"; "statusCode"; "statusText"; "endTime"; "duration";
   "ApiRequest"; "uuidv4"; "apiRequest"].
Definition handlerParams : Scope := ["req"; "res"].
Definition moduleScope : Scope :=
  ["express"; "body"; "validationResult"; "query"; "ApiEndpoint";
   "Product"; "router"; "exports"; "require"; "module"; "__filename";
   "__dirname"].
Definition globalScope : Scope :=
  ["fetch"; "URLSearchParams"; "Object"; "JSON"; "Date"; "Math";
   "console"].

(** What is visible after the inner [try]/[catch], where the record and
    the response are built. *)
Definition afterTry : list Scope :=
  [handlerBlock; handlerParams; moduleScope; globalScope].

(** [endTime.getTime() - startTime.getTime()], line 389. *)
Definition duration (startTime endTime : Z) : Z := endTime - startTime.

(** [responseHeaders || {}] *)
Definition orEmpty (v : option (gmap string string)) : gmap string string :=
  default ∅ v.

(** [new ApiRequest({ ... })], lines 395 to 420. *)
Definition newApiRequest (stringifyLength : ApiRequest.Body → Z)
    (endpoint : ApiEndpoint.Doc) (requestOptions : RequestOptions)
    (environment : ApiRequest.Environment) (lets : Lets)
    (blockHeaders : option (gmap string string))
    (startTime endTime duration : Z) : Exc ApiRequest.Doc :=
  responseHeaders ← readIdentifier afterTry "responseHeaders" blockHeaders;
  Return {|
    ApiRequest.endpoint := ApiEndpoint._id endpoint;
    ApiRequest.product := ApiEndpoint.product endpoint;
    ApiRequest.method := ApiEndpoint.method endpoint;
    ApiRequest.headers := headers requestOptions;
    ApiRequest.response := {|
      ApiRequest.Response.statusCode := statusCode lets;
      ApiRequest.Response.statusText := statusText lets;
      ApiRequest.Response.headers := orEmpty responseHeaders;
      ApiRequest.Response.body := responseBody lets |};
    ApiRequest.timing := {|
      ApiRequest.Timing.startTime := Some startTime;
      ApiRequest.Timing.endTime := Some endTime;
      ApiRequest.Timing.duration := duration |};
    ApiRequest.size := stringifyLength (responseBody lets);
    ApiRequest.environment := environment;
    ApiRequest.source := ApiRequest.manual;
    ApiRequest.userId := None
  |}.

(** "Update endpoint metrics", lines 425 to 439: one completed request
    with status [statusCode] and [duration] milliseconds, recorded at
    time [now]. *)
Definition updateEndpointMetrics (m : ApiEndpoint.Metrics)
    (statusCode duration now : Z) : ApiEndpoint.Metrics :=
  let totalRequests := ApiEndpoint.totalRequests m + 1 in
  let successfulRequests :=
    if (200 <=? statusCode) && (statusCode <? 300)
    then ApiEndpoint.successfulRequests m + 1
    else ApiEndpoint.successfulRequests m in
  let failedRequests :=
    if (200 <=? statusCode) && (statusCode <? 300)
    then ApiEndpoint.failedRequests m
    else if 400 <=? statusCode
         then ApiEndpoint.failedRequests m + 1
         else ApiEndpoint.failedRequests m in
  let currentAvg := ApiEndpoint.averageResponseTime m in
  {| ApiEndpoint.totalRequests := totalRequests;
     ApiEndpoint.successfulRequests := successfulRequests;
     ApiEndpoint.failedRequests := failedRequests;
     ApiEndpoint.averageResponseTime :=
       mathRound (quot (currentAvg * (totalRequests - 1) + duration)
                       totalRequests);
     ApiEndpoint.lastRequestTime := Some now;
     ApiEndpoint.uptime := ApiEndpoint.uptime m |}.

Definition withMetrics (e : ApiEndpoint.Doc) (m : ApiEndpoint.Metrics)
  : ApiEndpoint.Doc := {|
  ApiEndpoint._id := ApiEndpoint._id e;
  ApiEndpoint.path := ApiEndpoint.path e;
  ApiEndpoint.method := ApiEndpoint.method e;
  ApiEndpoint.product := ApiEndpoint.product e;
  ApiEndpoint.baseUrl := ApiEndpoint.baseUrl e;
  ApiEndpoint.fullUrl := ApiEndpoint.fullUrl e;
  ApiEndpoint.headers := ApiEndpoint.headers e;
  ApiEndpoint.metrics := m
|}.

(** The [data] of the 200 response. *)
Record Payload := {
  requestHeaders' : gmap string string;
  response : ApiRequest.Response.t;
  timing : ApiRequest.Timing.t;
  metrics : ApiEndpoint.Metrics
}.

Inductive Result :=
| Completed (data : Payload)
| NotFound
| ServerError.

(** The store as far as the handler touches it: the endpoint whose id
    was asked for, and the telemetry records. *)
Record Store := {
  endpoint : option ApiEndpoint.Doc;
  requests : list ApiRequest.Doc
}.

(** The handler.  [startTime] and [endTime] are the two readings of the
    clock around the call, [now] the reading of line 426.  A fault lands
    in the outer [catch], which answers 500; what was saved before the
    fault stays saved. *)
Definition handler (stringifyLength : ApiRequest.Body → Z) (store : Store)
    (headers : gmap string string) (requestBody : option string)
    (environment : ApiRequest.Environment) (outcome : Fetch.Outcome)
    (startTime endTime now : Z) : Result * Store :=
  match endpoint store with
  | None => (NotFound, store)
  | Some endpoint =>
      let requestOptions := requestOptions endpoint headers requestBody in
      let '(lets, blockHeaders) := tryFetch outcome in
      let duration := duration startTime endTime in
      match newApiRequest stringifyLength endpoint requestOptions
              environment lets blockHeaders startTime endTime duration with
      | Throw _ => (ServerError, store)
      | Return apiRequest =>
          match ApiRequest.save apiRequest with
          | Throw _ => (ServerError, store)
          | Return saved =>
              let endpoint' :=
                ApiEndpoint.save
                  (withMetrics endpoint
                     (updateEndpointMetrics (ApiEndpoint.metrics endpoint)
                        (statusCode lets) duration now)) in
              let store' := {| endpoint := Some endpoint';
                               requests := requests store ++ [saved] |} in
              match readIdentifier afterTry "responseHeaders" blockHeaders with
              | Throw _ => (ServerError, store')
              | Return responseHeaders =>
                  (Completed {|
                     requestHeaders' := TestEndpoint.headers requestOptions;
                     response := {|
                       ApiRequest.Response.statusCode := statusCode lets;
                       ApiRequest.Response.statusText := statusText lets;
                       ApiRequest.Response.headers := orEmpty responseHeaders;
                       ApiRequest.Response.body := responseBody lets |};
                     timing := {|
                       ApiRequest.Timing.startTime := Some startTime;
                       ApiRequest.Timing.endTime := Some endTime;
                       ApiRequest.Timing.duration := duration |};
                     metrics := ApiEndpoint.metrics endpoint' |},
                   store')
              end
          end
      end
  end.

End TestEndpoint.

End Api.

(** ** The aggregation pipeline stages the routes use *)

Module Mongo.

(** The date operators of the store and the order in which [$group] hands
    out its groups.  The store documents that [$group] does not order its
    output; [emit] stands for whatever order it picks. *)
Class Pipeline := {
  year : Z → Z;
  month : Z → Z;
  dayOfMonth : Z → Z;
  hour : Z → Z;
  week : Z → Z;
  emit : ∀ A : Type, list A → list A
}.

Class PipelineLaws (P : Pipeline) : Prop := {
  emit_perm : ∀ (A : Type) (l : list A), emit A l ≡ₚ l
}.

Section Group.
Context {Doc K Acc : Type} `{EqDecision K}.
Variables (key : Doc → K) (empty : Acc) (step : Acc → Doc → Acc).

(** One document enters the group of its key; a key not seen before opens a
    group. *)
Fixpoint accumulate (doc : Doc) (groups : list (K * Acc)) : list (K * Acc) :=
  match groups with
  | [] => [(key doc, step empty doc)]
  | (k, acc) :: rest =>
      if decide (key doc = k) then (k, step acc doc) :: rest
      else (k, acc) :: accumulate doc rest
  end.

Definition scan (docs : list Doc) : list (K * Acc) :=
  foldl (fun groups doc => accumulate doc groups) [] docs.

(** [{ $group: { _id: key, ...accumulators } }] *)
Definition group `{Pipeline} (docs : list Doc) : list (K * Acc) :=
  emit _ (scan docs).

(** The documents whose key is [k], in the order of the scan. *)
Definition members (k : K) (docs : list Doc) : list Doc :=
  filter (fun doc => key doc = k) docs.
End Group.

(** [$sum] over a field, [$min] and [$max] of the values seen so far. *)
Definition minAcc (acc : option Z) (v : Z) : option Z :=
  Some (match acc with Some m => Z.min m v | None => v end).
Definition maxAcc (acc : option Z) (v : Z) : option Z :=
  Some (match acc with Some m => Z.max m v | None => v end).

(** The order of [$sort] on one ascending field: a missing field sorts
    before every number. *)
Definition fieldCompare (a b : option Z) : comparison :=
  match a, b with
  | None, None => Eq
  | None, Some _ => Lt
  | Some _, None => Gt
  | Some x, Some y => x ?= y
  end.

(** The values of the two BSON types a filter on an identifier meets: the
    route holds the identifier as a string of the query, the stored field
    is an ObjectId ([hex]: its 24 hexadecimal digits). *)
Inductive Value :=
| VString (s : string)
| VObjectId (hex : string).

#[global] Instance Value_eq_dec : EqDecision Value.
Proof. solve_decision. Defined.

(** [{ field: v }] in a [$match] stage.  [Model.aggregate()] sends the
    pipeline as it is written, without the cast by the schema that
    [Model.find()] applies to its filter, and the store compares a value
    with the values of its own type only: a string equals no ObjectId. *)
Definition eqMatch (query stored : Value) : bool :=
  bool_decide (query = stored).

(** The [$percentile] accumulator as the store takes it (from version 7.0;
    an older store does not know the operator at all): [p] has to be an
    array of numbers between 0 and 1, and [method] has to be given and to
    be ['approximate']. *)
Module Percentile.
Inductive P :=
| Number (p : Q)
| Array (ps : list Q).

Record t := {
  input : string;
  p : P;
  method : option string
}.
End Percentile.

Definition percentileAccepted (a : Percentile.t) : bool :=
  match Percentile.p a, Percentile.method a with
  | Percentile.Array ps, Some m =>
      forallb (fun q => Qle_bool 0 q && Qle_bool q 1) ps
      && String.eqb m "approximate"
  | _, _ => false
  end.

End Mongo.

(** The date operators in UTC, the time zone the store uses when none is
    given: the proleptic Gregorian calendar over milliseconds since the
    epoch. *)
Module Utc.

Definition msPerDay : Z := 86400000.
Definition days (t : Z) : Z := t / msPerDay.

(** Civil date of a day number (day 0 is 1970-01-01). *)
Definition civil (z : Z) : Z * Z * Z :=
  let z := z + 719468 in
  let era := z / 146097 in
  let doe := z - era * 146097 in
  let yoe := (doe - doe / 1460 + doe / 36524 - doe / 146096) / 365 in
  let doy := doe - (365 * yoe + yoe / 4 - yoe / 100) in
  let mp := (5 * doy + 2) / 153 in
  let d := doy - (153 * mp + 2) / 5 + 1 in
  let m := if mp <? 10 then mp + 3 else mp - 9 in
  let y := yoe + era * 400 + (if m <=? 2 then 1 else 0) in
  (y, m, d).

(** Day number of a civil date. *)
Definition dayNumber (y m d : Z) : Z :=
  let y := if m <=? 2 then y - 1 else y in
  let era := y / 400 in
  let yoe := y - era * 400 in
  let doy := (153 * (if 2 <? m then m - 3 else m + 9) + 2) / 5 + d - 1 in
  let doe := yoe * 365 + yoe / 4 - yoe / 100 + doy in
  era * 146097 + doe - 719468.

Definition year (t : Z) : Z := let '(y, _, _) := civil (days t) in y.
Definition month (t : Z) : Z := let '(_, m, _) := civil (days t) in m.
Definition dayOfMonth (t : Z) : Z := let '(_, _, d) := civil (days t) in d.
Definition hour (t : Z) : Z := (t mod msPerDay) / 3600000.

(** [$week]: weeks begin on Sunday, week 1 begins with the first Sunday of
    the year, the days before it are week 0. *)
Definition week (t : Z) : Z :=
  let dayOfYear := days t - dayNumber (year t) 1 1 in
  let dayOfWeek := (days t + 4) mod 7 in
  (dayOfYear + 7 - dayOfWeek) / 7.

(** [$group] handing out its groups in the order their keys were first
    seen. *)
Definition pipeline : Mongo.Pipeline := {|
  Mongo.year := year;
  Mongo.month := month;
  Mongo.dayOfMonth := dayOfMonth;
  Mongo.hour := hour;
  Mongo.week := week;
  Mongo.emit := fun A l => l
|}.

(** The same store handing out its groups in the opposite order. *)
Definition reversed : Mongo.Pipeline := {|
  Mongo.year := year;
  Mongo.month := month;
  Mongo.dayOfMonth := dayOfMonth;
  Mongo.hour := hour;
  Mongo.week := week;
  Mongo.emit := fun A l => reverse l
|}.

End Utc.

(** ** routes/tracking.js *)

Module Tracking.

Import Js.

(** The [$match] filter: the start of the period, and the optional query
    parameters (a falsy one is not added to the filter).  The dashboard
    builds its filter without [product]; the analytics add the [product]
    of the query. *)
Record Filter := {
  startDate : Z;
  product : option string;
  environment : option ApiRequest.Environment
}.

Definition statusOf (r : ApiRequest.Doc) : Z :=
  ApiRequest.Response.statusCode (ApiRequest.response r).
Definition durationOf (r : ApiRequest.Doc) : Z :=
  ApiRequest.Timing.duration (ApiRequest.timing r).
Definition startTimeOf (r : ApiRequest.Doc) : option Z :=
  ApiRequest.Timing.startTime (ApiRequest.timing r).

(** An identifier in the filter of an aggregation: [if (id) filter.field =
    id] puts the string of the query into [$match], where it meets the
    ObjectId the document stores. *)
Definition idMatches (query : option string) (stored : string) : bool :=
  match query with
  | Some s =>
      if truthy query
      then Mongo.eqMatch (Mongo.VString s) (Mongo.VObjectId stored)
      else true
  | None => true
  end.

Definition matches (f : Filter) (r : ApiRequest.Doc) : bool :=
  match startTimeOf r with
  | Some t => startDate f <=? t
  | None => false
  end
  && idMatches (product f) (ApiRequest.product r)
  && match environment f with
     | Some e => bool_decide (ApiRequest.environment r = e)
     | None => true
     end.

(** [{ $match: filter }] *)
Definition matching (f : Filter) (docs : list ApiRequest.Doc)
  : list ApiRequest.Doc :=
  List.filter (matches f) docs.

(** [$cond: [{ $and: [{ $gte: [code, 200] }, { $lt: [code, 300] }] }, 1, 0]] *)
Definition successful (r : ApiRequest.Doc) : Z :=
  if (200 <=? statusOf r) && (statusOf r <? 300) then 1 else 0.

(** [$cond: [{ $gte: [code, 400] }, 1, 0]] *)
Definition failed (r : ApiRequest.Doc) : Z :=
  if 400 <=? statusOf r then 1 else 0.

(** [(s / t) * 100] *)
Definition percent `{Ieee} (s t : Z) : Q :=
  fmul (fdiv (inject_Z s) (inject_Z t)) 100.

(** *** GET /api/tracking/dashboard: the overview *)

Module Overview.

Record t := {
  totalRequests : Z;
  successfulRequests : Z;
  failedRequests : Z;
  durationSum : Z;
  minResponseTime : option Z;
  maxResponseTime : option Z;
  totalDataTransferred : Z
}.

Definition empty : t := {|
  totalRequests := 0;
  successfulRequests := 0;
  failedRequests := 0;
  durationSum := 0;
  minResponseTime := None;
  maxResponseTime := None;
  totalDataTransferred := 0
|}.

Definition step (acc : t) (r : ApiRequest.Doc) : t := {|
  totalRequests := totalRequests acc + 1;
  successfulRequests := successfulRequests acc + successful r;
  failedRequests := failedRequests acc + failed r;
  durationSum := durationSum acc + durationOf r;
  minResponseTime := Mongo.minAcc (minResponseTime acc) (durationOf r);
  maxResponseTime := Mongo.maxAcc (maxResponseTime acc) (durationOf r);
  totalDataTransferred := totalDataTransferred acc + ApiRequest.size r
|}.

(** [$group] with [_id: null]: one group, or none when nothing matches. *)
Definition overallMetrics `{Mongo.Pipeline} (f : Filter)
    (docs : list ApiRequest.Doc) : list (unit * t) :=
  Mongo.group (fun _ => ()) empty step (matching f docs).

(** [overallMetrics[0] || { totalRequests: 0, ... }] *)
Definition noRequests : t := {|
  totalRequests := 0;
  successfulRequests := 0;
  failedRequests := 0;
  durationSum := 0;
  minResponseTime := Some 0;
  maxResponseTime := Some 0;
  totalDataTransferred := 0
|}.

Definition overview `{Mongo.Pipeline} (f : Filter)
    (docs : list ApiRequest.Doc) : t :=
  match overallMetrics f docs with
  | (_, m) :: _ => m
  | [] => noRequests
  end.

(** "Calculate success rate", lines 218 to 223. *)
Definition successRate `{Ieee} (m : t) : Z :=
  if 0 <? totalRequests m
  then mathRound (percent (successfulRequests m) (totalRequests m))
  else 100.

End Overview.

(** *** GET /api/tracking/dashboard: top products by request count *)

Module TopProducts.

Record Acc := {
  requestCount : Z;
  durationSum : Z;
  successCount : Z
}.

Definition empty : Acc := {|
  requestCount := 0;
  durationSum := 0;
  successCount := 0
|}.

Definition step (acc : Acc) (r : ApiRequest.Doc) : Acc := {|
  requestCount := requestCount acc + 1;
  durationSum := durationSum acc + durationOf r;
  successCount := successCount acc + successful r
|}.

(** [{ $sort: { requestCount: -1 } }]: the only sort key. *)
Definition byCount : relation (string * Acc) :=
  fun a b => requestCount b.2 ≤ requestCount a.2.

#[global] Instance byCount_dec : RelDecision byCount.
Proof. intros a b. unfold byCount. apply _. Defined.

(** The aggregation: [$match], [$group] by product, [$sort], [$limit: 10]. *)
Definition aggregate `{Mongo.Pipeline} (f : Filter)
    (docs : list ApiRequest.Doc) : list (string * Acc) :=
  take 10
    (merge_sort byCount
       (Mongo.group ApiRequest.product empty step (matching f docs))).

(** One entry of [topProducts] in the response. *)
Module Item.
Record t := {
  _id : string;
  requestCount : Z;
  avgResponseTime : Q;
  successRate : Z
}.
End Item.

Definition item `{Ieee} (g : string * Acc) : Item.t := {|
  Item._id := g.1;
  Item.requestCount := requestCount g.2;
  Item.avgResponseTime :=
    fdiv (inject_Z (durationSum g.2)) (inject_Z (requestCount g.2));
  Item.successRate :=
    mathRound (percent (successCount g.2) (requestCount g.2))
|}.

Definition topProducts `{Ieee} `{Mongo.Pipeline} (f : Filter)
    (docs : list ApiRequest.Doc) : list Item.t :=
  item <$> aggregate f docs.

End TopProducts.

(** *** GET /api/tracking/analytics *)

Module Analytics.

Inductive GroupBy := ByHour | ByDay | ByWeek | ByMonth.

(** The [_id] of a bucket; [None] is a field the chosen granularity does not
    have. *)
Record BucketId := {
  year : option Z;
  month : option Z;
  day : option Z;
  hour : option Z;
  week : option Z
}.

#[global] Instance BucketId_eq_dec : EqDecision BucketId.
Proof. solve_decision. Defined.

(** "Build group by fields based on groupBy parameter" *)
Definition groupFields `{Mongo.Pipeline} (groupBy : GroupBy)
    (r : ApiRequest.Doc) : BucketId :=
  let startTime := startTimeOf r in
  match groupBy with
  | ByHour => {| year := Mongo.year <$> startTime;
                 month := Mongo.month <$> startTime;
                 day := Mongo.dayOfMonth <$> startTime;
                 hour := Mongo.hour <$> startTime;
                 week := None |}
  | ByDay => {| year := Mongo.year <$> startTime;
                month := Mongo.month <$> startTime;
                day := Mongo.dayOfMonth <$> startTime;
                hour := None;
                week := None |}
  | ByWeek => {| year := Mongo.year <$> startTime;
                 month := None;
                 day := None;
                 hour := None;
                 week := Mongo.week <$> startTime |}
  | ByMonth => {| year := Mongo.year <$> startTime;
                  month := Mongo.month <$> startTime;
                  day := None;
                  hour := None;
                  week := None |}
  end.

(** The accumulators of the [$group] stage. *)
Record Acc := {
  totalRequests : Z;
  successfulRequests : Z;
  failedRequests : Z;
  durationSum : Z;
  minResponseTime : option Z;
  maxResponseTime : option Z;
  totalDataTransferred : Z;
  uniqueUsers : gset (option string);
  uniqueEndpoints : gset string
}.

Definition empty : Acc := {|
  totalRequests := 0;
  successfulRequests := 0;
  failedRequests := 0;
  durationSum := 0;
  minResponseTime := None;
  maxResponseTime := None;
  totalDataTransferred := 0;
  uniqueUsers := ∅;
  uniqueEndpoints := ∅
|}.

Definition step (acc : Acc) (r : ApiRequest.Doc) : Acc := {|
  totalRequests := totalRequests acc + 1;
  successfulRequests := successfulRequests acc + successful r;
  failedRequests := failedRequests acc + failed r;
  durationSum := durationSum acc + durationOf r;
  minResponseTime := Mongo.minAcc (minResponseTime acc) (durationOf r);
  maxResponseTime := Mongo.maxAcc (maxResponseTime acc) (durationOf r);
  totalDataTransferred := totalDataTransferred acc + ApiRequest.size r;
  uniqueUsers := {[ ApiRequest.userId r ]} ∪ uniqueUsers acc;
  uniqueEndpoints := {[ ApiRequest.endpoint r ]} ∪ uniqueEndpoints acc
|}.

(** [$addFields]: the success rate of a group, before it is rounded. *)
Definition addSuccessRate `{Ieee} (acc : Acc) : Q :=
  if totalRequests acc =? 0 then 100%Q
  else percent (successfulRequests acc) (totalRequests acc).

(** [{ $sort: { '_id.year': 1, '_id.month': 1, '_id.day': 1, '_id.hour': 1,
    '_id.week': 1 } }] *)
Definition idCompare (a b : BucketId) : comparison :=
  match Mongo.fieldCompare (year a) (year b) with
  | Eq =>
      match Mongo.fieldCompare (month a) (month b) with
      | Eq =>
          match Mongo.fieldCompare (day a) (day b) with
          | Eq =>
              match Mongo.fieldCompare (hour a) (hour b) with
              | Eq => Mongo.fieldCompare (week a) (week b)
              | c => c
              end
          | c => c
          end
      | c => c
      end
  | c => c
  end.

Definition byId : relation (BucketId * Acc) :=
  fun a b => idCompare a.1 b.1 ≠ Gt.

#[global] Instance byId_dec : RelDecision byId.
Proof. intros a b. unfold byId. apply _. Defined.

(** The aggregation: [$match], [$group], [$sort]. *)
Definition aggregate `{Mongo.Pipeline} (f : Filter) (groupBy : GroupBy)
    (docs : list ApiRequest.Doc) : list (BucketId * Acc) :=
  merge_sort byId
    (Mongo.group (groupFields groupBy) empty step (matching f docs)).

(** One entry of [formattedAnalytics].  [bucket] holds the fields from which
    the handler builds [timestamp]. *)
Module Row.
Record t := {
  bucket : BucketId;
  totalRequests : Z;
  successfulRequests : Z;
  failedRequests : Z;
  successRate : Z;
  avgResponseTime : Z;
  minResponseTime : option Z;
  maxResponseTime : option Z;
  totalDataTransferred : Z;
  uniqueUserCount : Z;
  uniqueEndpointCount : Z
}.
End Row.

Definition format `{Ieee} (g : BucketId * Acc) : Row.t := {|
  Row.bucket := g.1;
  Row.totalRequests := totalRequests g.2;
  Row.successfulRequests := successfulRequests g.2;
  Row.failedRequests := failedRequests g.2;
  Row.successRate := mathRound (addSuccessRate g.2);
  Row.avgResponseTime :=
    mathRound (fdiv (inject_Z (durationSum g.2)) (inject_Z (totalRequests g.2)));
  Row.minResponseTime := minResponseTime g.2;
  Row.maxResponseTime := maxResponseTime g.2;
  Row.totalDataTransferred := totalDataTransferred g.2;
  Row.uniqueUserCount := Z.of_nat (size (uniqueUsers g.2));
  Row.uniqueEndpointCount := Z.of_nat (size (uniqueEndpoints g.2))
|}.

Definition formattedAnalytics `{Ieee} `{Mongo.Pipeline} (f : Filter)
    (groupBy : GroupBy) (docs : list ApiRequest.Doc) : list Row.t :=
  format <$> aggregate f groupBy docs.

End Analytics.

End Tracking.

(** Sum of a list of counters. *)
Definition sumZ (l : list Z) : Z := foldr Z.add 0 l.

(** ** The metrics recorder over a sequence of completed requests *)

(** A completed request as the recorder sees it. *)
Record Sample := {
  code : Z;
  took : Z;
  at_ : Z
}.

(** The metrics after the recorder was applied to each sample in turn. *)
Definition recorded (m : ApiEndpoint.Metrics) (samples : list Sample)
  : ApiEndpoint.Metrics :=
  foldl (fun m s =>
           Api.TestEndpoint.updateEndpointMetrics m (code s) (took s) (at_ s))
        m samples.

(** The specification's reference value: the mean of all durations, computed
    from scratch and rounded once. *)
Definition batchMean (durations : list Z) : Z :=
  Js.mathRound (Js.quot (sumZ durations) (Z.of_nat (length durations))).

(** [successfulRequests + failedRequests <= totalRequests] *)
Definition metricsInvariant (m : ApiEndpoint.Metrics) : Prop :=
  ApiEndpoint.successfulRequests m + ApiEndpoint.failedRequests m
  ≤ ApiEndpoint.totalRequests m.

(** [fullUrl] is the concatenation of [baseUrl] and [path]. *)
Definition urlInvariant (e : ApiEndpoint.Doc) : Prop :=
  ApiEndpoint.fullUrl e = ApiEndpoint.baseUrl e +:+ ApiEndpoint.path e.

(** An endpoint as POST /api/endpoints stores it. *)
Definition usersEndpoint : ApiEndpoint.Doc := {|
  ApiEndpoint._id := "e1";
  ApiEndpoint.path := "/users";
  ApiEndpoint.method := ApiEndpoint.GET;
  ApiEndpoint.product := "p1";
  ApiEndpoint.baseUrl := "https://api.example.com";
  ApiEndpoint.fullUrl := "https://api.example.com/users";
  ApiEndpoint.headers :=
    [ {| ApiEndpoint.name := "X-Api-Key";
         ApiEndpoint.value := "secret";
         ApiEndpoint.required := true |} ];
  ApiEndpoint.metrics := ApiEndpoint.defaultMetrics
|}.

(** A telemetry record with the fields the aggregations read; the rest is
    that of a manual probe in development. *)
Definition telemetry (product endpoint : string)
    (statusCode startTime duration : Z) : ApiRequest.Doc := {|
  ApiRequest.endpoint := endpoint;
  ApiRequest.product := product;
  ApiRequest.method := ApiEndpoint.GET;
  ApiRequest.headers := ∅;
  ApiRequest.response := {|
    ApiRequest.Response.statusCode := statusCode;
    ApiRequest.Response.statusText := "n/a";
    ApiRequest.Response.headers := ∅;
    ApiRequest.Response.body := ApiRequest.TextBody "" |};
  ApiRequest.timing := {|
    ApiRequest.Timing.startTime := Some startTime;
    ApiRequest.Timing.endTime := Some (startTime + duration);
    ApiRequest.Timing.duration := duration |};
  ApiRequest.size := 2;
  ApiRequest.environment := ApiRequest.development;
  ApiRequest.source := ApiRequest.manual;
  ApiRequest.userId := None
|}.

(** The filter of period [all] without product or environment. *)
Definition everything : Tracking.Filter := {|
  Tracking.startDate := 0;
  Tracking.product := None;
  Tracking.environment := None
|}.

(** Three calls to one endpoint on 2024-02-29 (UTC), at 12:00, 12:30 and
    13:10: durations 100, 200 and 300, two responses 200 and one 500. *)
Definition scenario : list ApiRequest.Doc :=
  [ telemetry "p1" "e1" 200 1709208000000 100;
    telemetry "p1" "e1" 200 1709209800000 200;
    telemetry "p1" "e1" 500 1709212200000 300 ].

(** One request to product "b", then one to product "a". *)
Definition tied : list ApiRequest.Doc :=
  [ telemetry "b" "e2" 200 1709208000000 40;
    telemetry "a" "e1" 200 1709209800000 60 ].

(** A product under the identifier the store gave it, three calls to one of
    its endpoints within the same hour, and the analytics filter of period
    [all] for
    [GET /api/tracking/analytics?period=all&product=65e0a1b2c3d4e5f601234567]. *)
Definition widgets : string := "65e0a1b2c3d4e5f601234567".

Definition widgetCalls : list ApiRequest.Doc :=
  [ telemetry widgets "65e0a1b2c3d4e5f60123abcd" 200 1709208000000 100;
    telemetry widgets "65e0a1b2c3d4e5f60123abcd" 200 1709208000000 200;
    telemetry widgets "65e0a1b2c3d4e5f60123abcd" 500 1709208000000 300 ].

Definition widgetsOnly : Tracking.Filter := {|
  Tracking.startDate := 0;
  Tracking.product := Some widgets;
  Tracking.environment := None
|}.

(** ** Pagination, as the listing routes do it

    GET /api/endpoints, GET /api/endpoints/:id/requests and
    GET /api/tracking/requests share the pattern
    [skip = (page - 1) * limit], [.skip(skip).limit(parseInt(limit))] and
    [pages: Math.ceil(total / limit)]. *)

Module Pagination.

(** [page] passes [isInt({ min: 1 })], [limit] passes
    [isInt({ min: 1, max: 100 })]; otherwise the route answers 400. *)
Definition valid (page limit : Z) : bool :=
  (1 <=? page) && (1 <=? limit) && (limit <=? 100).

Definition skip (page limit : Z) : Z := (page - 1) * limit.

(** [.skip(skip).limit(parseInt(limit))] over the sorted documents that the
    filter finds. *)
Definition window {A : Type} (page limit : Z) (found : list A) : list A :=
  take (Z.to_nat limit) (drop (Z.to_nat (skip page limit)) found).

(** [Math.ceil(total / limit)]; the quotient of two integers below [2^52]
    and its double lie between the same two integers, so the exact quotient
    is used. *)
Definition pages (total limit : Z) : Z := Qceiling (Js.quot total limit).

Record Info := {
  page : Z;
  limit : Z;
  total : Z;
  pageCount : Z
}.

(** The page of documents and the [pagination] object of the response;
    [None] is the 400 of the validators.  [total] is
    [countDocuments(filter)]. *)
Definition paginate {A : Type} (page limit : Z) (found : list A)
  : option (list A * Info) :=
  if valid page limit then
    Some (window page limit found,
          {| page := page;
             limit := limit;
             total := Z.of_nat (length found);
             pageCount := pages (Z.of_nat (length found)) limit |})
  else None.

End Pagination.

(** ** routes/tracking.js: GET /api/tracking/requests *)

Module Requests.

Inductive Status := success | error | client_error | server_error.

(** The query after validation.  A parameter that is present is a non-empty
    string, hence truthy; dates and integers are given as parsed. *)
Record Query := {
  product : option string;
  endpoint : option string;
  method : option ApiEndpoint.Method;
  status : option Status;
  environment : option ApiRequest.Environment;
  startDate : option Z;
  endDate : option Z;
  minDuration : option Z;
  maxDuration : option Z;
  page : option Z;
  limit : option Z
}.

#[global] Instance Method_eq_dec : EqDecision ApiEndpoint.Method.
Proof. solve_decision. Defined.

(** "Status filter": the condition put on [response.statusCode]. *)
Definition statusMatches (s : Status) (statusCode : Z) : bool :=
  match s with
  | success => (200 <=? statusCode) && (statusCode <? 300)
  | error => 400 <=? statusCode
  | client_error => (400 <=? statusCode) && (statusCode <? 500)
  | server_error => 500 <=? statusCode
  end.

(** A bound that is not given does not constrain. *)
Definition atLeast (bound : option Z) (v : Z) : bool :=
  match bound with Some b => b <=? v | None => true end.
Definition atMost (bound : option Z) (v : Z) : bool :=
  match bound with Some b => v <=? b | None => true end.

(** "Build filter": the conjunction of the conditions that were added.  The
    filter goes to [ApiRequest.find], which casts the two identifiers by the
    schema: they are compared with the stored ObjectIds by value. *)
Definition matches (q : Query) (r : ApiRequest.Doc) : bool :=
  (if Js.truthy (product q)
   then bool_decide (Some (ApiRequest.product r) = product q) else true)
  && (if Js.truthy (endpoint q)
      then bool_decide (Some (ApiRequest.endpoint r) = endpoint q) else true)
  && match method q with
     | Some m => bool_decide (ApiRequest.method r = m)
     | None => true
     end
  && match environment q with
     | Some e => bool_decide (ApiRequest.environment r = e)
     | None => true
     end
  && match startDate q, endDate q with
     | None, None => true
     | lo, hi =>
         match Tracking.startTimeOf r with
         | Some t => atLeast lo t && atMost hi t
         | None => false
         end
     end
  && (atLeast (minDuration q) (Tracking.durationOf r)
      && atMost (maxDuration q) (Tracking.durationOf r))
  && match status q with
     | Some s => statusMatches s (Tracking.statusOf r)
     | None => true
     end.

(** [.sort({ 'timing.startTime': -1 })] *)
Definition newestFirst : relation ApiRequest.Doc :=
  fun a b =>
    Mongo.fieldCompare (Tracking.startTimeOf b) (Tracking.startTimeOf a) ≠ Gt.

#[global] Instance newestFirst_dec : RelDecision newestFirst.
Proof. intros a b. unfold newestFirst. apply _. Defined.

(** The documents of [find(filter).sort(...)], before [skip] and [limit]. *)
Definition found (q : Query) (docs : list ApiRequest.Doc)
  : list ApiRequest.Doc :=
  merge_sort newestFirst (List.filter (matches q) docs).

(** The handler: the page asked for ([page = 1], [limit = 20] when absent)
    and the pagination object.  The projection that leaves [response.body]
    out of the listed documents is not shown. *)
Definition handler (q : Query) (docs : list ApiRequest.Doc)
  : option (list ApiRequest.Doc * Pagination.Info) :=
  Pagination.paginate (default 1 (page q)) (default 20 (limit q))
    (found q docs).

End Requests.

(** ** routes/tracking.js: the other aggregations of GET /dashboard *)

Module Dashboard.

Import Js.

(** "Get requests by status code": [$group] by [response.statusCode] with
    [count: { $sum: 1 }], then [{ $sort: { _id: 1 } }]. *)
Definition byCode : relation (Z * Z) := fun a b => a.1 ≤ b.1.

#[global] Instance byCode_dec : RelDecision byCode.
Proof. intros a b. unfold byCode. apply _. Defined.

Definition requestsByStatus `{Mongo.Pipeline} (f : Tracking.Filter)
    (docs : list ApiRequest.Doc) : list (Z * Z) :=
  merge_sort byCode
    (Mongo.group Tracking.statusOf 0 (fun count _ => count + 1)
       (Tracking.matching f docs)).

(** "Get requests by method": [count] and the sum behind [$avg], sorted by
    [{ count: -1 }]. *)
Definition methodStep (acc : Z * Z) (r : ApiRequest.Doc) : Z * Z :=
  (acc.1 + 1, acc.2 + Tracking.durationOf r).

Definition byMethodCount : relation (ApiEndpoint.Method * (Z * Z)) :=
  fun a b => b.2.1 ≤ a.2.1.

#[global] Instance byMethodCount_dec : RelDecision byMethodCount.
Proof. intros a b. unfold byMethodCount. apply _. Defined.

Definition requestsByMethod `{Mongo.Pipeline} (f : Tracking.Filter)
    (docs : list ApiRequest.Doc) : list (ApiEndpoint.Method * (Z * Z)) :=
  merge_sort byMethodCount
    (Mongo.group ApiRequest.method (0, 0) methodStep
       (Tracking.matching f docs)).

(** "Get recent errors":
    [find({ ...filter, 'response.statusCode': { $gte: 400 } })
       .sort({ 'timing.startTime': -1 }).limit(10)].  The filter of the
    dashboard holds no identifier, so the cast of [find] changes nothing
    in it. *)
Definition recentErrors (f : Tracking.Filter) (docs : list ApiRequest.Doc)
  : list ApiRequest.Doc :=
  take 10
    (merge_sort Requests.newestFirst
       (List.filter (fun r => Tracking.matches f r && ApiRequest.isError r)
          docs)).

End Dashboard.

(** ** routes/tracking.js: GET /api/tracking/performance *)

Module Performance.

Import Js.

Record Filter := {
  startDate : Z;
  product : option string;
  endpoint : option string
}.

(** "Build filter": both identifiers go into the [$match] of the three
    aggregations as the strings of the query. *)
Definition matches (f : Filter) (r : ApiRequest.Doc) : bool :=
  match Tracking.startTimeOf r with
  | Some t => startDate f <=? t
  | None => false
  end
  && Tracking.idMatches (product f) (ApiRequest.product r)
  && Tracking.idMatches (endpoint f) (ApiRequest.endpoint r).

Definition matching (f : Filter) (docs : list ApiRequest.Doc)
  : list ApiRequest.Doc :=
  List.filter (matches f) docs.

(** [$cond: [{ $gt: ['$timing.duration', 1000] }, 1, 0]] and the same with
    5000. *)
Definition slow (r : ApiRequest.Doc) : Z :=
  if 1000 <? Tracking.durationOf r then 1 else 0.
Definition verySlow (r : ApiRequest.Doc) : Z :=
  if 5000 <? Tracking.durationOf r then 1 else 0.

(** The accumulators of "Get performance metrics".  [durations] is the input
    of the four [$percentile] accumulators. *)
Record Acc := {
  durationSum : Z;
  durations : list Z;
  minResponseTime : option Z;
  maxResponseTime : option Z;
  totalRequests : Z;
  slowRequests : Z;
  verySlowRequests : Z
}.

Definition empty : Acc := {|
  durationSum := 0;
  durations := [];
  minResponseTime := None;
  maxResponseTime := None;
  totalRequests := 0;
  slowRequests := 0;
  verySlowRequests := 0
|}.

Definition step (acc : Acc) (r : ApiRequest.Doc) : Acc := {|
  durationSum := durationSum acc + Tracking.durationOf r;
  durations := durations acc ++ [Tracking.durationOf r];
  minResponseTime := Mongo.minAcc (minResponseTime acc) (Tracking.durationOf r);
  maxResponseTime := Mongo.maxAcc (maxResponseTime acc) (Tracking.durationOf r);
  totalRequests := totalRequests acc + 1;
  slowRequests := slowRequests acc + slow r;
  verySlowRequests := verySlowRequests acc + verySlow r
|}.

(** The four [$percentile] accumulators of the stage, as they are written:
    a number for [p] and no [method]. *)
Definition percentiles : list Mongo.Percentile.t :=
  [ {| Mongo.Percentile.input := "$timing.duration";
       Mongo.Percentile.p := Mongo.Percentile.Number (1 # 2);
       Mongo.Percentile.method := None |};
    {| Mongo.Percentile.input := "$timing.duration";
       Mongo.Percentile.p := Mongo.Percentile.Number (9 # 10);
       Mongo.Percentile.method := None |};
    {| Mongo.Percentile.input := "$timing.duration";
       Mongo.Percentile.p := Mongo.Percentile.Number (19 # 20);
       Mongo.Percentile.method := None |};
    {| Mongo.Percentile.input := "$timing.duration";
       Mongo.Percentile.p := Mongo.Percentile.Number (99 # 100);
       Mongo.Percentile.method := None |} ].

(** "Get performance metrics".  The store checks the stage before it reads
    a document and rejects the aggregation when it does not accept one of
    the accumulators. *)
Definition performance `{Mongo.Pipeline} (f : Filter)
    (docs : list ApiRequest.Doc) : Exc (list (unit * Acc)) :=
  if forallb Mongo.percentileAccepted percentiles
  then Return (Mongo.group (fun _ => ()) empty step (matching f docs))
  else Throw (MongoServerError "$percentile").

(** [performance[0] || { avgResponseTime: 0, ..., verySlowRequests: 0 }] *)
Definition noRequests : Acc := {|
  durationSum := 0;
  durations := [];
  minResponseTime := Some 0;
  maxResponseTime := Some 0;
  totalRequests := 0;
  slowRequests := 0;
  verySlowRequests := 0
|}.

Definition metrics (performance : list (unit * Acc)) : Acc :=
  match performance with
  | (_, m) :: _ => m
  | [] => noRequests
  end.

(** "Calculate percentages": the two properties are added only when
    [totalRequests > 0]. *)
Definition slowRequestPercentage `{Ieee} (m : Acc) : option Z :=
  if 0 <? totalRequests m
  then Some (mathRound (Tracking.percent (slowRequests m) (totalRequests m)))
  else None.

Definition verySlowRequestPercentage `{Ieee} (m : Acc) : option Z :=
  if 0 <? totalRequests m
  then Some (mathRound (Tracking.percent (verySlowRequests m)
                          (totalRequests m)))
  else None.

(** "Get response time distribution": [$bucket] on [timing.duration]. *)
Definition boundaries : list Z :=
  [0; 100; 500; 1000; 2000; 5000; 10000; 30000].

(** The [_id] of a bucket: its inclusive lower boundary, or the [default]
    literal ['slow']. *)
Inductive BucketId := Lower (boundary : Z) | Default.

#[global] Instance BucketId_eq_dec : EqDecision BucketId.
Proof. solve_decision. Defined.

(** A value belongs to the bucket whose lower boundary it reaches and whose
    upper boundary it stays below; a value outside all boundaries goes to
    the default bucket. *)
Fixpoint bucketOf (bs : list Z) (v : Z) : BucketId :=
  match bs with
  | lo :: (hi :: _) as rest =>
      if (lo <=? v) && (v <? hi) then Lower lo else bucketOf rest v
  | _ => Default
  end.

(** The stage hands out one document per bucket that is not empty, with
    its [count]. *)
Definition responseTimeDistribution `{Mongo.Pipeline} (f : Filter)
    (docs : list ApiRequest.Doc) : list (BucketId * Z) :=
  Mongo.group (fun r => bucketOf boundaries (Tracking.durationOf r))
    0 (fun count _ => count + 1) (matching f docs).

(** "Get slowest endpoints" *)
Module Slowest.
Record Acc := {
  durationSum : Z;
  maxResponseTime : option Z;
  requestCount : Z;
  slowRequestCount : Z
}.
End Slowest.

Definition slowestEmpty : Slowest.Acc := {|
  Slowest.durationSum := 0;
  Slowest.maxResponseTime := None;
  Slowest.requestCount := 0;
  Slowest.slowRequestCount := 0
|}.

Definition slowestStep (acc : Slowest.Acc) (r : ApiRequest.Doc)
  : Slowest.Acc := {|
  Slowest.durationSum := Slowest.durationSum acc + Tracking.durationOf r;
  Slowest.maxResponseTime :=
    Mongo.maxAcc (Slowest.maxResponseTime acc) (Tracking.durationOf r);
  Slowest.requestCount := Slowest.requestCount acc + 1;
  Slowest.slowRequestCount := Slowest.slowRequestCount acc + slow r
|}.

(** [$avg: '$timing.duration'] of a group. *)
Definition avgResponseTime `{Ieee} (acc : Slowest.Acc) : Q :=
  fdiv (inject_Z (Slowest.durationSum acc))
       (inject_Z (Slowest.requestCount acc)).

(** [{ $sort: { avgResponseTime: -1 } }] *)
Definition bySlowness `{Ieee} : relation (string * Slowest.Acc) :=
  fun a b => (avgResponseTime b.2 <= avgResponseTime a.2)%Q.

#[global] Instance bySlowness_dec `{Ieee} : RelDecision bySlowness.
Proof.
  intros a b. unfold bySlowness.
  destruct (Qlt_le_dec (avgResponseTime a.2) (avgResponseTime b.2)) as [Hlt|Hle].
  - right. by apply Qlt_not_le.
  - left. exact Hle.
Defined.

Definition slowestEndpoints `{Ieee} `{Mongo.Pipeline} (f : Filter)
    (docs : list ApiRequest.Doc) : list (string * Slowest.Acc) :=
  take 10
    (merge_sort bySlowness
       (Mongo.group ApiRequest.endpoint slowestEmpty slowestStep
          (matching f docs))).

(** [Math.round((item.slowRequestCount / item.requestCount) * 100)] *)
Definition slowRequestShare `{Ieee} (g : string * Slowest.Acc) : Z :=
  mathRound (Tracking.percent (Slowest.slowRequestCount g.2)
               (Slowest.requestCount g.2)).

(** The [data] of the 200 response. *)
Module Data.
Record t := {
  metrics : Acc;
  slowRequestPercentage : option Z;
  verySlowRequestPercentage : option Z;
  responseTimeDistribution : list (BucketId * Z);
  slowestEndpoints : list (string * Slowest.Acc * Z)
}.
End Data.

Inductive Result :=
| Completed (data : Data.t)
| ServerError.

(** The handler, for a query that passed the validators: the three
    aggregations in the order of the source, inside one [try]; a fault of
    any of them lands in the [catch], which answers 500. *)
Definition handler `{Ieee} `{Mongo.Pipeline} (f : Filter)
    (docs : list ApiRequest.Doc) : Result :=
  match performance f docs with
  | Throw _ => ServerError
  | Return performance =>
      let distribution := responseTimeDistribution f docs in
      let slowest := slowestEndpoints f docs in
      let m := metrics performance in
      Completed {|
        Data.metrics := m;
        Data.slowRequestPercentage := slowRequestPercentage m;
        Data.verySlowRequestPercentage := verySlowRequestPercentage m;
        Data.responseTimeDistribution := distribution;
        Data.slowestEndpoints :=
          (fun g => (g, slowRequestShare g)) <$> slowest |}
  end.

End Performance.

(** ** models/User.js: API keys *)

Module User.

Inductive Permission := read | write | delete | admin.

Record ApiKey := {
  name : string;
  key : string;
  permissions : list Permission;
  isActive : bool;
  lastUsed : option Z;
  createdAt : Z
}.

(** The user document, as far as the key methods read and write it. *)
Record Doc := {
  email : string;
  apiKeys : list ApiKey
}.

(** [generateApiKey(name, permissions = ['read'])].  [randomHex] is
    [crypto.randomBytes(32).toString('hex')], [now] is [new Date()].  The
    result is the returned key and the document after the [push]. *)
Definition generateApiKey (u : Doc) (name : string)
    (permissions : option (list Permission)) (randomHex : string) (now : Z)
  : string * Doc :=
  let key := "ak_" +:+ randomHex in
  (key,
   {| email := email u;
      apiKeys := apiKeys u ++ [ {| name := name;
                                   key := key;
                                   permissions := default [read] permissions;
                                   isActive := true;
                                   lastUsed := None;
                                   createdAt := now |} ] |}).

Definition deactivate (ak : ApiKey) : ApiKey := {|
  name := name ak;
  key := key ak;
  permissions := permissions ak;
  isActive := false;
  lastUsed := lastUsed ak;
  createdAt := createdAt ak
|}.

(** [this.apiKeys.find(ak => ak.key === key)] followed by
    [apiKey.isActive = false]: the first entry with that key. *)
Fixpoint revokeFirst (k : string) (l : list ApiKey) : list ApiKey :=
  match l with
  | [] => []
  | ak :: rest =>
      if String.eqb (key ak) k then deactivate ak :: rest
      else ak :: revokeFirst k rest
  end.

(** [revokeApiKey(key)] *)
Definition revokeApiKey (u : Doc) (k : string) : Doc := {|
  email := email u;
  apiKeys := revokeFirst k (apiKeys u)
|}.

(** The keys that are in force. *)
Definition activeKeys (u : Doc) : list string :=
  key <$> List.filter isActive (apiKeys u).

End User.

(** What the recorder is given when the record [r] completes. *)
Definition sampleOf (r : ApiRequest.Doc) : Sample := {|
  code := Tracking.statusOf r;
  took := Tracking.durationOf r;
  at_ := default 0 (ApiRequest.Timing.endTime (ApiRequest.timing r))
|}.

(** The number of documents of [l] that satisfy [p]. *)
Definition countIf {A : Type} (p : A → bool) (l : list A) : Z :=
  Z.of_nat (length (List.filter p l)).

(** The sort keys of a bucket in the order [$sort] lists them, and the
    order on such key lists: the first key that differs decides. *)
Definition sortKeys (b : Tracking.Analytics.BucketId) : list (option Z) :=
  [ Tracking.Analytics.year b; Tracking.Analytics.month b;
    Tracking.Analytics.day b; Tracking.Analytics.hour b;
    Tracking.Analytics.week b ].

Fixpoint lexCompare (xs ys : list (option Z)) : comparison :=
  match xs, ys with
  | x :: xs', y :: ys' =>
      match Mongo.fieldCompare x y with
      | Eq => lexCompare xs' ys'
      | c => c
      end
  | _, _ => Eq
  end.

(** The query [q] with its [status] parameter set to [s]. *)
Definition withStatus (q : Requests.Query) (s : Requests.Status)
  : Requests.Query := {|
  Requests.product := Requests.product q;
  Requests.endpoint := Requests.endpoint q;
  Requests.method := Requests.method q;
  Requests.status := Some s;
  Requests.environment := Requests.environment q;
  Requests.startDate := Requests.startDate q;
  Requests.endDate := Requests.endDate q;
  Requests.minDuration := Requests.minDuration q;
  Requests.maxDuration := Requests.maxDuration q;
  Requests.page := Requests.page q;
  Requests.limit := Requests.limit q
|}.

(** A query without any parameter. *)
Definition anyRequest : Requests.Query := {|
  Requests.product := None;
  Requests.endpoint := None;
  Requests.method := None;
  Requests.status := None;
  Requests.environment := None;
  Requests.startDate := None;
  Requests.endDate := None;
  Requests.minDuration := None;
  Requests.maxDuration := None;
  Requests.page := None;
  Requests.limit := None
|}.

(** The performance filter of period [all] without product or endpoint. *)
Definition allPerformance : Performance.Filter := {|
  Performance.startDate := 0;
  Performance.product := None;
  Performance.endpoint := None
|}.

(** * Properties *)

(** ** Rounding *)

Lemma mathRound_quot (p n : Z) :
  0 < n → Js.mathRound (Js.quot p n) = (2 * p + n) / (2 * n).
Proof.
  intros Hn. destruct n as [|q|q]; try lia.
  unfold Js.mathRound, Js.quot.
  assert (E : (inject_Z p / inject_Z (Z.pos q) + (1 # 2)
               == (2 * p + Z.pos q) # (2 * q))%Q).
  { rewrite <- Qmake_Qdiv. unfold Qeq, Qplus. simpl. lia. }
  rewrite (Qfloor_comp _ _ E). reflexivity.
Qed.

Lemma mathRound_range (x : Q) (lo hi : Z) :
  (inject_Z lo <= x)%Q → (x <= inject_Z hi)%Q →
  lo ≤ Js.mathRound x ≤ hi.
Proof.
  intros Hlo Hhi. unfold Js.mathRound. split.
  - rewrite <- (Qfloor_Z lo). apply Qfloor_resp_le.
    apply Qle_trans with x; [done|].
    rewrite <- (Qplus_0_r x) at 1. apply Qplus_le_r. done.
  - assert (H : (x + (1 # 2) < inject_Z (hi + 1))%Q).
    { rewrite inject_Z_plus.
      apply Qle_lt_trans with (inject_Z hi + (1 # 2))%Q.
      - apply Qplus_le_l. done.
      - apply Qplus_lt_r. done. }
    pose proof (Qfloor_le (x + (1 # 2))) as Hf.
    pose proof (Qle_lt_trans _ _ _ Hf H) as Hlt.
    rewrite <- Zlt_Qlt in Hlt. lia.
Qed.

(** ** The metrics recorder *)

Section Recorder.

Import Api.TestEndpoint.

Lemma sumZ_snoc (l : list Z) (x : Z) : sumZ (l ++ [x]) = sumZ l + x.
Proof. unfold sumZ. induction l as [|y l IH]; simpl; lia. Qed.

Lemma recorded_snoc (m : ApiEndpoint.Metrics) (l : list Sample) (s : Sample) :
  recorded m (l ++ [s])
  = updateEndpointMetrics (recorded m l) (code s) (took s) (at_ s).
Proof. unfold recorded. by rewrite foldl_snoc. Qed.

Lemma recorded_total (m : ApiEndpoint.Metrics) (l : list Sample) :
  ApiEndpoint.totalRequests (recorded m l)
  = ApiEndpoint.totalRequests m + Z.of_nat (length l).
Proof.
  induction l as [|s l IH] using rev_ind.
  - simpl. lia.
  - rewrite recorded_snoc, length_app. simpl. rewrite IH. lia.
Qed.

(** The update of the average, in integers. *)
Lemma average_step (m : ApiEndpoint.Metrics) (statusCode duration now : Z) :
  0 ≤ ApiEndpoint.totalRequests m →
  ApiEndpoint.averageResponseTime
    (updateEndpointMetrics m statusCode duration now)
  = (2 * (ApiEndpoint.averageResponseTime m * ApiEndpoint.totalRequests m
          + duration)
     + (ApiEndpoint.totalRequests m + 1))
    / (2 * (ApiEndpoint.totalRequests m + 1)).
Proof.
  intros Hn. unfold updateEndpointMetrics. cbn [ApiEndpoint.averageResponseTime].
  rewrite mathRound_quot by lia.
  replace (ApiEndpoint.totalRequests m + 1 - 1)
    with (ApiEndpoint.totalRequests m) by lia.
  reflexivity.
Qed.

(** A rounded quotient stays between integer bounds of its operands. *)
Lemma rounded_mean_bounds (a d n lo hi : Z) :
  0 ≤ n → (0 < n → lo ≤ a ≤ hi) → lo ≤ d ≤ hi →
  lo ≤ (2 * (a * n + d) + (n + 1)) / (2 * (n + 1)) ≤ hi.
Proof.
  intros Hn Ha Hd.
  assert (Hp : lo * (n + 1) ≤ a * n + d ≤ hi * (n + 1)).
  { destruct (decide (n = 0)) as [->|]; [lia|].
    assert (lo ≤ a ≤ hi) by (apply Ha; lia). nia. }
  split.
  - apply Z.div_le_lower_bound; lia.
  - apply Z.lt_succ_r. apply Z.div_lt_upper_bound; lia.
Qed.

(** Each rounding moves the stored value by at most one half. *)
Lemma rounded_mean_error (p n : Z) :
  0 < n → - n < 2 * (n * ((2 * p + n) / (2 * n)) - p) ≤ n.
Proof.
  intros Hn.
  pose proof (Z.div_mod (2 * p + n) (2 * n) ltac:(lia)) as E.
  pose proof (Z.mod_pos_bound (2 * p + n) (2 * n) ltac:(lia)) as B.
  lia.
Qed.

Lemma recorded_average_bounds (l : list Sample) (lo hi : Z) :
  l ≠ [] →
  Forall (fun s => lo ≤ took s ≤ hi) l →
  lo ≤ ApiEndpoint.averageResponseTime (recorded ApiEndpoint.defaultMetrics l)
     ≤ hi.
Proof.
  induction l as [|s l IH] using rev_ind; [done|].
  intros _ Hall. apply Forall_app in Hall as [Hl Hs].
  apply Forall_inv in Hs.
  rewrite recorded_snoc, average_step
    by (rewrite recorded_total; simpl; lia).
  apply rounded_mean_bounds; [rewrite recorded_total; simpl; lia| |done].
  intros Hpos. apply IH; [|done].
  intros ->. simpl in Hpos. lia.
Qed.

Lemma recorded_average_drift (l : list Sample) :
  let n := Z.of_nat (length l) in
  4 * Z.abs (n * ApiEndpoint.averageResponseTime
                   (recorded ApiEndpoint.defaultMetrics l)
             - sumZ (took <$> l))
  ≤ n * (n + 1).
Proof.
  induction l as [|s l IH] using rev_ind; [simpl; lia|].
  cbv zeta in *.
  rewrite recorded_snoc, average_step
    by (rewrite recorded_total; simpl; lia).
  rewrite recorded_total, fmap_app. change (took <$> [s]) with [took s].
  rewrite sumZ_snoc, length_app. simpl.
  set (n := Z.of_nat (length l)) in *.
  set (a := ApiEndpoint.averageResponseTime _) in *.
  set (S := sumZ _) in *.
  replace (Z.of_nat (length l + 1)) with (n + 1) by lia.
  replace (0 + n) with n by lia.
  pose proof (rounded_mean_error (a * n + took s) (n + 1) ltac:(lia)) as E.
  replace (2 * (a * n + took s) + (n + 1 + 1 - 1))
    with (2 * (a * n + took s) + (n + 1)) in * by lia.
  set (q := (2 * (a * n + took s) + (n + 1)) / (2 * (n + 1))) in *.
  nia.
Qed.

Lemma recorded_average_short (l : list Sample) :
  l ≠ [] → (length l ≤ 2)%nat →
  ApiEndpoint.averageResponseTime (recorded ApiEndpoint.defaultMetrics l)
  = batchMean (took <$> l).
Proof.
  intros Hne Hlen.
  destruct l as [|s1 [|s2 [|s3 l]]]; [done| | |simpl in Hlen; lia].
  - change [s1] with ([] ++ [s1]).
    rewrite recorded_snoc, average_step by (simpl; lia).
    unfold batchMean. rewrite mathRound_quot by (simpl; lia).
    simpl. f_equal. lia.
  - change [s1; s2] with ([s1] ++ [s2]).
    rewrite recorded_snoc, average_step
      by (rewrite recorded_total; simpl; lia).
    rewrite recorded_total.
    change [s1] with ([] ++ [s1]).
    rewrite recorded_snoc, average_step by (simpl; lia).
    unfold batchMean. rewrite mathRound_quot by (simpl; lia).
    cbn [ApiEndpoint.averageResponseTime ApiEndpoint.totalRequests
         ApiEndpoint.defaultMetrics recorded foldl length app fmap list_fmap
         sumZ foldr].
    replace ((2 * (0 * 0 + took s1) + (0 + 1)) / (2 * (0 + 1)))
      with (took s1).
    + f_equal; lia.
    + apply Z.div_unique with 1; lia.
Qed.

(** C1, as stated, fails: after the durations 100, 101, 100 the stored
    average is 101 (100, then round(100.5) = 101, then round(302/3) = 101),
    while the mean of the three durations, 301/3, rounds to 100. *)
Lemma running_average_counterexample :
  let samples := [ {| code := 200; took := 100; at_ := 1 |};
                   {| code := 200; took := 101; at_ := 2 |};
                   {| code := 200; took := 100; at_ := 3 |} ] in
  ApiEndpoint.averageResponseTime (recorded ApiEndpoint.defaultMetrics samples)
  = 101
  ∧ batchMean (took <$> samples) = 100
  ∧ ApiEndpoint.averageResponseTime
      (recorded ApiEndpoint.defaultMetrics samples)
    ≠ batchMean (took <$> samples).
Proof. vm_compute. repeat split; discriminate. Qed.

(** C1, amended: after N >= 1 updates of fresh metrics the stored
    [averageResponseTime] is the value of the rounded incremental update
    applied to the previously stored, already rounded, average.  It equals
    [round(mean(d1..dN))] for N <= 2; for every N it lies between the
    smallest and the largest duration recorded, and N times it differs from
    the sum of the durations by at most N(N+1)/4, that is, it is within
    (N+1)/4 of the exact mean. *)
Theorem running_average_vs_batch_mean (samples : list Sample) :
  samples ≠ [] →
  let avg := ApiEndpoint.averageResponseTime
               (recorded ApiEndpoint.defaultMetrics samples) in
  let n := Z.of_nat (length samples) in
  ((length samples ≤ 2)%nat → avg = batchMean (took <$> samples))
  ∧ (∀ lo hi : Z, Forall (fun d => lo ≤ d ≤ hi) (took <$> samples) →
                  lo ≤ avg ≤ hi)
  ∧ 4 * Z.abs (n * avg - sumZ (took <$> samples)) ≤ n * (n + 1).
Proof.
  intros Hne. cbv zeta. split; [|split].
  - by apply recorded_average_short.
  - intros lo hi Hall. apply recorded_average_bounds; [done|].
    by apply Forall_fmap in Hall.
  - apply recorded_average_drift.
Qed.

Lemma running_average_vs_batch_mean_witness :
  let samples := [ {| code := 200; took := 100; at_ := 1 |};
                   {| code := 200; took := 200; at_ := 2 |};
                   {| code := 500; took := 300; at_ := 3 |} ] in
  let avg := ApiEndpoint.averageResponseTime
               (recorded ApiEndpoint.defaultMetrics samples) in
  let n := Z.of_nat (length samples) in
  ((length samples ≤ 2)%nat → avg = batchMean (took <$> samples))
  ∧ (∀ lo hi : Z, Forall (fun d => lo ≤ d ≤ hi) (took <$> samples) →
                  lo ≤ avg ≤ hi)
  ∧ 4 * Z.abs (n * avg - sumZ (took <$> samples)) ≤ n * (n + 1).
Proof.
  intros samples.
  exact (running_average_vs_batch_mean samples ltac:(discriminate)).
Defined.

(** The end-to-end scenario of the specification: durations 100, 200 and 300,
    two responses 200 and one 500. *)
Example recorded_scenario :
  let m := recorded ApiEndpoint.defaultMetrics
             [ {| code := 200; took := 100; at_ := 1 |};
               {| code := 200; took := 200; at_ := 2 |};
               {| code := 500; took := 300; at_ := 3 |} ] in
  ApiEndpoint.totalRequests m = 3
  ∧ ApiEndpoint.successfulRequests m = 2
  ∧ ApiEndpoint.failedRequests m = 1
  ∧ ApiEndpoint.averageResponseTime m = 200.
Proof. vm_compute. repeat split. Qed.

(** C2, as stated, fails: a record with status code 0 (network failure)
    leaves [failedRequests] as it was, although the claim counts it as
    failed. *)
Lemma status_zero_counterexample :
  let m := ApiEndpoint.defaultMetrics in
  let m' := updateEndpointMetrics m 0 12 1 in
  ApiEndpoint.failedRequests m' = ApiEndpoint.failedRequests m
  ∧ ¬ (ApiEndpoint.failedRequests m' = ApiEndpoint.failedRequests m + 1
       ↔ (400 ≤ 0 ∨ 0 = 0)).
Proof.
  vm_compute. split; [reflexivity|].
  intros [_ H]. specialize (H (or_intror eq_refl)). discriminate.
Qed.

(** C2, amended: every update adds one to [totalRequests]; it adds one to
    [successfulRequests] iff [200 <= statusCode < 300] and one to
    [failedRequests] iff [statusCode >= 400]; a record with status code 0
    changes neither of the two. *)
Theorem status_classification (m : ApiEndpoint.Metrics)
    (statusCode duration now : Z) :
  let m' := updateEndpointMetrics m statusCode duration now in
  ApiEndpoint.totalRequests m' = ApiEndpoint.totalRequests m + 1
  ∧ (ApiEndpoint.successfulRequests m' = ApiEndpoint.successfulRequests m + 1
     ↔ 200 ≤ statusCode < 300)
  ∧ (ApiEndpoint.failedRequests m' = ApiEndpoint.failedRequests m + 1
     ↔ 400 ≤ statusCode)
  ∧ (statusCode = 0 →
     ApiEndpoint.successfulRequests m' = ApiEndpoint.successfulRequests m
     ∧ ApiEndpoint.failedRequests m' = ApiEndpoint.failedRequests m).
Proof.
  unfold updateEndpointMetrics.
  cbn [ApiEndpoint.totalRequests ApiEndpoint.successfulRequests
       ApiEndpoint.failedRequests].
  destruct (200 <=? statusCode) eqn:E1, (statusCode <? 300) eqn:E2,
           (400 <=? statusCode) eqn:E3; simpl; lia.
Qed.

(** C4: [successfulRequests + failedRequests <= totalRequests] holds for the
    schema defaults and is preserved by every update, whatever the status
    code. *)
Theorem metrics_invariant_preserved :
  metricsInvariant ApiEndpoint.defaultMetrics
  ∧ ∀ (m : ApiEndpoint.Metrics) (statusCode duration now : Z),
      metricsInvariant m →
      metricsInvariant (updateEndpointMetrics m statusCode duration now).
Proof.
  split; [unfold metricsInvariant; simpl; lia|].
  intros m statusCode duration now. unfold metricsInvariant, updateEndpointMetrics.
  cbn [ApiEndpoint.totalRequests ApiEndpoint.successfulRequests
       ApiEndpoint.failedRequests].
  destruct ((200 <=? statusCode) && (statusCode <? 300)),
           (400 <=? statusCode); lia.
Qed.

Lemma metrics_invariant_preserved_witness :
  metricsInvariant
    (updateEndpointMetrics
       (updateEndpointMetrics ApiEndpoint.defaultMetrics 200 35 1) 0 12 2).
Proof.
  apply (proj2 metrics_invariant_preserved).
  apply (proj2 metrics_invariant_preserved).
  exact (proj1 metrics_invariant_preserved).
Defined.

(** Hence the invariant, and the bounds the success rate relies on, hold for
    every sequence of recorded requests. *)
Lemma recorded_counters (l : list Sample) :
  let m := recorded ApiEndpoint.defaultMetrics l in
  0 ≤ ApiEndpoint.successfulRequests m
  ∧ 0 ≤ ApiEndpoint.failedRequests m
  ∧ metricsInvariant m.
Proof.
  induction l as [|s l IH] using rev_ind.
  - unfold metricsInvariant. simpl. lia.
  - rewrite recorded_snoc. cbv zeta in *.
    destruct IH as (Hs & Hf & Hinv).
    revert Hs Hf Hinv.
    unfold metricsInvariant, updateEndpointMetrics.
    cbn [ApiEndpoint.totalRequests ApiEndpoint.successfulRequests
         ApiEndpoint.failedRequests].
    destruct ((200 <=? code s) && (code s <? 300)), (400 <=? code s); lia.
Qed.

End Recorder.

(** ** The probe executor *)

Section Probe.

Import Api.TestEndpoint.

(** No scope that is visible after the inner [try]/[catch] declares
    [responseHeaders]: the name belongs to the [try] block. *)
Lemma responseHeaders_out_of_scope :
  Js.inScope afterTry "responseHeaders" = false
  ∧ Js.declares tryBlock "responseHeaders" = true.
Proof. split; reflexivity. Qed.

Lemma newApiRequest_throws (stringifyLength : ApiRequest.Body → Z)
    (e : ApiEndpoint.Doc) (o : RequestOptions) (env : ApiRequest.Environment)
    (lets : Lets) (blockHeaders : option (gmap string string))
    (startTime endTime d : Z) :
  newApiRequest stringifyLength e o env lets blockHeaders startTime endTime d
  = Js.Throw (Js.ReferenceError "responseHeaders").
Proof. reflexivity. Qed.

(** Whatever the network does, a probe of an existing endpoint ends in the
    outer [catch]: nothing is stored and the metrics are not touched. *)
Lemma handler_always_fails (stringifyLength : ApiRequest.Body → Z)
    (e : ApiEndpoint.Doc) (rs : list ApiRequest.Doc)
    (headers : gmap string string) (requestBody : option string)
    (env : ApiRequest.Environment) (outcome : Fetch.Outcome)
    (startTime endTime now : Z) :
  let store := {| endpoint := Some e; requests := rs |} in
  handler stringifyLength store headers requestBody env outcome
    startTime endTime now
  = (ServerError, store).
Proof.
  unfold handler. cbn [endpoint].
  destruct (tryFetch outcome) as [lets blockHeaders].
  by rewrite newApiRequest_throws.
Qed.

(** C3 (defect): on a transport failure the inner [catch] does set status
    code 0, status text "Network Error" and the message as error body, but
    building the record then reads [responseHeaders] outside the block that
    declares it.  The handler answers 500; no telemetry record is stored and
    the endpoint's metrics stay as they were. *)
Theorem transport_failure_yields_500 (stringifyLength : ApiRequest.Body → Z)
    (e : ApiEndpoint.Doc) (rs : list ApiRequest.Doc)
    (headers : gmap string string) (requestBody : option string)
    (env : ApiRequest.Environment) (message : string)
    (startTime endTime now : Z) :
  let store := {| endpoint := Some e; requests := rs |} in
  tryFetch (Fetch.Rejected message)
  = ({| statusCode := 0;
        statusText := "Network Error";
        responseBody := ApiRequest.ErrorBody message |}, None)
  ∧ handler stringifyLength store headers requestBody env
      (Fetch.Rejected message) startTime endTime now
    = (ServerError, store).
Proof.
  split; [reflexivity|]. apply handler_always_fails.
Qed.

(** C8, as stated, fails: a header declared on the endpoint and absent from
    the overrides is not sent. *)
Lemma declared_header_counterexample :
  let overrides : gmap string string := ∅ in
  ApiEndpoint.name <$> ApiEndpoint.headers usersEndpoint = ["X-Api-Key"]
  ∧ overrides !! "X-Api-Key" = None
  ∧ headers (requestOptions usersEndpoint overrides None) !! "X-Api-Key"
    = None.
Proof. repeat split; reflexivity. Qed.

(** C8, amended: the outgoing request headers are the fixed default
    [Content-Type: application/json] merged with the caller's override
    headers, and on a key collision the override value wins; the headers
    declared on the endpoint are not part of the request. *)
Theorem outgoing_headers (endpoint : ApiEndpoint.Doc)
    (overrides : gmap string string) (requestBody : option string)
    (k : string) :
  headers (requestOptions endpoint overrides requestBody) !! k
  = match overrides !! k with
    | Some v => Some v
    | None => if decide (k = "Content-Type") then Some "application/json"
              else None
    end.
Proof.
  unfold requestOptions, requestHeaders. cbn [headers].
  rewrite lookup_union. case_decide as Hk.
  - subst k. rewrite lookup_singleton_eq.
    by destruct (overrides !! "Content-Type").
  - rewrite lookup_singleton_ne by done.
    by destruct (overrides !! k).
Qed.

(** C9, as stated, fails: no floor is applied.  When the second reading of
    the clock lies before the first (the wall clock was set back), or when a
    recorder stores a record whose [endTime] precedes its [startTime], the
    duration is negative. *)
Lemma negative_duration_counterexample :
  duration 1000 400 = -600
  ∧ duration 1000 400 ≠ Z.max 0 (400 - 1000)
  ∧ ApiRequest.Timing.duration
      (ApiRequest.preSaveTiming
         {| ApiRequest.Timing.startTime := Some 1000;
            ApiRequest.Timing.endTime := Some 400;
            ApiRequest.Timing.duration := 0 |})
    = -600.
Proof. repeat split; vm_compute; discriminate. Qed.

(** What [save()] does with a record: it stores the record with the
    duration derived from its two dates, or it rejects a record that lacks
    a required date or status text. *)
Lemma save_cases (r : ApiRequest.Doc) :
  match ApiRequest.save r with
  | Js.Return saved =>
      ∃ s e,
        ApiRequest.Timing.startTime (ApiRequest.timing r) = Some s
        ∧ ApiRequest.Timing.endTime (ApiRequest.timing r) = Some e
        ∧ ApiRequest.Response.statusText (ApiRequest.response r) ≠ ""
        ∧ saved = ApiRequest.preSave r
        ∧ ApiRequest.timing saved
          = {| ApiRequest.Timing.startTime := Some s;
               ApiRequest.Timing.endTime := Some e;
               ApiRequest.Timing.duration := e - s |}
  | Js.Throw _ =>
      ApiRequest.Timing.startTime (ApiRequest.timing r) = None
      ∨ ApiRequest.Timing.endTime (ApiRequest.timing r) = None
      ∨ ApiRequest.Response.statusText (ApiRequest.response r) = ""
  end.
Proof.
  unfold ApiRequest.save, ApiRequest.validate, ApiRequest.requiredString,
    ApiRequest.requiredDate.
  destruct (String.eqb_spec
              (ApiRequest.Response.statusText (ApiRequest.response r)) "")
    as [E|E]; simpl; [by right; right|].
  destruct (ApiRequest.Timing.startTime (ApiRequest.timing r)) as [s|] eqn:Es;
    simpl; [|by left].
  destruct (ApiRequest.Timing.endTime (ApiRequest.timing r)) as [e|] eqn:Ee;
    simpl; [|by right; left].
  exists s, e. repeat split; try done.
  unfold ApiRequest.preSaveTiming. by rewrite Es, Ee.
Qed.

(** C9, amended: the probe's duration, and the duration the store derives
    when a record with both dates is saved, is exactly
    [endTime - startTime] in milliseconds; it is non-negative exactly when
    [endTime] is not before [startTime].  A record that is saved has both
    dates; [save()] rejects only a record that lacks a date or the status
    text. *)
Theorem duration_is_difference (r : ApiRequest.Doc) (startTime endTime : Z) :
  duration startTime endTime = endTime - startTime
  ∧ (0 ≤ duration startTime endTime ↔ startTime ≤ endTime)
  ∧ match ApiRequest.save r with
    | Js.Return saved =>
        ∃ s e,
          ApiRequest.Timing.startTime (ApiRequest.timing r) = Some s
          ∧ ApiRequest.Timing.endTime (ApiRequest.timing r) = Some e
          ∧ ApiRequest.Timing.duration (ApiRequest.timing saved) = e - s
    | Js.Throw _ =>
        ApiRequest.Timing.startTime (ApiRequest.timing r) = None
        ∨ ApiRequest.Timing.endTime (ApiRequest.timing r) = None
        ∨ ApiRequest.Response.statusText (ApiRequest.response r) = ""
    end.
Proof.
  unfold duration. split; [reflexivity|]. split; [lia|].
  pose proof (save_cases r) as Hsave.
  destruct (ApiRequest.save r) as [saved|err]; [|done].
  destruct Hsave as (s & e & Hs & He & _ & _ & Ht).
  exists s, e. by rewrite Ht.
Qed.

End Probe.

(** ** The materialised full URL *)

Section FullUrl.

Import Api.

Lemma save_urlInvariant (e : ApiEndpoint.Doc) :
  urlInvariant (ApiEndpoint.save e).
Proof. reflexivity. Qed.

Lemma create_urlInvariant (isURL : string → bool) (productExists : bool)
    (newId : string) (body : PostEndpoints.Body) (e : ApiEndpoint.Doc) :
  PostEndpoints.handler isURL productExists newId body
  = PostEndpoints.Created e →
  urlInvariant e.
Proof.
  unfold PostEndpoints.handler.
  destruct (PostEndpoints.valid isURL body), productExists; try discriminate.
  intros [= <-]. reflexivity.
Qed.

(** The PUT route keeps [fullUrl] in step when the body carries a base URL
    or a path, and when it carries none of the three. *)
Lemma put_urlInvariant (isURL : string → bool) (stored e' : ApiEndpoint.Doc)
    (body : PutEndpoint.Body) :
  urlInvariant stored →
  Js.truthy (PutEndpoint.baseUrl body) || Js.truthy (PutEndpoint.path body)
  = true
  ∨ PutEndpoint.fullUrl body = None →
  PutEndpoint.handler isURL (Some stored) body
  = (PutEndpoint.Updated e', Some e') →
  urlInvariant e'.
Proof.
  unfold urlInvariant, PutEndpoint.handler, PutEndpoint.withFullUrl.
  intros Hinv Hbody.
  destruct (PutEndpoint.valid isURL body); [|discriminate].
  destruct body as [p m b f bm], stored as [sid sp sm sprod sb sf sh smet].
  cbn [PutEndpoint.baseUrl PutEndpoint.path PutEndpoint.fullUrl
       ApiEndpoint.baseUrl ApiEndpoint.path ApiEndpoint.fullUrl] in *.
  destruct b as [[|cb b]|], p as [[|cp p]|], sb as [|csb sb]; simpl in *;
    try discriminate;
    try (intros Hput; inversion Hput; subst; simpl; congruence).
  all: destruct Hbody as [Hb| ->]; try discriminate.
  all: intros Hput; inversion Hput; subst; simpl; congruence.
Qed.

(** C10 (defect): a PUT whose body carries [fullUrl] but neither [baseUrl]
    nor [path] passes validation, skips the recomputation, and stores the
    given value: afterwards [fullUrl] differs from [baseUrl] followed by
    [path]. *)
Theorem put_fullUrl_goes_stale (isURL : string → bool) :
  let body := {| PutEndpoint.path := None;
                 PutEndpoint.method := None;
                 PutEndpoint.baseUrl := None;
                 PutEndpoint.fullUrl := Some "https://old.example.com/users";
                 PutEndpoint.metrics := None |} in
  urlInvariant usersEndpoint
  ∧ ∃ e' : ApiEndpoint.Doc,
      PutEndpoint.handler isURL (Some usersEndpoint) body
      = (PutEndpoint.Updated e', Some e')
      ∧ ApiEndpoint.baseUrl e' = "https://api.example.com"
      ∧ ApiEndpoint.path e' = "/users"
      ∧ ApiEndpoint.fullUrl e' = "https://old.example.com/users"
      ∧ ¬ urlInvariant e'.
Proof.
  split; [reflexivity|]. eexists. split; [reflexivity|].
  repeat split. unfold urlInvariant. simpl. discriminate.
Qed.

End FullUrl.

(** ** The [$group] stage *)

Section GroupFacts.

Context {Doc K Acc : Type} `{EqDecision K}.
Variables (key : Doc → K) (empty : Acc) (step : Acc → Doc → Acc).

Local Abbreviation accumulate := (Mongo.accumulate key empty step).
Local Abbreviation scan := (Mongo.scan key empty step).
Local Abbreviation members := (Mongo.members key).

Lemma scan_snoc (docs : list Doc) (d : Doc) :
  scan (docs ++ [d]) = accumulate d (scan docs).
Proof. unfold Mongo.scan. by rewrite foldl_snoc. Qed.

Lemma members_snoc (k : K) (docs : list Doc) (d : Doc) :
  members k (docs ++ [d])
  = members k docs ++ (if decide (key d = k) then [d] else []).
Proof.
  unfold Mongo.members. by rewrite filter_app.
Qed.

Lemma accumulate_fst (d : Doc) (gs : list (K * Acc)) :
  (accumulate d gs).*1
  = if decide (key d ∈ gs.*1) then gs.*1 else gs.*1 ++ [key d].
Proof.
  induction gs as [|[k a] gs IH]; [done|].
  cbn [Mongo.accumulate].
  destruct (decide (key d = k)) as [->|Hne].
  - rewrite decide_True; [done|]. apply list_elem_of_here.
  - rewrite fmap_cons, IH. cbn [fst].
    destruct (decide (key d ∈ gs.*1)) as [Hin|Hnin].
    + rewrite decide_True; [done|]. by apply list_elem_of_further.
    + rewrite decide_False; [done|].
      intros [?|?]%elem_of_cons; done.
Qed.

Lemma accumulate_NoDup (d : Doc) (gs : list (K * Acc)) :
  NoDup gs.*1 → NoDup (accumulate d gs).*1.
Proof.
  intros Hnd. rewrite accumulate_fst. case_decide as Hin; [done|].
  apply NoDup_app. split; [done|]. split; [|apply NoDup_singleton].
  intros k Hk ->%list_elem_of_singleton. done.
Qed.

(** A group after one more document: an untouched group of another key, or
    the group of the document's key, extended by it. *)
Lemma elem_of_accumulate (d : Doc) (gs : list (K * Acc)) (k : K) (a : Acc) :
  NoDup gs.*1 →
  (k, a) ∈ accumulate d gs →
  (key d ≠ k ∧ (k, a) ∈ gs)
  ∨ (key d = k
     ∧ ∃ a0, a = step a0 d ∧ ((k, a0) ∈ gs ∨ (a0 = empty ∧ k ∉ gs.*1))).
Proof.
  induction gs as [|[k' a'] gs IH]; simpl; intros Hnd Hin.
  - apply list_elem_of_singleton in Hin as [= -> ->].
    right. split; [done|]. exists empty. split; [done|]. right.
    split; [done|]. apply not_elem_of_nil.
  - apply NoDup_cons in Hnd as [Hk' Hnd].
    destruct (decide (key d = k')) as [Heq|Hne].
    + apply elem_of_cons in Hin as [[= -> ->]|Hin].
      * right. split; [done|]. exists a'. split; [done|]. left.
        apply list_elem_of_here.
      * left. split.
        -- intros <-. apply Hk'. rewrite <- Heq.
           apply (list_elem_of_fmap_2 fst) in Hin. done.
        -- by apply list_elem_of_further.
    + apply elem_of_cons in Hin as [[= -> ->]|Hin].
      * left. split; [done|]. apply list_elem_of_here.
      * destruct (IH Hnd Hin) as [[? ?]|[Hk (a0 & -> & Ha0)]].
        -- left. split; [done|]. by apply list_elem_of_further.
        -- right. split; [done|]. exists a0. split; [done|].
           destruct Ha0 as [?|[-> Hnin]].
           ++ left. by apply list_elem_of_further.
           ++ right. split; [done|].
              intros [?|?]%elem_of_cons; [congruence|done].
Qed.

(** What the scan holds: one group per key that occurs, and in it the fold
    of the accumulators over exactly the documents of that key. *)
Lemma scan_spec (docs : list Doc) :
  NoDup (scan docs).*1
  ∧ (∀ k a, (k, a) ∈ scan docs →
            members k docs ≠ [] ∧ a = foldl step empty (members k docs))
  ∧ (∀ k, k ∉ (scan docs).*1 → members k docs = []).
Proof.
  induction docs as [|d docs (Hnd & Hin & Hout)] using rev_ind.
  - split; [constructor|]. split; [|done].
    intros k a Hk. by apply elem_of_nil in Hk.
  - rewrite scan_snoc. split; [by apply accumulate_NoDup|]. split.
    + intros k a Hk. rewrite members_snoc.
      apply elem_of_accumulate in Hk
        as [[Hne Hk]|[Heq (a0 & -> & Ha0)]]; [| |done].
      * rewrite decide_False by done. rewrite app_nil_r. by apply Hin.
      * rewrite decide_True by done. split.
        -- intros Hnil. by apply app_eq_nil in Hnil as [_ ?].
        -- rewrite foldl_snoc. f_equal.
           destruct Ha0 as [Ha0|[-> Hnin]].
           ++ by apply Hin.
           ++ by rewrite (Hout k Hnin).
    + intros k Hk. rewrite accumulate_fst in Hk. rewrite members_snoc.
      case_decide as Hd.
      * rewrite decide_False; [rewrite app_nil_r; by apply Hout|].
        intros <-. done.
      * apply not_elem_of_app in Hk as [Hk Hkd].
        rewrite decide_False; [rewrite app_nil_r; by apply Hout|].
        intros <-. apply Hkd. apply list_elem_of_here.
Qed.

Context {P : Mongo.Pipeline} {PL : Mongo.PipelineLaws P}.

Lemma group_Permutation (docs : list Doc) :
  Mongo.group key empty step docs ≡ₚ scan docs.
Proof. unfold Mongo.group. apply Mongo.emit_perm. Qed.

Lemma group_spec (docs : list Doc) :
  NoDup (Mongo.group key empty step docs).*1
  ∧ (∀ k a, (k, a) ∈ Mongo.group key empty step docs →
            members k docs ≠ [] ∧ a = foldl step empty (members k docs)).
Proof.
  destruct (scan_spec docs) as (Hnd & Hin & _). split.
  - by rewrite (group_Permutation docs).
  - intros k a Hk. apply Hin. by rewrite <- (group_Permutation docs).
Qed.

(** No document is left out: the key of every document has a group. *)
Lemma group_complete (docs : list Doc) (d : Doc) :
  d ∈ docs → key d ∈ (Mongo.group key empty step docs).*1.
Proof.
  intros Hd. destruct (scan_spec docs) as (_ & _ & Hout).
  rewrite (group_Permutation docs).
  assert (Hdec : ∀ (k : K) (l : list K), k ∈ l ∨ k ∉ l).
  { intros k l. induction l as [|x l [IH|IH]].
    - right. apply not_elem_of_nil.
    - left. by apply list_elem_of_further.
    - destruct (decide (k = x)) as [->|Hne].
      + left. apply list_elem_of_here.
      + right. intros [?|?]%elem_of_cons; done. }
  destruct (Hdec (key d) (scan docs).*1) as [Hin|Hnin]; [done|].
  apply Hout in Hnin.
  assert (Hmem : d ∈ members (key d) docs)
    by (unfold Mongo.members; by apply list_elem_of_filter).
  rewrite Hnin in Hmem. by apply elem_of_nil in Hmem.
Qed.

End GroupFacts.

(** ** The analytics aggregation *)

Lemma sumZ_Permutation (l l' : list Z) : l ≡ₚ l' → sumZ l = sumZ l'.
Proof. unfold sumZ. induction 1; simpl; lia. Qed.

Lemma accumulate_count {Doc K Acc : Type} `{EqDecision K}
    (key : Doc → K) (empty : Acc) (step : Acc → Doc → Acc) (c : Acc → Z)
    (d : Doc) (gs : list (K * Acc)) :
  (∀ a d, c (step a d) = c a + 1) → c empty = 0 →
  sumZ ((fun g => c g.2) <$> Mongo.accumulate key empty step d gs)
  = sumZ ((fun g => c g.2) <$> gs) + 1.
Proof.
  intros Hstep Hempty. induction gs as [|[k a] gs IH].
  - simpl. rewrite Hstep, Hempty. lia.
  - cbn [Mongo.accumulate]. destruct (decide (key d = k)).
    + simpl. rewrite Hstep. lia.
    + rewrite !fmap_cons. unfold sumZ in *. simpl in *. rewrite IH. lia.
Qed.

Lemma scan_count {Doc K Acc : Type} `{EqDecision K}
    (key : Doc → K) (empty : Acc) (step : Acc → Doc → Acc) (c : Acc → Z)
    (docs : list Doc) :
  (∀ a d, c (step a d) = c a + 1) → c empty = 0 →
  sumZ ((fun g => c g.2) <$> Mongo.scan key empty step docs)
  = Z.of_nat (length docs).
Proof.
  intros Hstep Hempty. induction docs as [|d docs IH] using rev_ind; [done|].
  rewrite scan_snoc, accumulate_count, IH, length_app by done. simpl. lia.
Qed.

Lemma exact_laws : Js.IeeeLaws Js.exact.
Proof. split; unfold Js.rnd, Js.exact; [done|reflexivity..]. Qed.

Lemma utc_laws : Mongo.PipelineLaws Utc.pipeline.
Proof. split. intros A l. reflexivity. Qed.

Lemma reversed_laws : Mongo.PipelineLaws Utc.reversed.
Proof. split. intros A l. apply reverse_Permutation. Qed.

Section Analytics.

Import Tracking.
Context {F : Js.Ieee} {P : Mongo.Pipeline} {PL : Mongo.PipelineLaws P}.

Lemma analytics_fold_total (a : Analytics.Acc) (l : list ApiRequest.Doc) :
  Analytics.totalRequests (foldl Analytics.step a l)
  = Analytics.totalRequests a + Z.of_nat (length l).
Proof.
  revert a. induction l as [|d l IH]; intros a; simpl; [lia|].
  rewrite IH. simpl. lia.
Qed.

Lemma aggregate_Permutation (f : Filter) (groupBy : Analytics.GroupBy)
    (docs : list ApiRequest.Doc) :
  Analytics.aggregate f groupBy docs
  ≡ₚ Mongo.scan (Analytics.groupFields groupBy) Analytics.empty
       Analytics.step (matching f docs).
Proof.
  unfold Analytics.aggregate.
  rewrite merge_sort_Permutation. by apply group_Permutation.
Qed.

(** What every bucket of the aggregation holds. *)
Lemma aggregate_spec (f : Filter) (groupBy : Analytics.GroupBy)
    (docs : list ApiRequest.Doc) :
  NoDup (Analytics.aggregate f groupBy docs).*1
  ∧ ∀ k a, (k, a) ∈ Analytics.aggregate f groupBy docs →
      let ms := Mongo.members (Analytics.groupFields groupBy) k
                  (matching f docs) in
      ms ≠ [] ∧ a = foldl Analytics.step Analytics.empty ms.
Proof.
  destruct (scan_spec (Analytics.groupFields groupBy) Analytics.empty
              Analytics.step (matching f docs)) as (Hnd & Hin & _).
  split.
  - by rewrite (aggregate_Permutation f groupBy docs).
  - intros k a Hk. apply Hin.
    by rewrite <- (aggregate_Permutation f groupBy docs).
Qed.

(** The [$match] of the analytics.  With a product in the query nothing
    passes it; without, the records of the period and of the environment
    asked for do. *)
Local Abbreviation inPeriod f :=
  (fun r : ApiRequest.Doc =>
     match startTimeOf r with
     | Some t => startDate f <=? t
     | None => false
     end
     && match environment f with
        | Some e => bool_decide (ApiRequest.environment r = e)
        | None => true
        end).

Lemma idMatches_spec (query : option string) (stored : string) :
  idMatches query stored = negb (Js.truthy query).
Proof.
  destruct query as [q|]; [|done]. unfold idMatches, Mongo.eqMatch.
  destruct (Js.truthy (Some q)); [|done].
  by rewrite bool_decide_eq_false_2.
Qed.

Lemma filter_none {A : Type} (p : A → bool) (l : list A) :
  (∀ x, p x = false) → List.filter p l = [].
Proof.
  intros Hp. induction l as [|x l IH]; [done|]. simpl. by rewrite Hp.
Qed.

Lemma filter_ext_bool {A : Type} (p q : A → bool) (l : list A) :
  (∀ x, p x = q x) → List.filter p l = List.filter q l.
Proof.
  intros Hpq. induction l as [|x l IH]; [done|]. simpl.
  by rewrite Hpq, IH.
Qed.

Lemma matching_product (f : Filter) (docs : list ApiRequest.Doc) :
  Js.truthy (product f) = true → matching f docs = [].
Proof.
  intros Hp. apply filter_none. intros r. unfold matches.
  rewrite idMatches_spec, Hp. simpl. by rewrite andb_false_r.
Qed.

Lemma matching_no_product (f : Filter) (docs : list ApiRequest.Doc) :
  Js.truthy (product f) = false →
  matching f docs = List.filter (inPeriod f) docs.
Proof.
  intros Hp. apply filter_ext_bool. intros r. unfold matches.
  rewrite idMatches_spec, Hp. simpl. by rewrite andb_true_r.
Qed.

Lemma group_nil {Doc K Acc : Type} `{EqDecision K} (key : Doc → K)
    (empty : Acc) (step : Acc → Doc → Acc) :
  Mongo.group key empty step [] = [].
Proof.
  apply Permutation_nil_r. by rewrite (group_Permutation key empty step []).
Qed.

(** C5 (defect): with a product in the query the analytics count nothing.
    The route puts the string of the query into [$match], the records
    store the product as an ObjectId, and the aggregation is not cast by
    the schema: no record passes, no bucket is returned, and the
    [totalRequests] add up to 0 however many records of that product lie
    in the period. *)
Theorem analytics_product_filter_counts_nothing (f : Filter)
    (groupBy : Analytics.GroupBy) (docs : list ApiRequest.Doc) :
  Js.truthy (product f) = true →
  let rows := Analytics.formattedAnalytics f groupBy docs in
  rows = [] ∧ sumZ (Analytics.Row.totalRequests <$> rows) = 0.
Proof.
  intros Hp. cbv zeta.
  unfold Analytics.formattedAnalytics, Analytics.aggregate.
  rewrite (matching_product f docs Hp), group_nil. done.
Qed.

(** X27: Without a product in the query, the analytics count every record of
    the period (and of the environment asked for) in exactly one bucket:
    the [totalRequests] of the returned buckets add up to the number of
    these records, the buckets have distinct keys, each one counts exactly
    the records whose calendar fields are its key, and the calendar fields
    of every such record are the key of a returned bucket. *)
Theorem analytics_counts_every_record (f : Filter)
    (groupBy : Analytics.GroupBy) (docs : list ApiRequest.Doc) :
  Js.truthy (product f) = false →
  let rows := Analytics.formattedAnalytics f groupBy docs in
  let selected :=
    List.filter
      (fun r => match startTimeOf r with
                | Some t => startDate f <=? t
                | None => false
                end
                && match environment f with
                   | Some e => bool_decide (ApiRequest.environment r = e)
                   | None => true
                   end) docs in
  sumZ (Analytics.Row.totalRequests <$> rows) = Z.of_nat (length selected)
  ∧ NoDup (Analytics.Row.bucket <$> rows)
  ∧ Forall (fun row =>
              0 < Analytics.Row.totalRequests row
              ∧ Analytics.Row.totalRequests row
                = Z.of_nat
                    (length (Mongo.members (Analytics.groupFields groupBy)
                               (Analytics.Row.bucket row) selected))) rows
  ∧ Forall (fun r => Analytics.groupFields groupBy r
                     ∈ Analytics.Row.bucket <$> rows) selected.
Proof.
  intros Hp. cbv zeta.
  rewrite <- (matching_no_product f docs Hp).
  unfold Analytics.formattedAnalytics.
  destruct (aggregate_spec f groupBy docs) as [Hnd Hin].
  rewrite <- !list_fmap_compose. split; [|split; [|split]].
  - rewrite (sumZ_Permutation _
               ((fun g => Analytics.totalRequests g.2)
                  <$> Mongo.scan (Analytics.groupFields groupBy)
                        Analytics.empty Analytics.step (matching f docs))).
    + apply scan_count; [intros a d; simpl; lia|done].
    + apply fmap_Permutation, aggregate_Permutation.
  - exact Hnd.
  - apply Forall_forall.
    intros row ([k a] & -> & Hk)%list_elem_of_fmap.
    destruct (Hin k a Hk) as [Hne ->]. simpl.
    rewrite analytics_fold_total. simpl.
    destruct (Mongo.members _ _ _); [done|]. simpl. lia.
  - apply Forall_forall. intros r Hr.
    change (Analytics.groupFields groupBy r
            ∈ (Analytics.aggregate f groupBy docs).*1).
    unfold Analytics.aggregate. rewrite merge_sort_Permutation.
    by apply group_complete.
Qed.

End Analytics.

(** ** Success rates *)

Section SuccessRate.

Import Tracking.
Context {F : Js.Ieee} {FL : Js.IeeeLaws F}.
Context {P : Mongo.Pipeline} {PL : Mongo.PipelineLaws P}.

Lemma rnd_range (x : Q) :
  (0 <= x)%Q → (x <= 1)%Q → (0 <= Js.rnd x)%Q ∧ (Js.rnd x <= 1)%Q.
Proof.
  intros H0 H1. pose proof Js.rnd_0 as E0. pose proof Js.rnd_1 as E1. split.
  - apply Qle_trans with (Js.rnd 0); [lra|]. by apply Js.rnd_mono.
  - apply Qle_trans with (Js.rnd 1); [|lra]. by apply Js.rnd_mono.
Qed.

(** [Math.round((s / t) * 100)] for a part [s] of a positive total [t]. *)
Lemma percent_range (s t : Z) :
  0 ≤ s ≤ t → 0 < t → 0 ≤ Js.mathRound (percent s t) ≤ 100.
Proof.
  intros Hs Ht. unfold percent, Js.fmul, Js.fdiv.
  assert (Ht' : (0 < inject_Z t)%Q).
  { change (inject_Z 0 < inject_Z t)%Q. rewrite <- Zlt_Qlt. lia. }
  assert (Hq : (0 <= inject_Z s / inject_Z t)%Q ∧ (inject_Z s / inject_Z t <= 1)%Q).
  { split.
    - apply Qle_shift_div_l; [done|]. rewrite Qmult_0_l.
      change (inject_Z 0 <= inject_Z s)%Q. rewrite <- Zle_Qle. lia.
    - apply Qle_shift_div_r; [done|]. rewrite Qmult_1_l.
      rewrite <- Zle_Qle. lia. }
  destruct Hq as [Hq0 Hq1].
  destruct (rnd_range _ Hq0 Hq1) as [Hr0 Hr1].
  pose proof Js.rnd_0 as E0. pose proof Js.rnd_100 as E100.
  apply mathRound_range.
  - change (inject_Z 0) with 0%Q.
    apply Qle_trans with (Js.rnd 0); [lra|]. apply Js.rnd_mono. lra.
  - change (inject_Z 100) with 100%Q.
    apply Qle_trans with (Js.rnd 100); [|lra]. apply Js.rnd_mono. lra.
Qed.

Lemma analytics_fold_success (a : Analytics.Acc) (l : list ApiRequest.Doc) :
  0 ≤ Analytics.successfulRequests a ≤ Analytics.totalRequests a →
  0 ≤ Analytics.successfulRequests (foldl Analytics.step a l)
    ≤ Analytics.totalRequests (foldl Analytics.step a l).
Proof.
  revert a. induction l as [|d l IH]; intros a Ha; [done|].
  simpl. apply IH. unfold Analytics.step, successful. simpl.
  destruct ((200 <=? statusOf d) && (statusOf d <? 300)); lia.
Qed.

Lemma overview_fold_total (a : Overview.t) (l : list ApiRequest.Doc) :
  Overview.totalRequests (foldl Overview.step a l)
  = Overview.totalRequests a + Z.of_nat (length l).
Proof.
  revert a. induction l as [|d l IH]; intros a; simpl; [lia|].
  rewrite IH. simpl. lia.
Qed.

Lemma overview_fold_success (a : Overview.t) (l : list ApiRequest.Doc) :
  0 ≤ Overview.successfulRequests a ≤ Overview.totalRequests a →
  0 ≤ Overview.successfulRequests (foldl Overview.step a l)
    ≤ Overview.totalRequests (foldl Overview.step a l).
Proof.
  revert a. induction l as [|d l IH]; intros a Ha; [done|].
  simpl. apply IH. unfold Overview.step, successful. simpl.
  destruct ((200 <=? statusOf d) && (statusOf d <? 300)); lia.
Qed.

(** The recorder keeps the successful requests a part of the total. *)
Lemma recorded_success_part (m : ApiEndpoint.Metrics) (samples : list Sample) :
  0 ≤ ApiEndpoint.successfulRequests m ≤ ApiEndpoint.totalRequests m →
  0 ≤ ApiEndpoint.successfulRequests (recorded m samples)
    ≤ ApiEndpoint.totalRequests (recorded m samples).
Proof.
  induction samples as [|s l IH] using rev_ind; [done|].
  intros Hm. specialize (IH Hm). rewrite recorded_snoc. revert IH.
  unfold Api.TestEndpoint.updateEndpointMetrics.
  cbn [ApiEndpoint.totalRequests ApiEndpoint.successfulRequests].
  destruct ((200 <=? code s) && (code s <? 300)); lia.
Qed.

(** The [successRate] virtual over metrics whose successful requests are a
    part of the total. *)
Lemma endpoint_successRate_range (m : ApiEndpoint.Metrics) :
  (ApiEndpoint.totalRequests m = 0 → ApiEndpoint.successRate m = 100)
  ∧ (0 ≤ ApiEndpoint.successfulRequests m ≤ ApiEndpoint.totalRequests m →
     0 ≤ ApiEndpoint.successRate m ≤ 100).
Proof.
  unfold ApiEndpoint.successRate.
  destruct (Z.eqb_spec (ApiEndpoint.totalRequests m) 0) as [E|E];
    [split; [done|lia]|].
  split; [done|]. intros Hm. apply percent_range; lia.
Qed.

Lemma overview_successRate_range (f : Filter) (docs : list ApiRequest.Doc) :
  let o := Overview.overview f docs in
  0 ≤ Overview.successRate o ≤ 100
  ∧ (Overview.totalRequests o = 0 → Overview.successRate o = 100).
Proof.
  cbv zeta. unfold Overview.successRate.
  destruct (Z.ltb_spec 0 (Overview.totalRequests (Overview.overview f docs)))
    as [Hpos|Hzero]; [|lia].
  split; [|lia]. apply percent_range; [|done].
  unfold Overview.overview in *. unfold Overview.overallMetrics in *.
  destruct (group_spec (fun _ : ApiRequest.Doc => ()) Overview.empty
              Overview.step (matching f docs)) as [_ Hin].
  destruct (Mongo.group _ _ _ _) as [|[k m] gs]; [simpl in Hpos; lia|].
  destruct (Hin k m ltac:(apply list_elem_of_here)) as [_ ->].
  apply overview_fold_success. simpl. lia.
Qed.

Lemma analytics_successRate_range (f : Filter) (groupBy : Analytics.GroupBy)
    (docs : list ApiRequest.Doc) (row : Analytics.Row.t) :
  row ∈ Analytics.formattedAnalytics f groupBy docs →
  0 ≤ Analytics.Row.successRate row ≤ 100
  ∧ (Analytics.Row.totalRequests row = 0
     → Analytics.Row.successRate row = 100).
Proof.
  unfold Analytics.formattedAnalytics.
  intros ([k a] & -> & Hk)%list_elem_of_fmap.
  cbn [Analytics.format Analytics.Row.successRate
       Analytics.Row.totalRequests snd].
  unfold Analytics.addSuccessRate.
  destruct (Z.eqb_spec (Analytics.totalRequests a) 0) as [E|E];
    [by vm_compute|].
  split; [|done].
  destruct (aggregate_spec f groupBy docs) as [_ Hin].
  destruct (Hin k a Hk) as [Hne ->].
  pose proof (analytics_fold_total Analytics.empty
                (Mongo.members (Analytics.groupFields groupBy) k
                   (matching f docs))) as Ht.
  pose proof (analytics_fold_success Analytics.empty
                (Mongo.members (Analytics.groupFields groupBy) k
                   (matching f docs)) ltac:(simpl; lia)) as Hs.
  apply percent_range; [done|].
  rewrite Ht. simpl.
  destruct (Mongo.members _ _ _); [done|]. simpl. lia.
Qed.

(** C6, amended: wherever a success rate is reported it is 100 when
    [totalRequests] is 0 in that scope, and no quotient by zero is taken.
    In the dashboard overview and in every bucket of the analytics it is an
    integer between 0 and 100.  The endpoint's [successRate] virtual is
    between 0 and 100 whenever the successful requests of the stored
    metrics are a part of their total; the schema defaults are such
    metrics and every update of the recorder keeps them so. *)
Theorem successRate_range (m : ApiEndpoint.Metrics) (samples : list Sample)
    (f : Filter) (groupBy : Analytics.GroupBy) (docs : list ApiRequest.Doc) :
  ((ApiEndpoint.totalRequests m = 0 → ApiEndpoint.successRate m = 100)
   ∧ (0 ≤ ApiEndpoint.successfulRequests m ≤ ApiEndpoint.totalRequests m →
      0 ≤ ApiEndpoint.successRate m ≤ 100
      ∧ 0 ≤ ApiEndpoint.successfulRequests (recorded m samples)
          ≤ ApiEndpoint.totalRequests (recorded m samples)
      ∧ 0 ≤ ApiEndpoint.successRate (recorded m samples) ≤ 100)
   ∧ (let m0 := recorded ApiEndpoint.defaultMetrics samples in
      0 ≤ ApiEndpoint.successRate m0 ≤ 100
      ∧ (ApiEndpoint.totalRequests m0 = 0
         → ApiEndpoint.successRate m0 = 100)))
  ∧ (let o := Overview.overview f docs in
     0 ≤ Overview.successRate o ≤ 100
     ∧ (Overview.totalRequests o = 0 → Overview.successRate o = 100))
  ∧ (∀ row, row ∈ Analytics.formattedAnalytics f groupBy docs →
       0 ≤ Analytics.Row.successRate row ≤ 100
       ∧ (Analytics.Row.totalRequests row = 0
          → Analytics.Row.successRate row = 100)).
Proof.
  split; [|split; [apply overview_successRate_range|
                   intros row; apply analytics_successRate_range]].
  split; [apply endpoint_successRate_range|]. split.
  - intros Hm. pose proof (recorded_success_part m samples Hm) as Hr.
    split; [by apply endpoint_successRate_range|]. split; [done|].
    by apply endpoint_successRate_range.
  - cbv zeta. split; [|apply endpoint_successRate_range].
    apply endpoint_successRate_range, recorded_success_part. simpl. lia.
Qed.

End SuccessRate.

(** C6, as stated, fails for the endpoint's virtual: the metrics of the
    body of POST /api/endpoints are stored as they are sent, and the virtual
    reads what is stored.  With one request in total and two successful
    ones the rate is 200 (the quotient 2 / 1 and the product 2 * 100 are
    integers, so no rounding is involved). *)
Lemma successRate_body_metrics_counterexample :
  let body := {| Api.PostEndpoints.path := "/users";
                 Api.PostEndpoints.method := ApiEndpoint.GET;
                 Api.PostEndpoints.product := "65e0a1b2c3d4e5f601234567";
                 Api.PostEndpoints.baseUrl := "https://api.example.com";
                 Api.PostEndpoints.fullUrl := None;
                 Api.PostEndpoints.headers := [];
                 Api.PostEndpoints.metrics :=
                   Some {| ApiEndpoint.totalRequests := 1;
                           ApiEndpoint.successfulRequests := 2;
                           ApiEndpoint.failedRequests := 0;
                           ApiEndpoint.averageResponseTime := 0;
                           ApiEndpoint.lastRequestTime := None;
                           ApiEndpoint.uptime := 100 |} |} in
  ∃ e, Api.PostEndpoints.handler (fun _ => true) true
         "65e0a1b2c3d4e5f60123abcd" body
       = Api.PostEndpoints.Created e
       ∧ @ApiEndpoint.successRate Js.exact (ApiEndpoint.metrics e) = 200
       ∧ ¬ (0 ≤ @ApiEndpoint.successRate Js.exact (ApiEndpoint.metrics e)
              ≤ 100).
Proof.
  eexists. split; [reflexivity|]. split; [reflexivity|].
  vm_compute. intros [_ H]. by apply H.
Qed.

Lemma successRate_range_witness :
  let samples := [ {| code := 200; took := 100; at_ := 1 |};
                   {| code := 200; took := 200; at_ := 2 |};
                   {| code := 500; took := 300; at_ := 3 |} ] in
  let m := {| ApiEndpoint.totalRequests := 4;
              ApiEndpoint.successfulRequests := 3;
              ApiEndpoint.failedRequests := 1;
              ApiEndpoint.averageResponseTime := 120;
              ApiEndpoint.lastRequestTime := None;
              ApiEndpoint.uptime := 100 |} in
  (0 ≤ @ApiEndpoint.successRate Js.exact m ≤ 100
   ∧ 0 ≤ ApiEndpoint.successfulRequests (recorded m samples)
       ≤ ApiEndpoint.totalRequests (recorded m samples)
   ∧ 0 ≤ @ApiEndpoint.successRate Js.exact (recorded m samples) ≤ 100)
  ∧ (let m0 := recorded ApiEndpoint.defaultMetrics samples in
     0 ≤ @ApiEndpoint.successRate Js.exact m0 ≤ 100
     ∧ (ApiEndpoint.totalRequests m0 = 0
        → @ApiEndpoint.successRate Js.exact m0 = 100))
  ∧ (let o := @Tracking.Overview.overview Utc.pipeline everything scenario in
     0 ≤ @Tracking.Overview.successRate Js.exact o ≤ 100
     ∧ (Tracking.Overview.totalRequests o = 0
        → @Tracking.Overview.successRate Js.exact o = 100))
  ∧ (∀ row,
       row ∈ @Tracking.Analytics.formattedAnalytics Js.exact Utc.pipeline
               everything Tracking.Analytics.ByDay scenario →
       0 ≤ Tracking.Analytics.Row.successRate row ≤ 100
       ∧ (Tracking.Analytics.Row.totalRequests row = 0
          → Tracking.Analytics.Row.successRate row = 100)).
Proof.
  intros samples m.
  destruct (@successRate_range Js.exact exact_laws Utc.pipeline utc_laws
              m samples everything Tracking.Analytics.ByDay scenario)
    as ((_ & Hm & H0) & Ho & Ha).
  split; [apply Hm; simpl; lia|]. split; [exact H0|]. split; [exact Ho|].
  exact Ha.
Defined.

Lemma analytics_product_filter_counts_nothing_witness :
  let rows := @Tracking.Analytics.formattedAnalytics Js.exact Utc.pipeline
                widgetsOnly Tracking.Analytics.ByDay widgetCalls in
  countIf (fun r => bool_decide (ApiRequest.product r = widgets)
                    && bool_decide (Tracking.startTimeOf r
                                    = Some 1709208000000))
    widgetCalls = 3
  ∧ rows = []
  ∧ sumZ (Tracking.Analytics.Row.totalRequests <$> rows) = 0.
Proof.
  split; [reflexivity|].
  exact (@analytics_product_filter_counts_nothing Js.exact Utc.pipeline
           utc_laws widgetsOnly Tracking.Analytics.ByDay widgetCalls
           eq_refl).
Defined.

Lemma analytics_counts_every_record_witness :
  let rows := @Tracking.Analytics.formattedAnalytics Js.exact Utc.pipeline
                everything Tracking.Analytics.ByHour scenario in
  sumZ (Tracking.Analytics.Row.totalRequests <$> rows) = 3
  ∧ NoDup (Tracking.Analytics.Row.bucket <$> rows)
  ∧ Forall (fun row =>
              0 < Tracking.Analytics.Row.totalRequests row
              ∧ Tracking.Analytics.Row.totalRequests row
                = Z.of_nat
                    (length (Mongo.members
                               (@Tracking.Analytics.groupFields Utc.pipeline
                                  Tracking.Analytics.ByHour)
                               (Tracking.Analytics.Row.bucket row)
                               scenario))) rows
  ∧ Forall (fun r => @Tracking.Analytics.groupFields Utc.pipeline
                       Tracking.Analytics.ByHour r
                     ∈ Tracking.Analytics.Row.bucket <$> rows) scenario.
Proof.
  exact (@analytics_counts_every_record Js.exact Utc.pipeline utc_laws
           everything Tracking.Analytics.ByHour scenario eq_refl).
Defined.

(** The end-to-end scenario of the specification, as the analytics report
    it: one bucket by day with success rate 67, two buckets by hour. *)
Example scenario_by_day :
  let rows := @Tracking.Analytics.formattedAnalytics Js.exact Utc.pipeline
                everything Tracking.Analytics.ByDay scenario in
  (fun row => (Tracking.Analytics.Row.totalRequests row,
               Tracking.Analytics.Row.successRate row,
               Tracking.Analytics.Row.avgResponseTime row)) <$> rows
  = [(3, 67, 200)].
Proof. vm_compute. reflexivity. Qed.

Example scenario_by_hour :
  let rows := @Tracking.Analytics.formattedAnalytics Js.exact Utc.pipeline
                everything Tracking.Analytics.ByHour scenario in
  (fun row => (Tracking.Analytics.hour (Tracking.Analytics.Row.bucket row),
               Tracking.Analytics.Row.totalRequests row,
               Tracking.Analytics.Row.successRate row)) <$> rows
  = [(Some 12, 2, 100); (Some 13, 1, 0)].
Proof. vm_compute. reflexivity. Qed.

(** ** Top products by request count *)

Section Ranking.

Import Tracking.
Context {F : Js.Ieee} {P : Mongo.Pipeline} {PL : Mongo.PipelineLaws P}.

#[local] Instance byCount_total : Total TopProducts.byCount.
Proof. intros a b. unfold TopProducts.byCount. lia. Qed.

#[local] Instance byCount_trans : Transitive TopProducts.byCount.
Proof. intros a b c. unfold TopProducts.byCount. lia. Qed.

Lemma StronglySorted_take {A : Type} (R : relation A) (n : nat) (l : list A) :
  StronglySorted R l → StronglySorted R (take n l).
Proof.
  intros Hl. rewrite <- (take_drop n l) in Hl.
  by apply StronglySorted_app_1_l in Hl.
Qed.

Lemma topProducts_fold_count (a : TopProducts.Acc) (l : list ApiRequest.Doc) :
  TopProducts.requestCount (foldl TopProducts.step a l)
  = TopProducts.requestCount a + Z.of_nat (length l).
Proof.
  revert a. induction l as [|d l IH]; intros a; simpl; [lia|].
  rewrite IH. simpl. lia.
Qed.

Lemma topProducts_sublist (f : Filter) (docs : list ApiRequest.Doc) :
  TopProducts.aggregate f docs
  `sublist_of` merge_sort TopProducts.byCount
                 (Mongo.group ApiRequest.product TopProducts.empty
                    TopProducts.step (matching f docs)).
Proof. apply sublist_take. Qed.

(** C7, amended: in the ranking of products by volume an entry never follows
    one with a smaller request count; the ranking has at most 10 entries, no
    product occurs twice, and each entry's count is the number of matching
    records of its product.  Nothing orders entries with equal counts. *)
Theorem topProducts_ranking (f : Filter) (docs : list ApiRequest.Doc) :
  let items := TopProducts.topProducts f docs in
  (length items ≤ 10)%nat
  ∧ StronglySorted
      (fun a b => TopProducts.Item.requestCount b
                  ≤ TopProducts.Item.requestCount a) items
  ∧ NoDup (TopProducts.Item._id <$> items)
  ∧ ∀ it, it ∈ items →
      TopProducts.Item.requestCount it
      = Z.of_nat (length (Mongo.members ApiRequest.product
                            (TopProducts.Item._id it) (matching f docs))).
Proof.
  cbv zeta. unfold TopProducts.topProducts.
  pose proof (topProducts_sublist f docs) as Hsub.
  destruct (group_spec ApiRequest.product TopProducts.empty TopProducts.step
              (matching f docs)) as [Hnd Hin].
  split; [|split; [|split]].
  - rewrite length_fmap. unfold TopProducts.aggregate.
    rewrite length_take. lia.
  - apply (StronglySorted_fmap _ TopProducts.byCount); [done|].
    unfold TopProducts.aggregate.
    apply StronglySorted_take, StronglySorted_merge_sort; apply _.
  - rewrite <- list_fmap_compose.
    apply (sublist_NoDup _
             (merge_sort TopProducts.byCount
                (Mongo.group ApiRequest.product TopProducts.empty
                   TopProducts.step (matching f docs))).*1).
    + by rewrite merge_sort_Permutation.
    + apply (fmap_sublist fst) in Hsub. exact Hsub.
  - intros it ([k a] & -> & Hk)%list_elem_of_fmap.
    assert (Hg : (k, a) ∈ Mongo.group ApiRequest.product TopProducts.empty
                            TopProducts.step (matching f docs)).
    { rewrite <- (merge_sort_Permutation TopProducts.byCount).
      by eapply elem_of_sublist. }
    destruct (Hin k a Hg) as [_ ->]. simpl.
    rewrite topProducts_fold_count. simpl. lia.
Qed.

End Ranking.

(** C7, as stated, fails: the ranking is sorted on [requestCount] alone.
    Products "a" and "b" have one request each; when the grouping stage
    hands out "b" first, "b" is listed before the lexically smaller "a", and
    when it hands out "a" first, the same records give the other order. *)
Lemma ranking_tie_counterexample :
  let first := @Tracking.TopProducts.topProducts Js.exact Utc.pipeline
                 everything tied in
  let again := @Tracking.TopProducts.topProducts Js.exact Utc.reversed
                 everything tied in
  Tracking.TopProducts.Item.requestCount <$> first = [1; 1]
  ∧ Tracking.TopProducts.Item._id <$> first = ["b"; "a"]
  ∧ String.ltb "a" "b" = true
  ∧ Tracking.TopProducts.Item._id <$> again = ["a"; "b"]
  ∧ first ≠ again.
Proof. vm_compute. repeat split. discriminate. Qed.

Lemma topProducts_ranking_witness :
  let items := @Tracking.TopProducts.topProducts Js.exact Utc.pipeline
                 everything tied in
  (length items ≤ 10)%nat
  ∧ StronglySorted
      (fun a b => Tracking.TopProducts.Item.requestCount b
                  ≤ Tracking.TopProducts.Item.requestCount a) items
  ∧ NoDup (Tracking.TopProducts.Item._id <$> items)
  ∧ ∀ it, it ∈ items →
      Tracking.TopProducts.Item.requestCount it
      = Z.of_nat (length (Mongo.members ApiRequest.product
                            (Tracking.TopProducts.Item._id it)
                            (Tracking.matching everything tied))).
Proof.
  exact (@topProducts_ranking Js.exact Utc.pipeline utc_laws everything tied).
Defined.

(** * Further properties of the code *)

(** ** Counting and extrema over the documents of a group *)

Lemma countIf_cons {A : Type} (p : A → bool) (x : A) (l : list A) :
  countIf p (x :: l) = (if p x then 1 else 0) + countIf p l.
Proof. unfold countIf. simpl. destruct (p x); simpl; lia. Qed.

Lemma countIf_bounds {A : Type} (p : A → bool) (l : list A) :
  0 ≤ countIf p l ≤ Z.of_nat (length l).
Proof.
  induction l as [|x l IH]; [unfold countIf; simpl; lia|].
  rewrite countIf_cons. simpl length. destruct (p x); lia.
Qed.

Lemma countIf_implies {A : Type} (p q : A → bool) (l : list A) :
  (∀ x, p x = true → q x = true) → countIf p l ≤ countIf q l.
Proof.
  intros Hpq. induction l as [|x l IH]; [done|].
  rewrite !countIf_cons. specialize (Hpq x).
  destruct (p x), (q x); try lia.
Qed.

Lemma members_const {Doc : Type} (docs : list Doc) :
  Mongo.members (fun _ : Doc => ()) () docs = docs.
Proof.
  unfold Mongo.members. induction docs as [|d docs IH]; [done|].
  rewrite filter_cons_True by done. by rewrite IH.
Qed.

(** [$min] and [$max] over the values of a group. *)
Lemma minAcc_fold_some (m : Z) (vs : list Z) :
  ∃ lo, foldl Mongo.minAcc (Some m) vs = Some lo
        ∧ lo ≤ m ∧ (∀ v, v ∈ vs → lo ≤ v) ∧ (lo = m ∨ lo ∈ vs).
Proof.
  revert m. induction vs as [|v vs IH]; intros m; simpl.
  - exists m. split; [done|]. split; [lia|]. split; [|by left].
    intros v Hv. by apply elem_of_nil in Hv.
  - destruct (IH (Z.min m v)) as (lo & Hlo & Hle & Hall & Hin).
    exists lo. split; [exact Hlo|]. split; [lia|]. split.
    + intros w [->|Hw]%elem_of_cons; [lia|by apply Hall].
    + destruct Hin as [->|Hin].
      * destruct (Z.min_spec m v) as [[_ ->]|[_ ->]]; [by left|].
        right. apply list_elem_of_here.
      * right. by apply list_elem_of_further.
Qed.

Lemma minAcc_fold (vs : list Z) :
  vs ≠ [] →
  ∃ lo, foldl Mongo.minAcc None vs = Some lo
        ∧ lo ∈ vs ∧ ∀ v, v ∈ vs → lo ≤ v.
Proof.
  destruct vs as [|v vs]; [done|]. intros _. simpl.
  destruct (minAcc_fold_some v vs) as (lo & Hlo & Hle & Hall & Hin).
  exists lo. split; [exact Hlo|]. split.
  - destruct Hin as [->|Hin]; [apply list_elem_of_here|].
    by apply list_elem_of_further.
  - intros w [->|Hw]%elem_of_cons; [done|by apply Hall].
Qed.

Lemma maxAcc_fold_some (m : Z) (vs : list Z) :
  ∃ hi, foldl Mongo.maxAcc (Some m) vs = Some hi
        ∧ m ≤ hi ∧ (∀ v, v ∈ vs → v ≤ hi) ∧ (hi = m ∨ hi ∈ vs).
Proof.
  revert m. induction vs as [|v vs IH]; intros m; simpl.
  - exists m. split; [done|]. split; [lia|]. split; [|by left].
    intros v Hv. by apply elem_of_nil in Hv.
  - destruct (IH (Z.max m v)) as (hi & Hhi & Hle & Hall & Hin).
    exists hi. split; [exact Hhi|]. split; [lia|]. split.
    + intros w [->|Hw]%elem_of_cons; [lia|by apply Hall].
    + destruct Hin as [->|Hin].
      * destruct (Z.max_spec m v) as [[_ ->]|[_ ->]]; [|by left].
        right. apply list_elem_of_here.
      * right. by apply list_elem_of_further.
Qed.

Lemma maxAcc_fold (vs : list Z) :
  vs ≠ [] →
  ∃ hi, foldl Mongo.maxAcc None vs = Some hi
        ∧ hi ∈ vs ∧ ∀ v, v ∈ vs → v ≤ hi.
Proof.
  destruct vs as [|v vs]; [done|]. intros _. simpl.
  destruct (maxAcc_fold_some v vs) as (hi & Hhi & Hle & Hall & Hin).
  exists hi. split; [exact Hhi|]. split.
  - destruct Hin as [->|Hin]; [apply list_elem_of_here|].
    by apply list_elem_of_further.
  - intros w [->|Hw]%elem_of_cons; [done|by apply Hall].
Qed.

Lemma size_list_to_set_le `{Countable A} (l : list A) :
  (size (list_to_set l : gset A) ≤ length l)%nat.
Proof.
  induction l as [|x l IH].
  - by rewrite list_to_set_nil, size_empty.
  - rewrite list_to_set_cons, size_union_alt, size_singleton.
    assert (Hsub : (size (list_to_set l ∖ {[x]} : gset A)
                    ≤ size (list_to_set l : gset A))%nat).
    { apply subseteq_size. apply subseteq_difference_l. done. }
    simpl length. lia.
Qed.

Lemma size_list_to_set_pos `{Countable A} (l : list A) :
  l ≠ [] → (1 ≤ size (list_to_set l : gset A))%nat.
Proof.
  destruct l as [|x l]; [done|]. intros _.
  destruct (decide (size (list_to_set (x :: l) : gset A) = 0%nat))
    as [Hz|Hnz]; [|lia].
  apply size_empty_inv in Hz.
  assert (Hx : x ∈ (list_to_set (x :: l) : gset A)).
  { rewrite list_to_set_cons. apply elem_of_union_l. by apply elem_of_singleton. }
  rewrite Hz in Hx. by apply not_elem_of_empty in Hx.
Qed.

Lemma countIf_disjoint {A : Type} (p q : A → bool) (l : list A) :
  (∀ x, p x && q x = false) →
  countIf p l + countIf q l ≤ Z.of_nat (length l).
Proof.
  intros Hpq. induction l as [|x l IH]; [unfold countIf; simpl; lia|].
  rewrite !countIf_cons. simpl length. specialize (Hpq x).
  destruct (p x), (q x); try discriminate; lia.
Qed.

Lemma success_error_disjoint (r : ApiRequest.Doc) :
  ApiRequest.isSuccess r && ApiRequest.isError r = false.
Proof. unfold ApiRequest.isSuccess, ApiRequest.isError. lia. Qed.

(** ** The buckets of the analytics *)

Section AnalyticsBuckets.

Import Tracking.
Context {F : Js.Ieee} {P : Mongo.Pipeline} {PL : Mongo.PipelineLaws P}.

Lemma analytics_fold_counters (a : Analytics.Acc) (l : list ApiRequest.Doc) :
  Analytics.successfulRequests (foldl Analytics.step a l)
  = Analytics.successfulRequests a + countIf ApiRequest.isSuccess l
  ∧ Analytics.failedRequests (foldl Analytics.step a l)
    = Analytics.failedRequests a + countIf ApiRequest.isError l.
Proof.
  revert a. induction l as [|d l IH]; intros a.
  - unfold countIf. simpl. lia.
  - simpl foldl. destruct (IH (Analytics.step a d)) as [-> ->].
    rewrite !countIf_cons. unfold Analytics.step, successful, failed,
      ApiRequest.isSuccess, ApiRequest.isError, statusOf. simpl.
    destruct ((200 <=? _) && (_ <? 300)), (400 <=? _); lia.
Qed.

Lemma analytics_fold_extrema (a : Analytics.Acc) (l : list ApiRequest.Doc) :
  Analytics.minResponseTime (foldl Analytics.step a l)
  = foldl Mongo.minAcc (Analytics.minResponseTime a) (durationOf <$> l)
  ∧ Analytics.maxResponseTime (foldl Analytics.step a l)
    = foldl Mongo.maxAcc (Analytics.maxResponseTime a) (durationOf <$> l).
Proof.
  revert a. induction l as [|d l IH]; intros a; [done|].
  simpl foldl. destruct (IH (Analytics.step a d)) as [-> ->]. done.
Qed.

Lemma analytics_fold_sets (a : Analytics.Acc) (l : list ApiRequest.Doc) :
  Analytics.uniqueEndpoints (foldl Analytics.step a l)
  = list_to_set (ApiRequest.endpoint <$> l) ∪ Analytics.uniqueEndpoints a
  ∧ Analytics.uniqueUsers (foldl Analytics.step a l)
    = list_to_set (ApiRequest.userId <$> l) ∪ Analytics.uniqueUsers a.
Proof.
  revert a. induction l as [|d l IH]; intros a.
  - simpl. split; by rewrite (left_id_L ∅ (∪)).
  - simpl foldl. destruct (IH (Analytics.step a d)) as [-> ->].
    rewrite !fmap_cons, !list_to_set_cons. simpl.
    split; apply set_eq; intros x; rewrite !elem_of_union; tauto.
Qed.

(** X1: In every bucket, [successfulRequests] and [failedRequests] are the
    numbers of its records with a status in [200, 300) and of at least 400;
    together they never exceed [totalRequests]. *)
Theorem analytics_bucket_counters (f : Filter) (groupBy : Analytics.GroupBy)
    (docs : list ApiRequest.Doc) :
  let rows := Analytics.formattedAnalytics f groupBy docs in
  Forall (fun row =>
    let ms := Mongo.members (Analytics.groupFields groupBy)
                (Analytics.Row.bucket row) (matching f docs) in
    Analytics.Row.successfulRequests row = countIf ApiRequest.isSuccess ms
    ∧ Analytics.Row.failedRequests row = countIf ApiRequest.isError ms
    ∧ Analytics.Row.successfulRequests row + Analytics.Row.failedRequests row
      ≤ Analytics.Row.totalRequests row) rows.
Proof.
  cbv zeta. apply Forall_forall. unfold Analytics.formattedAnalytics.
  intros row ([k a] & -> & Hk)%list_elem_of_fmap.
  destruct (aggregate_spec f groupBy docs) as [_ Hin].
  destruct (Hin k a Hk) as [_ ->]. simpl.
  set (ms := Mongo.members _ _ _).
  destruct (analytics_fold_counters Analytics.empty ms) as [-> ->].
  rewrite analytics_fold_total. simpl.
  pose proof (countIf_disjoint ApiRequest.isSuccess ApiRequest.isError ms
                success_error_disjoint).
  repeat split; lia.
Qed.

(** X2: In every bucket, [minResponseTime] and [maxResponseTime] are durations
    of records of the bucket, and every duration of the bucket lies between
    them. *)
Theorem analytics_bucket_extrema (f : Filter) (groupBy : Analytics.GroupBy)
    (docs : list ApiRequest.Doc) :
  let rows := Analytics.formattedAnalytics f groupBy docs in
  Forall (fun row =>
    let ms := Mongo.members (Analytics.groupFields groupBy)
                (Analytics.Row.bucket row) (matching f docs) in
    ∃ lo hi,
      Analytics.Row.minResponseTime row = Some lo
      ∧ Analytics.Row.maxResponseTime row = Some hi
      ∧ lo ∈ durationOf <$> ms
      ∧ hi ∈ durationOf <$> ms
      ∧ ∀ r, r ∈ ms → lo ≤ durationOf r ≤ hi) rows.
Proof.
  cbv zeta. apply Forall_forall. unfold Analytics.formattedAnalytics.
  intros row ([k a] & -> & Hk)%list_elem_of_fmap.
  destruct (aggregate_spec f groupBy docs) as [_ Hin].
  destruct (Hin k a Hk) as [Hne ->]. simpl.
  set (ms := Mongo.members _ _ _) in *.
  destruct (analytics_fold_extrema Analytics.empty ms) as [-> ->].
  assert (Hvs : durationOf <$> ms ≠ []) by (by destruct ms).
  destruct (minAcc_fold _ Hvs) as (lo & Hlo & Hlo_in & Hlo_le).
  destruct (maxAcc_fold _ Hvs) as (hi & Hhi & Hhi_in & Hhi_le).
  exists lo, hi. repeat split; try done.
  - apply Hlo_le. by apply list_elem_of_fmap_2.
  - apply Hhi_le. by apply list_elem_of_fmap_2.
Qed.

(** X3: In every bucket, [uniqueEndpointCount] and [uniqueUserCount] are the
    numbers of distinct [endpoint] and [userId] values of its records; both
    are at least 1 and at most [totalRequests].  A missing user is a value
    like any other: a bucket without any user has [uniqueUserCount] 1. *)
Theorem analytics_distinct_counts (f : Filter) (groupBy : Analytics.GroupBy)
    (docs : list ApiRequest.Doc) :
  let rows := Analytics.formattedAnalytics f groupBy docs in
  Forall (fun row =>
    let ms := Mongo.members (Analytics.groupFields groupBy)
                (Analytics.Row.bucket row) (matching f docs) in
    Analytics.Row.uniqueEndpointCount row
    = Z.of_nat (size (list_to_set (ApiRequest.endpoint <$> ms) : gset string))
    ∧ Analytics.Row.uniqueUserCount row
      = Z.of_nat (size (list_to_set (ApiRequest.userId <$> ms)
                        : gset (option string)))
    ∧ 1 ≤ Analytics.Row.uniqueEndpointCount row
        ≤ Analytics.Row.totalRequests row
    ∧ 1 ≤ Analytics.Row.uniqueUserCount row ≤ Analytics.Row.totalRequests row
    ∧ ((∀ r, r ∈ ms → ApiRequest.userId r = None)
       → Analytics.Row.uniqueUserCount row = 1)) rows.
Proof.
  cbv zeta. apply Forall_forall. unfold Analytics.formattedAnalytics.
  intros row ([k a] & -> & Hk)%list_elem_of_fmap.
  destruct (aggregate_spec f groupBy docs) as [_ Hin].
  destruct (Hin k a Hk) as [Hne ->]. simpl.
  set (ms := Mongo.members _ _ _) in *.
  destruct (analytics_fold_sets Analytics.empty ms) as [-> ->].
  rewrite analytics_fold_total. simpl.
  rewrite !(right_id_L ∅ (∪)).
  assert (He : ApiRequest.endpoint <$> ms ≠ []) by (by destruct ms).
  assert (Hu : ApiRequest.userId <$> ms ≠ []) by (by destruct ms).
  pose proof (size_list_to_set_le (ApiRequest.endpoint <$> ms)) as He1.
  pose proof (size_list_to_set_pos _ He) as He2.
  pose proof (size_list_to_set_le (ApiRequest.userId <$> ms)) as Hu1.
  pose proof (size_list_to_set_pos _ Hu) as Hu2.
  rewrite length_fmap in He1. rewrite length_fmap in Hu1.
  repeat split; try lia.
  intros Hnone.
  assert (Hset : (list_to_set (ApiRequest.userId <$> ms)
                  : gset (option string)) = {[ None ]}).
  { apply set_eq. intros u. rewrite elem_of_list_to_set, elem_of_singleton.
    split.
    - intros (r & -> & Hr)%list_elem_of_fmap. by apply Hnone.
    - intros ->. destruct ms as [|r ms']; [done|].
      rewrite fmap_cons, (Hnone r) by apply list_elem_of_here.
      apply list_elem_of_here. }
  rewrite Hset, size_singleton. done.
Qed.

End AnalyticsBuckets.

(** ** The dashboard overview and the recorder *)

Lemma countIf_app {A : Type} (p : A → bool) (l k : list A) :
  countIf p (l ++ k) = countIf p l + countIf p k.
Proof.
  unfold countIf. rewrite List.filter_app, length_app. lia.
Qed.

Lemma scan_const {Doc Acc : Type} (empty : Acc) (step : Acc → Doc → Acc)
    (docs : list Doc) :
  Mongo.scan (fun _ : Doc => ()) empty step docs
  = match docs with
    | [] => []
    | _ => [((), foldl step empty docs)]
    end.
Proof.
  induction docs as [|d docs IH] using rev_ind; [done|].
  rewrite scan_snoc, IH, foldl_snoc.
  by destruct docs as [|d' docs'].
Qed.

Lemma group_const {Doc Acc : Type} {P : Mongo.Pipeline}
    {PL : Mongo.PipelineLaws P} (empty : Acc) (step : Acc → Doc → Acc) (docs : list Doc) :
  Mongo.group (fun _ : Doc => ()) empty step docs
  = match docs with
    | [] => []
    | _ => [((), foldl step empty docs)]
    end.
Proof.
  pose proof (group_Permutation (fun _ : Doc => ()) empty step docs) as Hp.
  rewrite scan_const in Hp. destruct docs as [|d docs].
  - by apply Permutation_nil_r in Hp.
  - by apply Permutation_singleton_r in Hp.
Qed.

Section OverviewCounts.

Import Tracking.
Context {P : Mongo.Pipeline} {PL : Mongo.PipelineLaws P}.

Lemma overview_fold_counters (a : Overview.t) (l : list ApiRequest.Doc) :
  Overview.successfulRequests (foldl Overview.step a l)
  = Overview.successfulRequests a + countIf ApiRequest.isSuccess l
  ∧ Overview.failedRequests (foldl Overview.step a l)
    = Overview.failedRequests a + countIf ApiRequest.isError l.
Proof.
  revert a. induction l as [|d l IH]; intros a.
  - unfold countIf. simpl. lia.
  - simpl foldl. destruct (IH (Overview.step a d)) as [-> ->].
    rewrite !countIf_cons. unfold Overview.step, successful, failed,
      ApiRequest.isSuccess, ApiRequest.isError, statusOf. simpl.
    destruct ((200 <=? _) && (_ <? 300)), (400 <=? _); lia.
Qed.

Lemma overview_unfold (f : Filter) (docs : list ApiRequest.Doc) :
  Overview.overview f docs
  = match matching f docs with
    | [] => Overview.noRequests
    | ms => foldl Overview.step Overview.empty ms
    end.
Proof.
  unfold Overview.overview, Overview.overallMetrics.
  rewrite group_const. by destruct (matching f docs).
Qed.

(** What the overview holds. *)
Lemma overview_totals (f : Filter) (docs : list ApiRequest.Doc) :
  let o := Overview.overview f docs in
  let ms := matching f docs in
  Overview.totalRequests o = Z.of_nat (length ms)
  ∧ Overview.successfulRequests o = countIf ApiRequest.isSuccess ms
  ∧ Overview.failedRequests o = countIf ApiRequest.isError ms
  ∧ Overview.successfulRequests o + Overview.failedRequests o
    ≤ Overview.totalRequests o
  ∧ (ms = [] → o = Overview.noRequests).
Proof.
  cbv zeta. rewrite overview_unfold.
  destruct (matching f docs) as [|d ms] eqn:E.
  - unfold countIf. simpl. repeat split; lia.
  - rewrite overview_fold_total.
    destruct (overview_fold_counters Overview.empty (d :: ms)) as [-> ->].
    pose proof (countIf_disjoint ApiRequest.isSuccess ApiRequest.isError
                  (d :: ms) success_error_disjoint).
    simpl Overview.totalRequests. simpl Overview.successfulRequests.
    simpl Overview.failedRequests.
    repeat split; try lia. discriminate.
Qed.

(** X5: The overview counts every matching record once: [totalRequests] is their
    number, [successfulRequests] and [failedRequests] are the numbers of
    those with a status in [200, 300) and of at least 400, and when nothing
    matches the overview is the literal with all zeros. *)
Theorem overview_counts (f : Filter) (docs : list ApiRequest.Doc) :
  let o := Overview.overview f docs in
  let ms := matching f docs in
  Overview.totalRequests o = Z.of_nat (length ms)
  ∧ Overview.successfulRequests o = countIf ApiRequest.isSuccess ms
  ∧ Overview.failedRequests o = countIf ApiRequest.isError ms
  ∧ Overview.successfulRequests o + Overview.failedRequests o
    ≤ Overview.totalRequests o
  ∧ (ms = [] → o = Overview.noRequests).
Proof.
  cbv zeta. rewrite overview_unfold.
  destruct (matching f docs) as [|d ms] eqn:E.
  - unfold countIf. simpl. repeat split; lia.
  - rewrite overview_fold_total.
    destruct (overview_fold_counters Overview.empty (d :: ms)) as [-> ->].
    pose proof (countIf_disjoint ApiRequest.isSuccess ApiRequest.isError
                  (d :: ms) success_error_disjoint).
    simpl Overview.totalRequests. simpl Overview.successfulRequests.
    simpl Overview.failedRequests.
    repeat split; try lia. discriminate.
Qed.

Lemma recorded_counts (l : list ApiRequest.Doc) :
  let m := recorded ApiEndpoint.defaultMetrics (sampleOf <$> l) in
  ApiEndpoint.totalRequests m = Z.of_nat (length l)
  ∧ ApiEndpoint.successfulRequests m = countIf ApiRequest.isSuccess l
  ∧ ApiEndpoint.failedRequests m = countIf ApiRequest.isError l.
Proof.
  induction l as [|d l IH] using rev_ind; [by vm_compute|].
  cbv zeta in *. destruct IH as (Ht & Hs & Hf).
  rewrite fmap_app. change (sampleOf <$> [d]) with [sampleOf d].
  rewrite recorded_snoc, !countIf_app, length_app.
  unfold Api.TestEndpoint.updateEndpointMetrics.
  cbn [ApiEndpoint.totalRequests ApiEndpoint.successfulRequests
       ApiEndpoint.failedRequests].
  rewrite Ht, Hs, Hf.
  change (countIf ApiRequest.isSuccess [d])
    with (Z.of_nat (length (if ApiRequest.isSuccess d then [d] else []))).
  change (countIf ApiRequest.isError [d])
    with (Z.of_nat (length (if ApiRequest.isError d then [d] else []))).
  unfold ApiRequest.isSuccess, ApiRequest.isError, sampleOf, statusOf.
  cbn [code]. simpl length.
  destruct ((200 <=? _) && (_ <? 300)) eqn:E1, (400 <=? _) eqn:E2;
    simpl; repeat split; lia.
Qed.

(** X6: The running counters and the overview agree: after the recorder was
    applied to exactly the records that match, the endpoint's
    [totalRequests], [successfulRequests] and [failedRequests] are the
    numbers the overview aggregation computes from the stored records. *)
Theorem recorder_agrees_with_overview (f : Filter)
    (docs : list ApiRequest.Doc) :
  let m := recorded ApiEndpoint.defaultMetrics (sampleOf <$> matching f docs) in
  let o := Overview.overview f docs in
  ApiEndpoint.totalRequests m = Overview.totalRequests o
  ∧ ApiEndpoint.successfulRequests m = Overview.successfulRequests o
  ∧ ApiEndpoint.failedRequests m = Overview.failedRequests o.
Proof.
  cbv zeta.
  destruct (overview_totals f docs) as (-> & -> & -> & _).
  apply recorded_counts.
Qed.

End OverviewCounts.

(** ** The ranking of products, continued *)

Section RankingRates.

Import Tracking.
Context {F : Js.Ieee} {FL : Js.IeeeLaws F}.
Context {P : Mongo.Pipeline} {PL : Mongo.PipelineLaws P}.

Lemma topProducts_fold_success (a : TopProducts.Acc)
    (l : list ApiRequest.Doc) :
  TopProducts.successCount (foldl TopProducts.step a l)
  = TopProducts.successCount a + countIf ApiRequest.isSuccess l.
Proof.
  revert a. induction l as [|d l IH]; intros a.
  - unfold countIf. simpl. lia.
  - simpl foldl. rewrite IH, countIf_cons.
    unfold TopProducts.step, successful, ApiRequest.isSuccess, statusOf.
    simpl. destruct ((200 <=? _) && (_ <? 300)); lia.
Qed.

(** X7: Every entry of the ranking stands for a product with at least one
    matching record; its [requestCount] is the number of these records and
    its [successRate] is the rounded percentage of those among them that
    have a status in [200, 300), a number between 0 and 100. *)
Theorem topProducts_successRate (f : Filter) (docs : list ApiRequest.Doc) :
  let items := TopProducts.topProducts f docs in
  Forall (fun it =>
    let ms := Mongo.members ApiRequest.product (TopProducts.Item._id it)
                (matching f docs) in
    ms ≠ []
    ∧ TopProducts.Item.requestCount it = Z.of_nat (length ms)
    ∧ TopProducts.Item.successRate it
      = Js.mathRound (percent (countIf ApiRequest.isSuccess ms)
                        (Z.of_nat (length ms)))
    ∧ 0 ≤ TopProducts.Item.successRate it ≤ 100) items.
Proof.
  cbv zeta. apply Forall_forall. unfold TopProducts.topProducts.
  intros it ([k a] & -> & Hk)%list_elem_of_fmap.
  assert (Hg : (k, a) ∈ Mongo.group ApiRequest.product TopProducts.empty
                          TopProducts.step (matching f docs)).
  { rewrite <- (merge_sort_Permutation TopProducts.byCount).
    eapply elem_of_sublist; [exact Hk|]. apply sublist_take. }
  destruct (group_spec ApiRequest.product TopProducts.empty TopProducts.step
              (matching f docs)) as [_ Hin].
  destruct (Hin k a Hg) as [Hne Ha].
  cbn [TopProducts.item TopProducts.Item.successRate
       TopProducts.Item.requestCount TopProducts.Item._id fst snd].
  set (ms := Mongo.members ApiRequest.product k (matching f docs)) in *.
  assert (Hcount : TopProducts.requestCount a = Z.of_nat (length ms))
    by (rewrite Ha, topProducts_fold_count; simpl; lia).
  assert (Hsucc : TopProducts.successCount a = countIf ApiRequest.isSuccess ms)
    by (rewrite Ha, topProducts_fold_success; simpl; lia).
  pose proof (countIf_bounds ApiRequest.isSuccess ms) as Hb.
  assert (Hpos : 0 < Z.of_nat (length ms)) by (destruct ms; [done|simpl; lia]).
  rewrite Hcount, Hsucc.
  split; [done|]. split; [done|]. split; [done|].
  apply percent_range; lia.
Qed.

End RankingRates.

(** ** The probe route, whatever the network does *)

Section ProbeNever.

Import Api.TestEndpoint.

(** X8: The probe route never answers with the 200 payload and never changes
    the store: no telemetry record is added and the endpoint's metrics stay
    as they were, for every outcome of [fetch], a response as well as a
    failure.  An unknown id gives 404, a known one 500. *)
Theorem probe_never_completes (stringifyLength : ApiRequest.Body → Z)
    (store : Store) (headers : gmap string string)
    (requestBody : option string) (env : ApiRequest.Environment)
    (outcome : Fetch.Outcome) (startTime endTime now : Z) :
  let result := handler stringifyLength store headers requestBody env outcome
                  startTime endTime now in
  result.2 = store
  ∧ result.1 = match endpoint store with
               | Some _ => ServerError
               | None => NotFound
               end.
Proof.
  cbv zeta. destruct store as [[e|] rs].
  - by rewrite (handler_always_fails stringifyLength e rs).
  - done.
Qed.

End ProbeNever.

(** ** Telemetry records *)

(** X9: [save()] stores a telemetry record only when its status text and
    both dates are present, and rejects it otherwise.  A stored record is
    consistent, [startTime] plus [duration] is [endTime], and saving the
    stored record again stores the same record. *)
Theorem save_idempotent (r : ApiRequest.Doc) :
  match ApiRequest.save r with
  | Js.Return saved =>
      ApiRequest.save saved = Js.Return saved
      ∧ ∃ s e,
          ApiRequest.Timing.startTime (ApiRequest.timing saved) = Some s
          ∧ ApiRequest.Timing.endTime (ApiRequest.timing saved) = Some e
          ∧ s + ApiRequest.Timing.duration (ApiRequest.timing saved) = e
  | Js.Throw _ =>
      ApiRequest.Timing.startTime (ApiRequest.timing r) = None
      ∨ ApiRequest.Timing.endTime (ApiRequest.timing r) = None
      ∨ ApiRequest.Response.statusText (ApiRequest.response r) = ""
  end
  ∧ (ApiRequest.Timing.startTime (ApiRequest.timing r) = None
     ∨ ApiRequest.Timing.endTime (ApiRequest.timing r) = None
     ∨ ApiRequest.Response.statusText (ApiRequest.response r) = ""
     → ∃ field, ApiRequest.save r = Js.Throw (Js.ValidationError field)).
Proof.
  split.
  - pose proof (save_cases r) as Hsave.
    destruct (ApiRequest.save r) as [saved|err]; [|done].
    destruct Hsave as (s & e & Hs & He & Htext & -> & Ht). split.
    + destruct r as [ep p m h resp [st en d] sz env src u].
      simpl in Hs, He, Htext. subst st en.
      unfold ApiRequest.save, ApiRequest.validate, ApiRequest.requiredString.
      simpl. by destruct (String.eqb_spec (ApiRequest.Response.statusText resp) "").
    + exists s, e. rewrite Ht. simpl. repeat split. lia.
  - unfold ApiRequest.save, ApiRequest.validate, ApiRequest.requiredString,
      ApiRequest.requiredDate.
    intros Hmiss.
    destruct (String.eqb_spec
                (ApiRequest.Response.statusText (ApiRequest.response r)) "")
      as [E|E]; simpl; [by eexists|].
    destruct (ApiRequest.Timing.startTime (ApiRequest.timing r)) as [s|];
      simpl; [|by eexists].
    destruct (ApiRequest.Timing.endTime (ApiRequest.timing r)) as [e|];
      simpl; [|by eexists].
    by destruct Hmiss as [?|[?|?]].
Qed.

(** A record of the scenario is stored as it is. *)
Example save_scenario :
  let r := telemetry "p1" "e1" 200 1709208000000 100 in
  ApiRequest.save r = Js.Return r.
Proof. reflexivity. Qed.

(** ** Endpoints: creation and update *)

Section Endpoints.

Import Api.

(** X10: A created endpoint stores [baseUrl] followed by [path] as its
    [fullUrl], whatever [fullUrl] the body carried; it is created only for
    a non-empty path, a base URL the validator accepts, and an existing
    product. *)
Theorem created_endpoint (isURL : string → bool) (productExists : bool)
    (newId : string) (body : PostEndpoints.Body) (e : ApiEndpoint.Doc) :
  PostEndpoints.handler isURL productExists newId body
  = PostEndpoints.Created e →
  ApiEndpoint.fullUrl e
  = PostEndpoints.baseUrl body +:+ PostEndpoints.path body
  ∧ urlInvariant e
  ∧ ApiEndpoint.path e ≠ ""
  ∧ isURL (ApiEndpoint.baseUrl e) = true
  ∧ productExists = true.
Proof.
  unfold PostEndpoints.handler, PostEndpoints.valid.
  destruct (String.eqb_spec (PostEndpoints.path body) "") as [|Hp];
    [discriminate|].
  destruct (isURL (PostEndpoints.baseUrl body)) eqn:Hb; [|discriminate].
  destruct productExists; [|discriminate].
  intros [= <-]. done.
Qed.

(** X11: A PUT that carries a base URL or a path stores the concatenation of
    the base URL and the path the endpoint has afterwards as its [fullUrl],
    whatever [fullUrl] the body or the stored document carried: the value
    given is taken, the one not given is kept. *)
Theorem put_recomputes_fullUrl (isURL : string → bool)
    (stored e' : ApiEndpoint.Doc) (body : PutEndpoint.Body) :
  Js.truthy (PutEndpoint.baseUrl body) || Js.truthy (PutEndpoint.path body)
  = true →
  PutEndpoint.handler isURL (Some stored) body
  = (PutEndpoint.Updated e', Some e') →
  ApiEndpoint.fullUrl e' = ApiEndpoint.baseUrl e' +:+ ApiEndpoint.path e'
  ∧ ApiEndpoint.baseUrl e'
    = default (ApiEndpoint.baseUrl stored) (PutEndpoint.baseUrl body)
  ∧ ApiEndpoint.path e'
    = default (ApiEndpoint.path stored) (PutEndpoint.path body).
Proof.
  unfold PutEndpoint.handler, PutEndpoint.withFullUrl.
  intros Hbody.
  destruct (PutEndpoint.valid isURL body); [|discriminate].
  destruct body as [p m b f bm], stored as [sid sp sm sprod sb sf sh smet].
  cbn [PutEndpoint.baseUrl PutEndpoint.path PutEndpoint.fullUrl
       ApiEndpoint.baseUrl ApiEndpoint.path ApiEndpoint.fullUrl] in *.
  destruct b as [[|cb b]|], p as [[|cp p]|], sb as [|csb sb]; simpl in *;
    try discriminate;
    intros Hput; inversion Hput; subst; simpl; done.
Qed.

(** X12: A PUT to an id that no endpoint has never creates one.  When its body
    carries only one of [baseUrl] and [path], the handler reads the other
    from the missing document and answers 500, not 404. *)
Theorem put_unknown_id (isURL : string → bool) (body : PutEndpoint.Body) :
  PutEndpoint.valid isURL body = true →
  Js.truthy (PutEndpoint.baseUrl body) ≠ Js.truthy (PutEndpoint.path body) →
  PutEndpoint.handler isURL None body = (PutEndpoint.ServerError, None).
Proof.
  unfold PutEndpoint.handler, PutEndpoint.withFullUrl.
  intros -> Hone.
  destruct body as [p m b f bm]. simpl in *.
  destruct b as [[|cb b]|], p as [[|cp p]|]; simpl in *; done.
Qed.

Lemma findByIdAndUpdate_unknown (u : PutEndpoint.Body) (e : ApiEndpoint.Doc) :
  PutEndpoint.findByIdAndUpdate None u ≠ Js.Return (Some e).
Proof.
  unfold PutEndpoint.findByIdAndUpdate.
  destruct (PutEndpoint.requiredOk "path" (PutEndpoint.path u)); [|done].
  destruct (PutEndpoint.requiredOk "baseUrl" (PutEndpoint.baseUrl u)); [|done].
  destruct (PutEndpoint.requiredOk "fullUrl" (PutEndpoint.fullUrl u)); done.
Qed.

Lemma put_unknown_id_never_creates (isURL : string → bool)
    (body : PutEndpoint.Body) :
  (PutEndpoint.handler isURL None body).2 = None.
Proof.
  unfold PutEndpoint.handler.
  destruct (PutEndpoint.valid isURL body); [|done].
  destruct (PutEndpoint.withFullUrl None body) as [u|err]; [|done].
  change (u0 ← Js.Return u; PutEndpoint.findByIdAndUpdate None u0)
    with (PutEndpoint.findByIdAndUpdate None u).
  pose proof (findByIdAndUpdate_unknown u) as Hu.
  destruct (PutEndpoint.findByIdAndUpdate None u) as [[e|]|]; try done.
  by destruct (Hu e).
Qed.

End Endpoints.

Lemma created_endpoint_witness :
  let body := {| Api.PostEndpoints.path := "/users";
                 Api.PostEndpoints.method := ApiEndpoint.GET;
                 Api.PostEndpoints.product := "p1";
                 Api.PostEndpoints.baseUrl := "https://api.example.com";
                 Api.PostEndpoints.fullUrl := Some "https://elsewhere.example";
                 Api.PostEndpoints.headers := [];
                 Api.PostEndpoints.metrics := None |} in
  let e := ApiEndpoint.save (Api.PostEndpoints.endpointData "e9" body) in
  ApiEndpoint.fullUrl e = "https://api.example.com" +:+ "/users"
  ∧ urlInvariant e
  ∧ ApiEndpoint.path e ≠ ""
  ∧ (fun _ : string => true) (ApiEndpoint.baseUrl e) = true
  ∧ true = true.
Proof.
  intros body e.
  exact (created_endpoint (fun _ => true) true "e9" body e eq_refl).
Defined.

Lemma put_unknown_id_witness :
  Api.PutEndpoint.handler (fun _ => true) None
    {| Api.PutEndpoint.path := Some "/v2/users";
       Api.PutEndpoint.method := None;
       Api.PutEndpoint.baseUrl := None;
       Api.PutEndpoint.fullUrl := None;
       Api.PutEndpoint.metrics := None |}
  = (Api.PutEndpoint.ServerError, None).
Proof.
  apply put_unknown_id; [reflexivity|]. simpl. discriminate.
Defined.

Lemma put_recomputes_fullUrl_witness :
  let body := {| Api.PutEndpoint.path := Some "/v2/users";
                 Api.PutEndpoint.method := None;
                 Api.PutEndpoint.baseUrl := None;
                 Api.PutEndpoint.fullUrl := Some "https://stale.example";
                 Api.PutEndpoint.metrics := None |} in
  ∃ e', Api.PutEndpoint.handler (fun _ => true) (Some usersEndpoint) body
        = (Api.PutEndpoint.Updated e', Some e')
        ∧ ApiEndpoint.fullUrl e' = "https://api.example.com/v2/users"
        ∧ ApiEndpoint.fullUrl e'
          = ApiEndpoint.baseUrl e' +:+ ApiEndpoint.path e'
        ∧ ApiEndpoint.baseUrl e' = "https://api.example.com"
        ∧ ApiEndpoint.path e' = "/v2/users".
Proof.
  intros body. eexists. split; [reflexivity|]. split; [reflexivity|].
  apply (put_recomputes_fullUrl (fun _ => true) usersEndpoint _ body);
    reflexivity.
Defined.

(** ** Pagination *)

Section Paging.

Import Pagination.

Lemma pages_eq (total limit : Z) :
  0 < limit → pages total limit = - ((- total) / limit).
Proof.
  intros Hl. destruct limit as [|q|q]; try lia.
  unfold pages, Js.quot.
  rewrite (Qceiling_comp _ (total # q)) by (symmetry; apply Qmake_Qdiv).
  reflexivity.
Qed.

(** [Math.ceil(total / limit)] is the least number of pages. *)
Lemma pages_least (total limit : Z) :
  0 ≤ total → 1 ≤ limit →
  (pages total limit - 1) * limit < total ≤ pages total limit * limit
  ∧ (pages total limit = 0 ↔ total = 0).
Proof.
  intros Ht Hl. rewrite pages_eq by lia.
  pose proof (Z.div_mod (- total) limit ltac:(lia)) as E.
  pose proof (Z.mod_pos_bound (- total) limit ltac:(lia)) as B.
  split; [nia|]. split; intros H; nia.
Qed.

(** X13: [pages] is the least number of pages of [limit] documents that hold
    [total] documents; it is 0 exactly when there is none. *)
Theorem pages_bounds (total limit : Z) :
  0 ≤ total → 1 ≤ limit →
  (pages total limit - 1) * limit < total ≤ pages total limit * limit
  ∧ (pages total limit = 0 ↔ total = 0).
Proof.
  intros Ht Hl. rewrite pages_eq by lia.
  pose proof (Z.div_mod (- total) limit ltac:(lia)) as E.
  pose proof (Z.mod_pos_bound (- total) limit ltac:(lia)) as B.
  split; [nia|]. split; intros H; nia.
Qed.

Lemma skip_to_nat (page limit : Z) :
  1 ≤ page → 0 ≤ limit →
  Z.to_nat (skip page limit) = (Z.to_nat (page - 1) * Z.to_nat limit)%nat.
Proof. intros Hp Hl. unfold skip. rewrite Z2Nat.inj_mul; lia. Qed.

(** The size of a page. *)
Lemma window_size {A : Type} (page limit : Z) (found : list A) :
  valid page limit = true →
  let total := Z.of_nat (length found) in
  Z.of_nat (length (window page limit found))
  = Z.min limit (Z.max 0 (total - skip page limit))
  ∧ (pages total limit < page → window page limit found = []).
Proof.
  unfold valid. intros Hv. cbv zeta.
  assert (Hp : 1 ≤ page ∧ 1 ≤ limit ≤ 100) by lia. clear Hv.
  unfold window. split.
  - rewrite length_take, length_drop. unfold skip. nia.
  - intros Hlast.
    destruct (pages_least (Z.of_nat (length found)) limit) as [[_ Hle] _];
      [lia..|].
    rewrite drop_ge; [by rewrite take_nil|].
    unfold skip. nia.
Qed.

(** X14: A page holds at most [limit] documents: the documents that remain after
    the pages before it, up to [limit]; past the last page it is empty. *)
Theorem window_length {A : Type} (page limit : Z) (found : list A) :
  valid page limit = true →
  let total := Z.of_nat (length found) in
  Z.of_nat (length (window page limit found))
  = Z.min limit (Z.max 0 (total - skip page limit))
  ∧ (pages total limit < page → window page limit found = []).
Proof.
  unfold valid. intros Hv. cbv zeta.
  assert (Hp : 1 ≤ page ∧ 1 ≤ limit ≤ 100) by lia. clear Hv.
  unfold window. split.
  - rewrite length_take, length_drop. unfold skip. nia.
  - intros Hlast.
    destruct (pages_least (Z.of_nat (length found)) limit) as [[_ Hle] _];
      [lia..|].
    rewrite drop_ge; [by rewrite take_nil|].
    unfold skip. nia.
Qed.

Lemma windows_concat {A : Type} (L n : nat) (l : list A) :
  concat ((fun i => take L (drop (i * L) l)) <$> seq 0 n) = take (n * L) l.
Proof.
  induction n as [|n IH]; [done|].
  rewrite seq_S, fmap_app, concat_app, IH. simpl.
  rewrite app_nil_r, take_take_drop. f_equal. lia.
Qed.

(** X15: The pages 1 to [pages] partition the documents: read one after the
    other they are the sorted documents, each exactly once. *)
Theorem pages_cover {A : Type} (limit : Z) (found : list A) :
  1 ≤ limit →
  concat ((fun page => window page limit found)
            <$> seqZ 1 (pages (Z.of_nat (length found)) limit))
  = found.
Proof.
  intros Hl.
  destruct (pages_least (Z.of_nat (length found)) limit) as [[Hlo Hhi] _];
    [lia..|].
  set (n := pages (Z.of_nat (length found)) limit) in *.
  unfold seqZ. rewrite <- list_fmap_compose.
  rewrite (list_fmap_ext _
             (fun i => take (Z.to_nat limit) (drop (i * Z.to_nat limit) found))).
  - rewrite windows_concat. apply take_ge. nia.
  - intros _ i _. unfold window, compose.
    rewrite skip_to_nat by lia. do 3 f_equal. lia.
Qed.

End Paging.

Lemma pages_bounds_witness :
  (Pagination.pages 41 20 - 1) * 20 < 41 ≤ Pagination.pages 41 20 * 20
  ∧ (Pagination.pages 41 20 = 0 ↔ 41 = 0).
Proof. exact (pages_bounds 41 20 ltac:(lia) ltac:(lia)). Defined.

Lemma window_length_witness :
  let found := [1; 2; 3; 4; 5] in
  let total := Z.of_nat (length found) in
  Z.of_nat (length (Pagination.window 3 2 found))
  = Z.min 2 (Z.max 0 (total - Pagination.skip 3 2))
  ∧ (Pagination.pages total 2 < 3 → Pagination.window 3 2 found = []).
Proof. exact (window_length 3 2 [1; 2; 3; 4; 5] eq_refl). Defined.

Lemma pages_cover_witness :
  let found := [1; 2; 3; 4; 5] in
  concat ((fun page => Pagination.window page 2 found)
            <$> seqZ 1 (Pagination.pages (Z.of_nat (length found)) 2))
  = found.
Proof. exact (pages_cover 2 [1; 2; 3; 4; 5] ltac:(lia)). Defined.

(** ** The order of [$sort] *)

Lemma fieldCompare_eq (a b : option Z) :
  Mongo.fieldCompare a b = Eq → a = b.
Proof.
  destruct a as [x|], b as [y|]; simpl; try done.
  intros ->%Z.compare_eq_iff. done.
Qed.

Lemma fieldCompare_antisym (a b : option Z) :
  Mongo.fieldCompare b a = CompOpp (Mongo.fieldCompare a b).
Proof.
  destruct a as [x|], b as [y|]; simpl; try done. apply Z.compare_antisym.
Qed.

Lemma fieldCompare_trans (a b c : option Z) :
  Mongo.fieldCompare a b ≠ Gt → Mongo.fieldCompare b c ≠ Gt →
  Mongo.fieldCompare a c ≠ Gt
  ∧ (Mongo.fieldCompare a c = Eq →
     Mongo.fieldCompare a b = Eq ∧ Mongo.fieldCompare b c = Eq).
Proof.
  destruct a as [x|], b as [y|], c as [z|]; simpl; try done.
  destruct (Z.compare_spec x y), (Z.compare_spec y z), (Z.compare_spec x z);
    try done; lia.
Qed.

Lemma lexCompare_antisym (xs ys : list (option Z)) :
  lexCompare ys xs = CompOpp (lexCompare xs ys).
Proof.
  revert ys. induction xs as [|x xs IH]; intros [|y ys]; simpl; try done.
  rewrite (fieldCompare_antisym x y).
  destruct (Mongo.fieldCompare x y); simpl; [apply IH|done..].
Qed.

Lemma lexCompare_eq (xs ys : list (option Z)) :
  length xs = length ys → lexCompare xs ys = Eq → xs = ys.
Proof.
  revert ys. induction xs as [|x xs IH]; intros [|y ys]; simpl; try done.
  intros [= Hlen]. destruct (Mongo.fieldCompare x y) eqn:E; try done.
  intros H. apply fieldCompare_eq in E as ->. f_equal. by apply IH.
Qed.

Lemma lexCompare_trans (xs ys zs : list (option Z)) :
  length xs = length ys → length ys = length zs →
  lexCompare xs ys ≠ Gt → lexCompare ys zs ≠ Gt → lexCompare xs zs ≠ Gt.
Proof.
  revert ys zs.
  induction xs as [|x xs IH]; intros [|y ys] [|z zs]; simpl; try done.
  intros [= Hxy] [= Hyz] H1 H2.
  destruct (Mongo.fieldCompare x y) eqn:Exy; [| |done];
    destruct (Mongo.fieldCompare y z) eqn:Eyz; try done;
    destruct (fieldCompare_trans x y z) as [Hle Heq];
    rewrite ?Exy, ?Eyz; try done;
    destruct (Mongo.fieldCompare x z) eqn:Exz; try done.
  - by eapply IH.
  - destruct (Heq eq_refl) as [_ ?]. congruence.
  - destruct (Heq eq_refl) as [? _]. congruence.
  - destruct (Heq eq_refl) as [? _]. congruence.
Qed.

Lemma idCompare_lex (a b : Tracking.Analytics.BucketId) :
  Tracking.Analytics.idCompare a b = lexCompare (sortKeys a) (sortKeys b).
Proof.
  unfold Tracking.Analytics.idCompare, sortKeys. simpl.
  repeat destruct (Mongo.fieldCompare _ _); reflexivity.
Qed.

Lemma sortKeys_inj (a b : Tracking.Analytics.BucketId) :
  sortKeys a = sortKeys b → a = b.
Proof. destruct a, b. unfold sortKeys. simpl. by intros [= -> -> -> -> ->]. Qed.

#[local] Instance byId_total : Total Tracking.Analytics.byId.
Proof.
  intros a b. unfold Tracking.Analytics.byId.
  rewrite !idCompare_lex, (lexCompare_antisym (sortKeys a.1) (sortKeys b.1)).
  destruct (lexCompare (sortKeys a.1) (sortKeys b.1)); simpl; auto.
Qed.

#[local] Instance byId_trans : Transitive Tracking.Analytics.byId.
Proof.
  intros a b c. unfold Tracking.Analytics.byId. rewrite !idCompare_lex.
  by apply lexCompare_trans.
Qed.

#[local] Instance newestFirst_total : Total Requests.newestFirst.
Proof.
  intros a b. unfold Requests.newestFirst.
  rewrite (fieldCompare_antisym (Tracking.startTimeOf b)).
  destruct (Mongo.fieldCompare _ _); simpl; auto.
Qed.

#[local] Instance newestFirst_trans : Transitive Requests.newestFirst.
Proof.
  intros a b c. unfold Requests.newestFirst. intros H1 H2.
  by destruct (fieldCompare_trans _ _ _ H2 H1).
Qed.

Lemma StronglySorted_strict {A B : Type} (R R' : relation A) (key : A → B)
    (l : list A) :
  (∀ x y, R x y → key x ≠ key y → R' x y) →
  StronglySorted R l → NoDup (key <$> l) → StronglySorted R' l.
Proof.
  intros HR. induction 1 as [|x l Hl IH Hx]; [constructor|].
  rewrite fmap_cons. intros [Hnin Hnd]%NoDup_cons.
  constructor; [by apply IH|].
  rewrite Forall_forall in Hx |- *. intros y Hy. apply HR; [by apply Hx|].
  intros Heq. apply Hnin. rewrite Heq. by apply list_elem_of_fmap_2.
Qed.

Section AnalyticsOrder.

Import Tracking.
Context {F : Js.Ieee} {P : Mongo.Pipeline} {PL : Mongo.PipelineLaws P}.

(** X4: The buckets come out in strictly ascending order of year, month, day,
    hour and week, a field the granularity does not have counting as
    equal: no two buckets have the same key, and an earlier bucket is
    listed before a later one, whatever order the grouping stage used. *)
Theorem analytics_rows_ascending (f : Filter) (groupBy : Analytics.GroupBy)
    (docs : list ApiRequest.Doc) :
  StronglySorted
    (fun r1 r2 => Analytics.idCompare (Analytics.Row.bucket r1)
                    (Analytics.Row.bucket r2) = Lt)
    (Analytics.formattedAnalytics f groupBy docs).
Proof.
  unfold Analytics.formattedAnalytics.
  apply (StronglySorted_fmap _
           (fun a b : Analytics.BucketId * Analytics.Acc =>
              Analytics.idCompare a.1 b.1 = Lt)); [done|].
  destruct (aggregate_spec f groupBy docs) as [Hnd _].
  apply (StronglySorted_strict Analytics.byId _ fst); [| |exact Hnd].
  - intros x y Hxy Hne. unfold Analytics.byId in Hxy.
    destruct (Analytics.idCompare x.1 y.1) eqn:E; [|done..].
    destruct Hne. apply sortKeys_inj, lexCompare_eq; [done|].
    by rewrite <- idCompare_lex.
  - unfold Analytics.aggregate. apply StronglySorted_merge_sort; apply _.
Qed.

End AnalyticsOrder.

Lemma analytics_rows_ascending_witness :
  StronglySorted
    (fun r1 r2 =>
       Tracking.Analytics.idCompare (Tracking.Analytics.Row.bucket r1)
         (Tracking.Analytics.Row.bucket r2) = Lt)
    (@Tracking.Analytics.formattedAnalytics Js.exact Utc.pipeline everything
       Tracking.Analytics.ByHour scenario).
Proof.
  exact (@analytics_rows_ascending Js.exact Utc.pipeline utc_laws everything
           Tracking.Analytics.ByHour scenario).
Defined.

Lemma analytics_bucket_counters_witness :
  let rows := @Tracking.Analytics.formattedAnalytics Js.exact Utc.pipeline
                everything Tracking.Analytics.ByHour scenario in
  Forall (fun row =>
    let ms := Mongo.members
                (@Tracking.Analytics.groupFields Utc.pipeline
                   Tracking.Analytics.ByHour)
                (Tracking.Analytics.Row.bucket row)
                (Tracking.matching everything scenario) in
    Tracking.Analytics.Row.successfulRequests row
    = countIf ApiRequest.isSuccess ms
    ∧ Tracking.Analytics.Row.failedRequests row = countIf ApiRequest.isError ms
    ∧ Tracking.Analytics.Row.successfulRequests row
      + Tracking.Analytics.Row.failedRequests row
      ≤ Tracking.Analytics.Row.totalRequests row) rows.
Proof.
  exact (@analytics_bucket_counters Js.exact Utc.pipeline utc_laws everything
           Tracking.Analytics.ByHour scenario).
Defined.

Lemma analytics_bucket_extrema_witness :
  let rows := @Tracking.Analytics.formattedAnalytics Js.exact Utc.pipeline
                everything Tracking.Analytics.ByDay scenario in
  Forall (fun row =>
    let ms := Mongo.members
                (@Tracking.Analytics.groupFields Utc.pipeline
                   Tracking.Analytics.ByDay)
                (Tracking.Analytics.Row.bucket row)
                (Tracking.matching everything scenario) in
    ∃ lo hi,
      Tracking.Analytics.Row.minResponseTime row = Some lo
      ∧ Tracking.Analytics.Row.maxResponseTime row = Some hi
      ∧ lo ∈ Tracking.durationOf <$> ms
      ∧ hi ∈ Tracking.durationOf <$> ms
      ∧ ∀ r, r ∈ ms → lo ≤ Tracking.durationOf r ≤ hi) rows.
Proof.
  exact (@analytics_bucket_extrema Js.exact Utc.pipeline utc_laws everything
           Tracking.Analytics.ByDay scenario).
Defined.

Lemma analytics_distinct_counts_witness :
  let rows := @Tracking.Analytics.formattedAnalytics Js.exact Utc.pipeline
                everything Tracking.Analytics.ByDay scenario in
  Forall (fun row =>
    let ms := Mongo.members
                (@Tracking.Analytics.groupFields Utc.pipeline
                   Tracking.Analytics.ByDay)
                (Tracking.Analytics.Row.bucket row)
                (Tracking.matching everything scenario) in
    Tracking.Analytics.Row.uniqueEndpointCount row
    = Z.of_nat (size (list_to_set (ApiRequest.endpoint <$> ms) : gset string))
    ∧ Tracking.Analytics.Row.uniqueUserCount row
      = Z.of_nat (size (list_to_set (ApiRequest.userId <$> ms)
                        : gset (option string)))
    ∧ 1 ≤ Tracking.Analytics.Row.uniqueEndpointCount row
        ≤ Tracking.Analytics.Row.totalRequests row
    ∧ 1 ≤ Tracking.Analytics.Row.uniqueUserCount row
        ≤ Tracking.Analytics.Row.totalRequests row
    ∧ ((∀ r, r ∈ ms → ApiRequest.userId r = None)
       → Tracking.Analytics.Row.uniqueUserCount row = 1)) rows.
Proof.
  exact (@analytics_distinct_counts Js.exact Utc.pipeline utc_laws everything
           Tracking.Analytics.ByDay scenario).
Defined.

Lemma overview_counts_witness :
  let o := @Tracking.Overview.overview Utc.pipeline everything scenario in
  let ms := Tracking.matching everything scenario in
  Tracking.Overview.totalRequests o = Z.of_nat (length ms)
  ∧ Tracking.Overview.successfulRequests o = countIf ApiRequest.isSuccess ms
  ∧ Tracking.Overview.failedRequests o = countIf ApiRequest.isError ms
  ∧ Tracking.Overview.successfulRequests o + Tracking.Overview.failedRequests o
    ≤ Tracking.Overview.totalRequests o
  ∧ (ms = [] → o = Tracking.Overview.noRequests).
Proof.
  exact (@overview_counts Utc.pipeline utc_laws everything scenario).
Defined.

Lemma recorder_agrees_with_overview_witness :
  let m := recorded ApiEndpoint.defaultMetrics
             (sampleOf <$> Tracking.matching everything scenario) in
  let o := @Tracking.Overview.overview Utc.pipeline everything scenario in
  ApiEndpoint.totalRequests m = Tracking.Overview.totalRequests o
  ∧ ApiEndpoint.successfulRequests m = Tracking.Overview.successfulRequests o
  ∧ ApiEndpoint.failedRequests m = Tracking.Overview.failedRequests o.
Proof.
  exact (@recorder_agrees_with_overview Utc.pipeline utc_laws everything
           scenario).
Defined.

Lemma topProducts_successRate_witness :
  let items := @Tracking.TopProducts.topProducts Js.exact Utc.pipeline
                 everything scenario in
  Tracking.TopProducts.Item.successRate <$> items = [67]
  ∧ Forall (fun it =>
      let ms := Mongo.members ApiRequest.product
                  (Tracking.TopProducts.Item._id it)
                  (Tracking.matching everything scenario) in
      ms ≠ []
      ∧ Tracking.TopProducts.Item.requestCount it = Z.of_nat (length ms)
      ∧ Tracking.TopProducts.Item.successRate it
        = Js.mathRound (@Tracking.percent Js.exact
                          (countIf ApiRequest.isSuccess ms)
                          (Z.of_nat (length ms)))
      ∧ 0 ≤ Tracking.TopProducts.Item.successRate it ≤ 100) items.
Proof.
  split; [reflexivity|].
  exact (@topProducts_successRate Js.exact exact_laws Utc.pipeline utc_laws
           everything scenario).
Defined.

(** ** The listing of requests *)

Lemma filter_split {A : Type} (p q r : A → bool) (l : list A) :
  (∀ x, p x = q x || r x) → (∀ x, q x && r x = false) →
  List.filter p l ≡ₚ List.filter q l ++ List.filter r l.
Proof.
  intros Hp Hqr. induction l as [|x l IH]; [done|].
  simpl. rewrite Hp. specialize (Hqr x).
  destruct (q x), (r x); try discriminate; simpl.
  - by constructor.
  - rewrite IH. apply Permutation_middle.
  - done.
Qed.

Section Listing.

Import Requests.

Lemma matches_withStatus (q : Query) (s : Status) (r : ApiRequest.Doc) :
  matches (withStatus q s) r
  = matches (withStatus q s) r && statusMatches s (Tracking.statusOf r).
Proof.
  unfold matches, withStatus. cbn [status].
  destruct (statusMatches s (Tracking.statusOf r));
    rewrite ?andb_true_r, ?andb_false_r; done.
Qed.

Lemma matches_status_false (q : Query) (s : Status) (r : ApiRequest.Doc) :
  statusMatches s (Tracking.statusOf r) = false →
  matches (withStatus q s) r = false.
Proof.
  intros Hs. rewrite matches_withStatus, Hs. apply andb_false_r.
Qed.

Lemma matches_status_ext (q : Query) (s s' : Status) (r : ApiRequest.Doc) :
  statusMatches s (Tracking.statusOf r) = true →
  statusMatches s' (Tracking.statusOf r) = true →
  matches (withStatus q s) r = matches (withStatus q s') r.
Proof.
  unfold matches, withStatus. cbn [status product endpoint method environment
    startDate endDate minDuration maxDuration].
  by intros -> ->.
Qed.

(** X16: The status filters of the listing: the records listed under [error] are
    those listed under [client-error] together with those listed under
    [server-error], and no record is listed under both; no record is listed
    under both [success] and [error]; and a record with a status below 200
    or from 300 to 399, a network failure with status 0 among them, is
    listed under no status filter. *)
Theorem status_filters (q : Query) (docs : list ApiRequest.Doc) :
  found (withStatus q error) docs
  ≡ₚ found (withStatus q client_error) docs
     ++ found (withStatus q server_error) docs
  ∧ Forall (fun r => r ∉ found (withStatus q server_error) docs)
      (found (withStatus q client_error) docs)
  ∧ Forall (fun r => r ∉ found (withStatus q error) docs)
      (found (withStatus q success) docs)
  ∧ Forall (fun r => ∀ s, r ∈ found (withStatus q s) docs →
                          200 ≤ Tracking.statusOf r < 300
                          ∨ 400 ≤ Tracking.statusOf r) docs.
Proof.
  unfold found.
  assert (Hin : ∀ s r, r ∈ merge_sort newestFirst
                             (List.filter (matches (withStatus q s)) docs)
                       → statusMatches s (Tracking.statusOf r) = true).
  { intros s r. rewrite merge_sort_Permutation, list_elem_of_In, filter_In.
    intros [_ Hm]. rewrite matches_withStatus in Hm.
    by apply andb_true_iff in Hm as [_ ?]. }
  split; [|split; [|split]].
  - rewrite !merge_sort_Permutation. apply filter_split.
    + intros r.
      destruct (statusMatches client_error (Tracking.statusOf r)) eqn:Ec,
               (statusMatches server_error (Tracking.statusOf r)) eqn:Es.
      * simpl in Ec, Es. lia.
      * rewrite (matches_status_false q server_error r Es), orb_false_r.
        apply matches_status_ext; [simpl in *; lia|done].
      * rewrite (matches_status_false q client_error r Ec), orb_false_l.
        apply matches_status_ext; [simpl in *; lia|done].
      * rewrite (matches_status_false q server_error r Es),
          (matches_status_false q client_error r Ec).
        apply matches_status_false. simpl in *. lia.
    + intros r.
      destruct (statusMatches client_error (Tracking.statusOf r)) eqn:Ec;
        [|by rewrite (matches_status_false q client_error r Ec)].
      rewrite (matches_status_false q server_error r); [apply andb_false_r|].
      simpl in *. lia.
  - apply Forall_forall. intros r Hc%Hin Hs%Hin. simpl in *. lia.
  - apply Forall_forall. intros r Hc%Hin Hs%Hin. simpl in *. lia.
  - apply Forall_forall. intros r _ s Hs%Hin. destruct s; simpl in *; lia.
Qed.

(** X17: The listing answers with the page asked for, newest first: every listed
    record satisfies the filter, at most [limit] records are listed, and
    [total] counts all records that satisfy the filter, on whatever page. *)
Theorem listing_page (q : Query) (docs : list ApiRequest.Doc) :
  match handler q docs with
  | Some (items, info) =>
      StronglySorted newestFirst items
      ∧ Forall (fun r => matches q r = true ∧ r ∈ docs) items
      ∧ Z.of_nat (length items) ≤ Pagination.limit info
      ∧ Pagination.total info = countIf (matches q) docs
      ∧ Pagination.limit info = default 20 (limit q)
  | None => Pagination.valid (default 1 (page q)) (default 20 (limit q)) = false
  end.
Proof.
  unfold handler, Pagination.paginate.
  destruct (Pagination.valid _ _) eqn:Hv; [|done].
  cbn [Pagination.limit Pagination.total].
  split; [|split; [|split; [|split]]].
  - unfold Pagination.window.
    apply StronglySorted_take.
    assert (Hs : StronglySorted newestFirst (found q docs))
      by (apply StronglySorted_merge_sort; apply _).
    rewrite <- (take_drop (Z.to_nat (Pagination.skip (default 1 (page q))
                                       (default 20 (limit q))))
                  (found q docs)) in Hs.
    by apply StronglySorted_app_1_r in Hs.
  - apply Forall_forall. intros r Hr.
    assert (Hf : r ∈ found q docs).
    { unfold Pagination.window in Hr.
      apply (elem_of_sublist _ _ _ Hr).
      etrans; [apply sublist_take|apply sublist_drop]. }
    unfold found in Hf.
    rewrite merge_sort_Permutation, list_elem_of_In, filter_In in Hf.
    destruct Hf as [Hd Hm]. split; [done|]. by apply list_elem_of_In.
  - destruct (window_size (default 1 (page q)) (default 20 (limit q))
                (found q docs) Hv) as [-> _].
    lia.
  - unfold found, countIf. by rewrite merge_sort_Permutation.
  - done.
Qed.

End Listing.

(** ** The breakdowns of the dashboard *)

Lemma count_fold {Doc : Type} (c : Z) (l : list Doc) :
  foldl (fun count _ => count + 1) c l = c + Z.of_nat (length l).
Proof.
  revert c. induction l as [|d l IH]; intros c; simpl; [lia|].
  rewrite IH. lia.
Qed.

#[local] Instance byCode_total : Total Dashboard.byCode.
Proof. intros a b. unfold Dashboard.byCode. lia. Qed.

#[local] Instance byCode_trans : Transitive Dashboard.byCode.
Proof. intros a b c. unfold Dashboard.byCode. lia. Qed.

Section Breakdowns.

Import Tracking.
Context {P : Mongo.Pipeline} {PL : Mongo.PipelineLaws P}.

Lemma method_fold (acc : Z * Z) (l : list ApiRequest.Doc) :
  (foldl Dashboard.methodStep acc l).1 = acc.1 + Z.of_nat (length l).
Proof.
  revert acc. induction l as [|d l IH]; intros acc; simpl; [lia|].
  rewrite IH. simpl. lia.
Qed.

(** X18: The status-code breakdown lists each status code that occurs among
    the matching records, each once and in strictly ascending order, with
    the number of matching records that have it; a code that no matching
    record has is not listed. *)
Theorem requestsByStatus_spec (f : Filter) (docs : list ApiRequest.Doc) :
  let rows := Dashboard.requestsByStatus f docs in
  StronglySorted (fun a b => a.1 < b.1) rows
  ∧ Forall (fun g => 0 < g.2
                     ∧ g.2 = countIf (fun r => bool_decide (statusOf r = g.1))
                               (matching f docs)) rows
  ∧ Forall (fun r => statusOf r ∈ rows.*1) (matching f docs).
Proof.
  cbv zeta. unfold Dashboard.requestsByStatus.
  destruct (group_spec statusOf 0 (fun count (_ : ApiRequest.Doc) => count + 1)
              (matching f docs)) as [Hnd Hin].
  split; [|split].
  - apply (StronglySorted_strict Dashboard.byCode _ fst).
    + intros x y Hxy Hne. unfold Dashboard.byCode in Hxy. lia.
    + apply StronglySorted_merge_sort; apply _.
    + by rewrite merge_sort_Permutation.
  - apply Forall_forall. intros [k c] Hk.
    rewrite merge_sort_Permutation in Hk.
    destruct (Hin k c Hk) as [Hne ->]. rewrite count_fold. simpl.
    unfold countIf, Mongo.members in *.
    assert (Hlen : length (filter (fun doc => statusOf doc = k) (matching f docs))
                   = length (List.filter
                               (fun r => bool_decide (statusOf r = k))
                               (matching f docs))).
    { clear. induction (matching f docs) as [|d l IH]; [done|].
      rewrite filter_cons. simpl.
      destruct (decide (statusOf d = k)) as [E|E].
      - rewrite bool_decide_true by done. simpl. by rewrite IH.
      - rewrite bool_decide_false by done. done. }
    rewrite <- Hlen.
    destruct (filter _ _); [done|simpl; lia].
  - apply Forall_forall. intros r Hr.
    rewrite merge_sort_Permutation. by apply group_complete.
Qed.

(** X19: The breakdowns agree with the overview: the counts by status code and
    the counts by method both add up to the overview's [totalRequests]. *)
Theorem breakdowns_total (f : Filter) (docs : list ApiRequest.Doc) :
  sumZ (snd <$> Dashboard.requestsByStatus f docs)
  = Overview.totalRequests (Overview.overview f docs)
  ∧ sumZ ((fun g => g.2.1) <$> Dashboard.requestsByMethod f docs)
    = Overview.totalRequests (Overview.overview f docs).
Proof.
  destruct (overview_totals f docs) as (-> & _).
  unfold Dashboard.requestsByStatus, Dashboard.requestsByMethod. split.
  - rewrite (sumZ_Permutation _
               ((fun g => id g.2)
                  <$> Mongo.scan statusOf 0
                        (fun count (_ : ApiRequest.Doc) => count + 1)
                        (matching f docs))).
    + apply (scan_count statusOf 0 _ id); [done|done].
    + apply fmap_Permutation. rewrite merge_sort_Permutation.
      by apply group_Permutation.
  - rewrite (sumZ_Permutation _
               ((fun g => fst g.2)
                  <$> Mongo.scan ApiRequest.method (0, 0) Dashboard.methodStep
                        (matching f docs))).
    + apply (scan_count ApiRequest.method (0, 0) Dashboard.methodStep fst);
        [done|done].
    + apply fmap_Permutation. rewrite merge_sort_Permutation.
      by apply group_Permutation.
Qed.

End Breakdowns.

(** X20: "Recent errors" lists at most 10 records, newest first; each of them
    matches the filter and has a status of at least 400, so a network
    failure, which is stored with status 0, is never among them. *)
Theorem recentErrors_spec (f : Tracking.Filter) (docs : list ApiRequest.Doc) :
  let errors := Dashboard.recentErrors f docs in
  (length errors ≤ 10)%nat
  ∧ StronglySorted Requests.newestFirst errors
  ∧ Forall (fun r => r ∈ docs
                     ∧ Tracking.matches f r = true
                     ∧ 400 ≤ Tracking.statusOf r) errors.
Proof.
  cbv zeta. unfold Dashboard.recentErrors. split; [|split].
  - rewrite length_take. lia.
  - apply StronglySorted_take, StronglySorted_merge_sort; apply _.
  - apply Forall_forall. intros r Hr.
    pose proof (elem_of_sublist _ _ _ Hr (sublist_take _ _)) as Hr'.
    clear Hr. rewrite merge_sort_Permutation, list_elem_of_In, filter_In in Hr'.
    destruct Hr' as [Hd [Hm He]%andb_true_iff].
    split; [by apply list_elem_of_In|]. split; [done|].
    unfold ApiRequest.isError, Tracking.statusOf in *. lia.
Qed.

(** ** Performance: the histogram, the percentiles, the slowest endpoints *)

(** X21: Where a duration lands in the histogram: in the bucket of the greatest
    boundary it reaches, as long as it is below 30000; a negative duration
    and a duration of 30000 or more land in the default bucket. *)
Theorem bucketOf_spec (v : Z) :
  match Performance.bucketOf Performance.boundaries v with
  | Performance.Lower b =>
      b ∈ Performance.boundaries ∧ b ≤ v < 30000
      ∧ Forall (fun b' => b' ≤ v → b' ≤ b) Performance.boundaries
  | Performance.Default => v < 0 ∨ 30000 ≤ v
  end.
Proof.
  unfold Performance.boundaries. cbn [Performance.bucketOf].
  repeat match goal with
         | |- context [(?lo <=? v) && (v <? ?hi)] =>
             destruct (Z.leb_spec lo v), (Z.ltb_spec v hi); cbn [andb]
         end;
    try lia;
    (split; [set_solver|]; split; [lia|]; repeat constructor; lia).
Qed.

Section PerformanceFacts.

Import Tracking.
Context {F : Js.Ieee} {P : Mongo.Pipeline} {PL : Mongo.PipelineLaws P}.

(** The [$match] of the three aggregations: with a product or an endpoint
    in the query nothing passes it; without, the records of the period
    do. *)
Lemma performance_matching (f : Performance.Filter)
    (docs : list ApiRequest.Doc) :
  Performance.matching f docs
  = if Js.truthy (Performance.product f) || Js.truthy (Performance.endpoint f)
    then []
    else List.filter
           (fun r => match startTimeOf r with
                     | Some t => Performance.startDate f <=? t
                     | None => false
                     end) docs.
Proof.
  unfold Performance.matching.
  destruct (Js.truthy (Performance.product f)) eqn:Hp;
    [|destruct (Js.truthy (Performance.endpoint f)) eqn:He]; cbn [orb].
  - apply filter_none. intros r. unfold Performance.matches.
    rewrite !idMatches_spec, Hp. by rewrite andb_false_r.
  - apply filter_none. intros r. unfold Performance.matches.
    rewrite !idMatches_spec, He. by rewrite andb_false_r.
  - apply filter_ext_bool. intros r. unfold Performance.matches.
    rewrite !idMatches_spec, Hp, He. by rewrite !andb_true_r.
Qed.

(** X22: The histogram stage counts every record that passes its [$match] in
    exactly one bucket: the bucket ids are distinct, each count is positive
    and is the number of these records whose duration lands in that
    bucket, the counts add up to the number of these records, and the
    bucket of every such record is returned.  The records that pass are
    those of the period when the query names neither a product nor an
    endpoint, and none when it names one. *)
Theorem distribution_counts (f : Performance.Filter)
    (docs : list ApiRequest.Doc) :
  let rows := Performance.responseTimeDistribution f docs in
  let selected :=
    if Js.truthy (Performance.product f) || Js.truthy (Performance.endpoint f)
    then []
    else List.filter
           (fun r => match startTimeOf r with
                     | Some t => Performance.startDate f <=? t
                     | None => false
                     end) docs in
  NoDup rows.*1
  ∧ sumZ rows.*2 = Z.of_nat (length selected)
  ∧ Forall (fun g =>
              0 < g.2
              ∧ g.2 = Z.of_nat
                        (length (Mongo.members
                                   (fun r => Performance.bucketOf
                                               Performance.boundaries
                                               (durationOf r))
                                   g.1 selected))) rows
  ∧ Forall (fun r => Performance.bucketOf Performance.boundaries
                       (durationOf r) ∈ rows.*1) selected.
Proof.
  cbv zeta. rewrite <- (performance_matching f docs).
  unfold Performance.responseTimeDistribution.
  set (key := fun r => Performance.bucketOf Performance.boundaries
                         (durationOf r)).
  destruct (group_spec key 0 (fun count (_ : ApiRequest.Doc) => count + 1)
              (Performance.matching f docs)) as [Hnd Hin].
  split; [done|]. split; [|split].
  - rewrite (sumZ_Permutation _
               ((fun g => id g.2)
                  <$> Mongo.scan key 0
                        (fun count (_ : ApiRequest.Doc) => count + 1)
                        (Performance.matching f docs))).
    + by apply (scan_count key 0 _ id).
    + apply fmap_Permutation. by apply group_Permutation.
  - apply Forall_forall. intros [k c] Hk.
    destruct (Hin k c Hk) as [Hne ->]. rewrite count_fold. simpl.
    destruct (Mongo.members _ _ _); [done|simpl; lia].
  - apply Forall_forall. intros r Hr.
    by apply (group_complete key).
Qed.

(** X23: GET /api/tracking/performance never answers with data.  Its first
    aggregation gives each of the four [$percentile] accumulators a number
    for [p] and no [method]; the store accepts none of them and rejects the
    aggregation, and the handler's [catch] answers 500, for every query
    that passes the validators and whatever the store holds. *)
Theorem performance_always_fails (f : Performance.Filter)
    (docs : list ApiRequest.Doc) :
  Forall (fun a => Mongo.percentileAccepted a = false)
    Performance.percentiles
  ∧ (∃ e, Performance.performance f docs = Js.Throw e)
  ∧ Performance.handler f docs = Performance.ServerError.
Proof.
  split; [by repeat constructor|]. split; [by eexists|]. reflexivity.
Qed.

End PerformanceFacts.

Section Slowest.

Import Tracking.
Context {F : Js.Ieee} {FL : Js.IeeeLaws F}.
Context {P : Mongo.Pipeline} {PL : Mongo.PipelineLaws P}.

#[local] Instance bySlowness_total : Total Performance.bySlowness.
Proof.
  intros a b. unfold Performance.bySlowness.
  destruct (Qlt_le_dec (Performance.avgResponseTime a.2)
              (Performance.avgResponseTime b.2)) as [Hlt|Hle].
  - right. by apply Qlt_le_weak.
  - by left.
Qed.

#[local] Instance bySlowness_trans : Transitive Performance.bySlowness.
Proof.
  intros a b c. unfold Performance.bySlowness. intros H1 H2.
  by apply Qle_trans with (Performance.avgResponseTime b.2).
Qed.

Lemma slowest_fold (a : Performance.Slowest.Acc) (l : list ApiRequest.Doc) :
  Performance.Slowest.requestCount (foldl Performance.slowestStep a l)
  = Performance.Slowest.requestCount a + Z.of_nat (length l)
  ∧ Performance.Slowest.slowRequestCount (foldl Performance.slowestStep a l)
    = Performance.Slowest.slowRequestCount a
      + countIf (fun r => 1000 <? durationOf r) l.
Proof.
  revert a. induction l as [|d l IH]; intros a.
  - unfold countIf. simpl. lia.
  - simpl foldl. destruct (IH (Performance.slowestStep a d)) as (-> & ->).
    rewrite !countIf_cons. unfold Performance.slowestStep, Performance.slow.
    simpl. destruct (1000 <? durationOf d); lia.
Qed.

(** X24: The slowest endpoints: at most 10 entries, no endpoint twice, an entry
    never after one with a smaller average duration; each entry counts the
    matching records of its endpoint and those among them that took more
    than 1000 ms, and its share of slow requests lies between 0 and 100. *)
Theorem slowest_endpoints (f : Performance.Filter)
    (docs : list ApiRequest.Doc) :
  let rows := Performance.slowestEndpoints f docs in
  (length rows ≤ 10)%nat
  ∧ StronglySorted Performance.bySlowness rows
  ∧ NoDup rows.*1
  ∧ Forall (fun g =>
              let ms := Mongo.members ApiRequest.endpoint g.1
                          (Performance.matching f docs) in
              Performance.Slowest.requestCount g.2 = Z.of_nat (length ms)
              ∧ Performance.Slowest.slowRequestCount g.2
                = countIf (fun r => 1000 <? durationOf r) ms
              ∧ 0 ≤ Performance.slowRequestShare g ≤ 100) rows.
Proof.
  cbv zeta. unfold Performance.slowestEndpoints.
  set (groups := Mongo.group ApiRequest.endpoint Performance.slowestEmpty
                   Performance.slowestStep (Performance.matching f docs)).
  destruct (group_spec ApiRequest.endpoint Performance.slowestEmpty
              Performance.slowestStep (Performance.matching f docs))
    as [Hnd Hin].
  fold groups in Hnd, Hin.
  split; [rewrite length_take; lia|]. split; [|split].
  - apply StronglySorted_take, StronglySorted_merge_sort; apply _.
  - apply (sublist_NoDup _ (merge_sort Performance.bySlowness groups).*1).
    + by rewrite merge_sort_Permutation.
    + apply fmap_sublist, sublist_take.
  - apply Forall_forall. intros [k a] Hk.
    pose proof (elem_of_sublist _ _ _ Hk (sublist_take _ _)) as Hg.
    rewrite merge_sort_Permutation in Hg.
    destruct (Hin k a Hg) as [Hne ->]. cbn [fst snd].
    set (ms := Mongo.members ApiRequest.endpoint k _) in *.
    destruct (slowest_fold Performance.slowestEmpty ms) as [Hc Hs].
    pose proof (countIf_bounds (fun r => 1000 <? durationOf r) ms) as Hb.
    unfold Performance.slowRequestShare. cbn [snd].
    rewrite Hc, Hs. simpl.
    split; [lia|]. split; [lia|].
    apply percent_range; [lia|]. destruct ms; [done|simpl; lia].
Qed.

End Slowest.

(** ** API keys *)

Section ApiKeys.

Import User.







(** X26: A generated key is "ak_" followed by the random hex string and is
    active; when no entry had that key before, revoking it gives back the
    active keys the user had. *)
Theorem generate_then_revoke (u : Doc) (name : string)
    (permissions : option (list Permission)) (randomHex : string) (now : Z) :
  let '(k, u1) := generateApiKey u name permissions randomHex now in
  k = "ak_" +:+ randomHex
  ∧ activeKeys u1 = activeKeys u ++ [k]
  ∧ (k ∉ key <$> apiKeys u → activeKeys (revokeApiKey u1 k) = activeKeys u).
Proof.
  unfold generateApiKey, activeKeys, revokeApiKey. cbn [apiKeys email].
  split; [done|]. split.
  - by rewrite List.filter_app, fmap_app.
  - intros Hnin. f_equal.
    induction (apiKeys u) as [|ak l IH]; simpl.
    + by rewrite String.eqb_refl.
    + rewrite fmap_cons in Hnin. apply not_elem_of_cons in Hnin as [Hne Hnin].
      destruct (String.eqb_spec (key ak) ("ak_" +:+ randomHex)) as [E|_];
        [by destruct Hne|].
      simpl. rewrite (IH Hnin). done.
Qed.

End ApiKeys.

Lemma requestsByStatus_spec_witness :
  let rows := @Dashboard.requestsByStatus Utc.pipeline everything scenario in
  rows = [(200, 2); (500, 1)]
  ∧ StronglySorted (fun a b => a.1 < b.1) rows
  ∧ Forall (fun g => 0 < g.2
                     ∧ g.2 = countIf
                               (fun r => bool_decide (Tracking.statusOf r = g.1))
                               (Tracking.matching everything scenario)) rows
  ∧ Forall (fun r => Tracking.statusOf r ∈ rows.*1)
      (Tracking.matching everything scenario).
Proof.
  split; [reflexivity|].
  exact (@requestsByStatus_spec Utc.pipeline utc_laws everything scenario).
Defined.

Lemma breakdowns_total_witness :
  sumZ (snd <$> @Dashboard.requestsByStatus Utc.pipeline everything scenario)
  = Tracking.Overview.totalRequests
      (@Tracking.Overview.overview Utc.pipeline everything scenario)
  ∧ sumZ ((fun g => g.2.1)
            <$> @Dashboard.requestsByMethod Utc.pipeline everything scenario)
    = Tracking.Overview.totalRequests
        (@Tracking.Overview.overview Utc.pipeline everything scenario).
Proof.
  exact (@breakdowns_total Utc.pipeline utc_laws everything scenario).
Defined.

Lemma distribution_counts_witness :
  let rows := @Performance.responseTimeDistribution Utc.pipeline
                allPerformance scenario in
  rows = [(Performance.Lower 100, 3)]
  ∧ NoDup rows.*1
  ∧ sumZ rows.*2 = 3
  ∧ Forall (fun g =>
              0 < g.2
              ∧ g.2 = Z.of_nat
                        (length (Mongo.members
                                   (fun r => Performance.bucketOf
                                               Performance.boundaries
                                               (Tracking.durationOf r))
                                   g.1 scenario))) rows
  ∧ Forall (fun r => Performance.bucketOf Performance.boundaries
                       (Tracking.durationOf r) ∈ rows.*1) scenario.
Proof.
  split; [reflexivity|].
  exact (@distribution_counts Utc.pipeline utc_laws allPerformance scenario).
Defined.

Lemma slowest_endpoints_witness :
  let rows := @Performance.slowestEndpoints Js.exact Utc.pipeline
                allPerformance scenario in
  (length rows ≤ 10)%nat
  ∧ StronglySorted (@Performance.bySlowness Js.exact) rows
  ∧ NoDup rows.*1
  ∧ Forall (fun g =>
              let ms := Mongo.members ApiRequest.endpoint g.1
                          (Performance.matching allPerformance scenario) in
              Performance.Slowest.requestCount g.2 = Z.of_nat (length ms)
              ∧ Performance.Slowest.slowRequestCount g.2
                = countIf (fun r => 1000 <? Tracking.durationOf r) ms
              ∧ 0 ≤ @Performance.slowRequestShare Js.exact g ≤ 100) rows.
Proof.
  exact (@slowest_endpoints Js.exact exact_laws Utc.pipeline utc_laws
           allPerformance scenario).
Defined.
